(** * RakshakAI: the real-time call pipeline, embedded and verified

    A shallow embedding of the backend services of RakshakAI
    ([backend/services/threat_analyzer.py], [intelligence_extractor.py],
    [bait_agent.py], [audio_processor.py], [evidence_packager.py],
    [core/config.py] and the WebSocket endpoint and handlers of
    [backend/api/main.py]), followed by the properties of the pipeline
    stated against it.

    Conventions of the embedding.
    - Python [float]s are rationals ([Q]): a literal denotes its decimal
      value and [+], [*], [/] are exact.  [round(x, 3)] is [round3].
    - Python [str] is [string]; the text is taken to be ASCII, so
      [lower()], [\d], [\s], [\w] and [re.IGNORECASE] are the ASCII ones.
    - A Python [dict] used as a registry is a [gmap string _]; a [dict]
      iterated in insertion order is an association list.
    - External engines (base64, webrtcvad, numpy/librosa feature
      extraction, Whisper, the pickled classifier, the WebSocket, the
      random reply choice, SHA-256 and [json.dumps]) are variables of
      the section that uses them.
    - In [bait_agent.py] the call [state.transcript_history.append]
      of [process_caller_input] that records the agent's turn lacks
      its closing parenthesis; it is read as closed where the
      dictionary ends, before the delay. *)

From Stdlib Require Import QArith Qround Lqa.
From Stdlib Require Import Ascii String.
From stdpp Require Import gmap strings list fin_maps.

Local Open Scope string_scope.
Local Open Scope list_scope.

(** ** Text: the fragment of [str] the services use *)

Module Text.

Definition code (c : ascii) : nat := nat_of_ascii c.

Definition between (lo hi : nat) (c : ascii) : bool :=
  (lo <=? code c)%nat && (code c <=? hi)%nat.

Definition is_digit : ascii -> bool := between 48 57.
Definition is_upper : ascii -> bool := between 65 90.
Definition is_lower : ascii -> bool := between 97 122.
Definition is_alpha (c : ascii) : bool := is_upper c || is_lower c.
Definition is_alnum (c : ascii) : bool := is_alpha c || is_digit c.

(** [\w] *)
Definition is_word (c : ascii) : bool := is_alnum c || (code c =? 95)%nat.

(** [str.isspace], which is also [\s] *)
Definition is_space (c : ascii) : bool :=
  between 9 13 c || between 28 32 c.

Definition lower_char (c : ascii) : ascii :=
  if is_upper c then ascii_of_nat (code c + 32) else c.

Definition upper_char (c : ascii) : ascii :=
  if is_lower c then ascii_of_nat (code c - 32) else c.

Definition swapcase (c : ascii) : ascii :=
  if is_upper c then lower_char c else upper_char c.

Definition chars : string -> list ascii := list_ascii_of_string.
Definition str : list ascii -> string := string_of_list_ascii.

(** [s.lower()] *)
Definition lower (s : string) : string := str (map lower_char (chars s)).

Fixpoint starts_with (p s : list ascii) : bool :=
  match p, s with
  | [], _ => true
  | _ :: _, [] => false
  | a :: p', b :: s' => Ascii.eqb a b && starts_with p' s'
  end.

Fixpoint contains_chars (needle hay : list ascii) : bool :=
  starts_with needle hay ||
  match hay with
  | [] => false
  | _ :: hay' => contains_chars needle hay'
  end.

(** [needle in hay] *)
Definition contains (needle hay : string) : bool :=
  contains_chars (chars needle) (chars hay).

(** [s.split()]: the maximal runs of non-blank characters. *)
Fixpoint split_ws (cur : list ascii) (s : list ascii) : list string :=
  match s with
  | [] => match cur with [] => [] | _ => [str (rev cur)] end
  | c :: s' =>
      if is_space c
      then match cur with
           | [] => split_ws [] s'
           | _ => str (rev cur) :: split_ws [] s'
           end
      else split_ws (c :: cur) s'
  end.

Definition split (s : string) : list string := split_ws [] (chars s).

(** [s.replace(old, new)] for a non-empty [old]: a scan from the left,
    [skip] counting the characters of an occurrence already replaced. *)
Fixpoint replace_chars (old new : list ascii) (skip : nat) (s : list ascii)
  : list ascii :=
  match s with
  | [] => []
  | c :: s' =>
      match skip with
      | S n => replace_chars old new n s'
      | O =>
          if starts_with old s
          then new ++ replace_chars old new (pred (length old)) s'
          else c :: replace_chars old new 0 s'
      end
  end.

Definition replace (old new s : string) : string :=
  str (replace_chars (chars old) (chars new) 0 (chars s)).

(** [re.sub(r'\D', '', s)] *)
Definition digits_of (s : string) : string := str (filter is_digit (chars s)).

(** [s[:n]] and [s[-n:]] for [0 < n]. *)
Definition first_n (n : nat) (s : string) : string := str (take n (chars s)).
Definition last_n (n : nat) (s : string) : string :=
  str (drop (length (chars s) - n) (chars s)).

Definition len (s : string) : nat := length (chars s).

End Text.

(** ** A backtracking matcher for the fragment of [re] the services use

    Ordered alternation and greedy bounded or unbounded repetition, with
    a success continuation, as in Python's engine.  Every repeated body
    of the patterns below consumes at least one character and no pattern
    matches the empty string. *)

Module Re.

Inductive regex :=
| Eps
| Cls (p : ascii -> bool)
| Cat (r1 r2 : regex)
| Alt (r1 r2 : regex)
| Rep (r : regex) (lo : nat) (hi : option nat)
| WordB
| Bol
| Eol.

Record cursor := Cursor {
  prev : option ascii;
  rest : list ascii;
  consumed : nat
}.

Definition word_at (c : option ascii) : bool :=
  match c with Some x => Text.is_word x | None => false end.

Fixpoint rep_match (step : (cursor -> option cursor) -> cursor -> option cursor)
    (lo n : nat) (k : cursor -> option cursor) (c : cursor) : option cursor :=
  match n with
  | O => if (lo =? 0)%nat then k c else None
  | S n' =>
      match step (rep_match step (pred lo) n' k) c with
      | Some c' => Some c'
      | None => if (lo =? 0)%nat then k c else None
      end
  end.

Fixpoint run (ic : bool) (r : regex) (k : cursor -> option cursor)
    (c : cursor) : option cursor :=
  match r with
  | Eps => k c
  | Cls p =>
      match rest c with
      | x :: xs =>
          if p x || (ic && p (Text.swapcase x))
          then k (Cursor (Some x) xs (S (consumed c)))
          else None
      | [] => None
      end
  | Cat r1 r2 => run ic r1 (run ic r2 k) c
  | Alt r1 r2 =>
      match run ic r1 k c with
      | Some c' => Some c'
      | None => run ic r2 k c
      end
  | Rep r' lo hi =>
      let n := match hi with
               | Some h => h
               | None => (lo + length (rest c))%nat
               end in
      rep_match (run ic r') lo n k c
  | WordB =>
      if xorb (word_at (prev c)) (word_at (head (rest c))) then k c else None
  | Bol => match prev c with None => k c | Some _ => None end
  | Eol =>
      match rest c with
      | [] => k c
      | [x] => if (Text.code x =? 10)%nat then k c else None
      | _ => None
      end
  end.

(** The match that starts exactly here, if any: its length. *)
Definition match_here (ic : bool) (r : regex) (p : option ascii)
    (s : list ascii) : option nat :=
  consumed <$> run ic r Some (Cursor p s 0).

(** [pattern.finditer]: leftmost matches, not overlapping; each with
    its start offset. *)
Fixpoint scan (ic : bool) (r : regex) (skip pos : nat) (p : option ascii)
    (s : list ascii) : list (nat * string) :=
  match s with
  | [] => []
  | x :: xs =>
      match skip with
      | S n => scan ic r n (S pos) (Some x) xs
      | O =>
          match match_here ic r p s with
          | Some n =>
              (pos, Text.str (take n s)) :: scan ic r (pred n) (S pos) (Some x) xs
          | None => scan ic r 0 (S pos) (Some x) xs
          end
      end
  end.

Record pattern := Pattern { expr : regex; ignorecase : bool }.

Definition finditer (p : pattern) (s : string) : list (nat * string) :=
  scan (ignorecase p) (expr p) 0 0 None (Text.chars s).

(** [pattern.findall] of a pattern without groups. *)
Definition findall (p : pattern) (s : string) : list string :=
  snd <$> finditer p s.

(** [pattern.match(s)] as a truth value. *)
Definition matches (p : pattern) (s : string) : bool :=
  bool_decide (is_Some (match_here (ignorecase p) (expr p) None (Text.chars s))).

(** Pattern syntax. *)
Definition chr (c : ascii) : regex := Cls (Ascii.eqb c).
Definition lit (s : string) : regex :=
  foldr (fun c r => Cat (chr c) r) Eps (Text.chars s).
Definition digit : regex := Cls Text.is_digit.
Definition times (n : nat) (r : regex) : regex := Rep r n (Some n).
Definition opt (r : regex) : regex := Rep r 0 (Some 1).
Definition plus (r : regex) : regex := Rep r 1 None.
Definition star (r : regex) : regex := Rep r 0 None.
Definition seq (rs : list regex) : regex := foldr Cat Eps rs.
Fixpoint alt (rs : list regex) : regex :=
  match rs with
  | [] => Cls (fun _ => false)
  | [r] => r
  | r :: rs' => Alt r (alt rs')
  end.
Definition one_of (s : string) : ascii -> bool :=
  fun c => existsb (Ascii.eqb c) (Text.chars s).

(** [re.compile('|'.join(re.escape(w) for w in words), re.IGNORECASE)] *)
Definition keywords (words : list string) : pattern :=
  Pattern (alt (lit <$> words)) true.

End Re.

(** ** Numbers: the fragment of [float] arithmetic the services use *)

Module Num.

Local Open Scope Q_scope.

(** [a >= b], [a > b], [a < b] as truth values *)
Definition geb (a b : Q) : bool := Qle_bool b a.
Definition gtb (a b : Q) : bool := negb (Qle_bool a b).
Definition ltb (a b : Q) : bool := negb (Qle_bool b a).

(** [min(a, b)] and [max(a, b)] *)
Definition min (a b : Q) : Q := if Qle_bool a b then a else b.
Definition max (a b : Q) : Q := if Qle_bool b a then a else b.

(** [sum(xs)] *)
Definition sum (xs : list Q) : Q := foldl Qplus 0 xs.

Definition of_nat (n : nat) : Q := inject_Z (Z.of_nat n).

(** Round half to even, as [round] does. *)
Definition round_half_even (x : Q) : Z :=
  let f := Qfloor x in
  match Qcompare (x - inject_Z f) (1 # 2) with
  | Lt => f
  | Gt => (f + 1)%Z
  | Eq => if Z.even f then f else (f + 1)%Z
  end.

(** [round(x, 3)] *)
Definition round3 (x : Q) : Q := Qred (round_half_even (x * 1000) # 1000).

End Num.

(** ** [core/config.py] *)

Module Config.

Record Settings := {
  audio_sample_rate : Z;
  threat_threshold_low : Q;
  threat_threshold_medium : Q;
  threat_threshold_high : Q;
  bait_agent_name : string;
  bait_agent_persona : string;
  audio_retention_days : Z;
  enable_audio_encryption : bool;
  encryption_key : option string
}.

(** The field defaults of [Settings]. *)
Definition defaults : Settings := {|
  audio_sample_rate := 16000;
  threat_threshold_low := 0.3;
  threat_threshold_medium := 0.6;
  threat_threshold_high := 0.85;
  bait_agent_name := "Ramesh Kumar";
  bait_agent_persona := "confused_senior";
  audio_retention_days := 30;
  enable_audio_encryption := true;
  encryption_key := None
|}.

End Config.

(** ** [models/pydantic_schemas.py]: the enumerations the pipeline uses *)

Inductive ThreatLevel := SAFE | LOW | MEDIUM | HIGH | CRITICAL.

Definition ThreatLevel_value (l : ThreatLevel) : string :=
  match l with
  | SAFE => "safe" | LOW => "low" | MEDIUM => "medium"
  | HIGH => "high" | CRITICAL => "critical"
  end.

Inductive CallStatus :=
  INCOMING | CONNECTED | MONITORING | THREAT_DETECTED | AI_HANDOFF | ENDED | REPORTED.

#[global] Instance ThreatLevel_eq_dec : EqDecision ThreatLevel.
Proof. solve_decision. Defined.

#[global] Instance CallStatus_eq_dec : EqDecision CallStatus.
Proof. solve_decision. Defined.

(** ** [services/threat_analyzer.py]: [KeywordSpotter] *)

Module KeywordSpotter.

Record t := {
  keywords : list (string * list string);
  compiled_patterns : list (string * Re.pattern)
}.

(** [__init__] *)
Definition init (keyword_dict : list (string * list string)) : t := {|
  keywords := keyword_dict;
  compiled_patterns := (fun cw => (cw.1, Re.keywords cw.2)) <$> keyword_dict
|}.

Definition category_scores : list (string * Q) := [
  ("urgent", 0.15%Q);
  ("financial", 0.20%Q);
  ("impersonation", 0.25%Q);
  ("threats", 0.25%Q);
  ("remote_access", 0.20%Q);
  ("verification", 0.15%Q);
  ("prize", 0.20%Q)
].

(** [d.get(key, default)] on an insertion-ordered dictionary *)
Fixpoint get {A} (d : list (string * A)) (key : string) (default : A) : A :=
  match d with
  | [] => default
  | (k, v) :: d' => if String.eqb k key then v else get d' key default
  end.

Record Result := {
  score : Q;
  matched_keywords : list string;
  indicators : list string
}.

(** One turn of the loop over [compiled_patterns.items()]. *)
Definition visit (transcript : string) (acc : list string * list string * Q)
    (cp : string * Re.pattern) : list string * list string * Q :=
  let '(matched, inds, sc) := acc in
  let matches := Re.findall cp.2 transcript in
  match matches with
  | [] => acc
  | _ =>
      (matched ++ matches,
       inds ++ [cp.1 +:+ "_keywords_detected"],
       (sc + get category_scores cp.1 0.1 * Num.of_nat (length matches))%Q)
  end.

(** [analyze].  [list(set(xs))] is [remove_dups xs]: the elements of
    [xs], once each.  CPython leaves their order open; the embedding
    takes the order of first occurrence, and no property below rests
    on it. *)
Definition analyze (self : t) (transcript : string) : Result :=
  let '(matched, inds, sc) :=
    foldl (visit transcript) ([], [], 0%Q) (compiled_patterns self) in
  let unique_categories :=
    length (remove_dups (Text.replace "_keywords_detected" "" <$> inds)) in
  let '(sc, inds) :=
    if (2 <=? unique_categories)%nat
    then ((sc + 0.1 * Num.of_nat unique_categories)%Q,
          inds ++ ["multiple_threat_categories"])
    else (sc, inds) in
  {| score := Num.min 1 sc;
     matched_keywords := remove_dups matched;
     indicators := inds |}.

End KeywordSpotter.

(** ** [services/threat_analyzer.py]: [ThreatAnalyzer] *)

Module ThreatAnalyzer.

Definition SCAM_KEYWORDS : list (string * list string) := [
  ("urgent",
   ["immediate action required"; "act now"; "limited time"; "urgent";
    "emergency"; "last chance"; "today only"; "right now"]);
  ("financial",
   ["bank account"; "credit card"; "debit card"; "upi"; "paytm";
    "google pay"; "phonepe"; "otp"; "pin"; "password"; "cvv";
    "expiry date"; "account number"; "ifsc code"]);
  ("impersonation",
   ["reserve bank of india"; "rbi"; "income tax department"; "cyber crime";
    "police department"; "cbi"; "enforcement directorate";
    "customs department"; "narcotics bureau"; "your bank";
    "your insurance company"]);
  ("threats",
   ["arrest warrant"; "legal action"; "court case"; "fir";
    "police complaint"; "account frozen"; "account blocked";
    "sim card blocked"; "pan card blocked"]);
  ("remote_access",
   ["anydesk"; "teamviewer"; "quick support"; "screen sharing";
    "remote access"; "install app"; "download software"]);
  ("verification",
   ["kyc verification"; "kyc update"; "aadhaar verification";
    "pan verification"; "document verification"; "verify your identity"]);
  ("prize",
   ["you have won"; "lottery"; "lucky draw"; "prize money"; "cash prize";
    "free gift"; "congratulations"])
].

Definition BEHAVIORAL_FLAGS : list (string * list string) := [
  ("high_pressure", ["must"; "immediately"; "now"; "urgent"; "hurry"]);
  ("secrecy",
   ["don't tell anyone"; "keep it secret"; "confidential"; "don't discuss"]);
  ("isolation",
   ["don't contact bank"; "don't call police"; "don't tell family"]);
  ("unprofessional",
   ["sir/madam repeatedly"; "heavy accent mismatch"; "background noise"])
].

(** What the pickled classifier answers for a transcript:
    [predict_proba(X)[0]] and [predict(X)[0]]; [None] when it raises. *)
Record MlOutput := { proba : list Q; prediction : Z }.
Definition MlModel := string -> option MlOutput.

(** The feature dictionary of an audio chunk (its numeric entries). *)
Abbreviation AudioFeatures := (gmap string Q).

Record LayerResult := { score : Q; labels : list string }.

Record AnalysisResult := {
  threat_score : Q;
  threat_level : ThreatLevel;
  confidence : Q;
  indicators : list string;
  keywords : list string;
  behavioral_flags : list string;
  recommended_action : string;
  (** the key ["escalation_detected"], absent unless set to [True] *)
  escalation_detected : bool
}.

(** The per-call entry of [call_contexts]; the two histories are
    [deque]s, of [maxlen] 20 and 10. *)
Record CallContext := {
  transcripts : list (option string);
  threat_scores : list Q;
  keywords_seen : gset string;
  escalation_count : Z
}.

(** [deque(maxlen=n).append] *)
Definition deque_append {A} (maxlen : nat) (d : list A) (x : A) : list A :=
  let d' := d ++ [x] in
  drop (length d' - maxlen) d'.

(** The truth value of an [Optional[str]]: [None] and [""] are false. *)
Definition nonempty (transcript : option string) : option string :=
  match transcript with
  | Some EmptyString => None
  | other => other
  end.

Definition layer_weights : list Q := [0.4%Q; 0.2%Q; 0.3%Q; 0.1%Q].

Definition _analyze_behavior (transcript : string) : LayerResult :=
  let transcript_lower := Text.lower transcript in
  let '(flags, sc) :=
    foldl (fun acc fp =>
      foldl (fun acc' pattern =>
        if Text.contains pattern transcript_lower
        then (acc'.1 ++ [fp.1], (acc'.2 + 0.15)%Q)
        else acc') acc fp.2)
      ([], 0%Q) BEHAVIORAL_FLAGS in
  let words := Text.split transcript_lower in
  let '(flags, sc) :=
    if (10 <? length words)%nat
    then
      let unique_ratio :=
        (Num.of_nat (length (remove_dups words)) / Num.of_nat (length words))%Q in
      if Num.ltb unique_ratio 0.4
      then (flags ++ ["repetitive_speech"], (sc + 0.1)%Q)
      else (flags, sc)
    else (flags, sc) in
  {| score := Num.min 1 sc; labels := remove_dups flags |}.

Definition _ml_classify (ml_model : MlModel) (transcript : string) : LayerResult :=
  match ml_model transcript with
  | Some out =>
      let scam_prob :=
        if (1 <? length (proba out))%nat then proba out !! 1%nat
        else proba out !! 0%nat in
      match scam_prob with
      | Some p =>
          {| score := p;
             labels := if (prediction out =? 1)%Z
                       then ["ml_classification_scam"] else [] |}
      | None => {| score := 0; labels := [] |}
      end
  | None => {| score := 0; labels := [] |}
  end.

Definition _analyze_audio_features (features : AudioFeatures) : Q :=
  let sc := 0%Q in
  let sc := match features !! "rms_energy" with
            | Some energy => if Num.gtb energy 0.5 then (sc + 0.1)%Q else sc
            | None => sc
            end in
  let sc := match features !! "zero_crossing_rate" with
            | Some zcr => if Num.gtb zcr 0.1 then (sc + 0.05)%Q else sc
            | None => sc
            end in
  Num.min 1 sc.

Section Analyzer.

Variable settings : Config.Settings.
(** [self.ml_model]: [None] when no pickled classifier was found. *)
Variable ml_model : option MlModel.

Definition keyword_model : KeywordSpotter.t := KeywordSpotter.init SCAM_KEYWORDS.

Definition _get_threat_level (sc : Q) : ThreatLevel :=
  if Num.geb sc (Config.threat_threshold_high settings) then CRITICAL
  else if Num.geb sc (Config.threat_threshold_medium settings) then HIGH
  else if Num.geb sc (Config.threat_threshold_low settings) then MEDIUM
  else if Num.gtb sc 0.1 then LOW
  else SAFE.

Definition _get_recommended_action (sc : Q) (level : ThreatLevel) : string :=
  if Num.geb sc (Config.threat_threshold_high settings) then "handoff_to_ai"
  else if Num.geb sc (Config.threat_threshold_medium settings) then "alert_user"
  else if Num.geb sc (Config.threat_threshold_low settings) then "increase_monitoring"
  else "continue_monitoring".

(** The list [scores] of [analyze]: one entry per layer that ran, in
    the order keyword, behavioural, classifier, audio. *)
Definition layer_scores (transcript : option string)
    (audio_features : option AudioFeatures) : list Q :=
  let text := nonempty transcript in
  let scores := [] in
  let scores := match text with
                | Some s => scores ++ [KeywordSpotter.score (KeywordSpotter.analyze keyword_model s)]
                | None => scores
                end in
  let scores := match text with
                | Some s => scores ++ [score (_analyze_behavior s)]
                | None => scores
                end in
  let scores := match ml_model, text with
                | Some m, Some s => scores ++ [score (_ml_classify m s)]
                | _, _ => scores
                end in
  match audio_features with
  | Some f => if decide (f = ∅) then scores
              else scores ++ [_analyze_audio_features f]
  | None => scores
  end.

(** The combination step of [analyze]. *)
Definition combine (scores : list Q) : Q :=
  match scores with
  | [] => 0
  | _ =>
      let weights := take (length scores) layer_weights in
      let total := Num.sum weights in
      let weights := (fun w => (w / total)%Q) <$> weights in
      Num.sum (zip_with Qmult scores weights)
  end.

Definition analyze (transcript : option string)
    (audio_features : option AudioFeatures) : AnalysisResult :=
  let text := nonempty transcript in
  let kw := KeywordSpotter.analyze keyword_model <$> text in
  let bh := _analyze_behavior <$> text in
  let ml := match ml_model, text with
            | Some m, Some s => Some (_ml_classify m s)
            | _, _ => None
            end in
  let inds := from_option KeywordSpotter.indicators [] kw
              ++ from_option labels [] ml in
  let kws := from_option KeywordSpotter.matched_keywords [] kw in
  let flags := from_option labels [] bh in
  let scores := layer_scores transcript audio_features in
  let sc := combine scores in
  let level := _get_threat_level sc in
  {| threat_score := Num.round3 sc;
     threat_level := level;
     confidence :=
       Num.round3 (Num.min 1 (Num.of_nat (length scores) * 0.25 + 0.5)%Q);
     indicators := remove_dups inds;
     keywords := remove_dups kws;
     behavioral_flags := remove_dups flags;
     recommended_action := _get_recommended_action sc level;
     escalation_detected := false |}.

Definition _adjust_for_context (sc : Q) (context : CallContext) : Q :=
  let adjusted := sc in
  let keyword_diversity := size (keywords_seen context) in
  let adjusted := if (3 <? keyword_diversity)%nat
                  then (adjusted + 0.1)%Q else adjusted in
  let adjusted :=
    if (5 <=? length (threat_scores context))%nat
    then
      let avg_recent :=
        (Num.sum (threat_scores context)
         / Num.of_nat (length (threat_scores context)))%Q in
      if Num.gtb avg_recent (Config.threat_threshold_medium settings)
      then (adjusted + 0.1)%Q else adjusted
    else adjusted in
  Num.min 1 adjusted.

Definition new_context : CallContext :=
  {| transcripts := []; threat_scores := [];
     keywords_seen := ∅; escalation_count := 0 |}.

(** The last three entries of the score history. *)
Definition recent_scores (context : CallContext) : list Q :=
  drop (length (threat_scores context) - 3) (threat_scores context).

(** The test of the escalation pattern. *)
Definition escalating (context : CallContext) : bool :=
  (3 <=? length (threat_scores context))%nat
  && forallb (fun s => Num.gtb s (Config.threat_threshold_medium settings))
       (recent_scores context).

Definition analyze_realtime (call_contexts : gmap string CallContext)
    (call_id : string) (transcript : option string)
    (audio_features : option AudioFeatures)
  : gmap string CallContext * AnalysisResult :=
  let context := default new_context (call_contexts !! call_id) in
  let context :=
    {| transcripts := deque_append 20 (transcripts context) transcript;
       threat_scores := threat_scores context;
       keywords_seen := keywords_seen context;
       escalation_count := escalation_count context |} in
  let result := analyze transcript audio_features in
  let context :=
    {| transcripts := transcripts context;
       threat_scores :=
         deque_append 10 (threat_scores context) (threat_score result);
       keywords_seen :=
         keywords_seen context ∪ list_to_set (keywords result);
       escalation_count := escalation_count context |} in
  let adjusted_score := _adjust_for_context (threat_score result) context in
  let esc := escalating context in
  (<[call_id := context]> call_contexts,
   {| threat_score := Num.round3 adjusted_score;
      threat_level := _get_threat_level adjusted_score;
      confidence := confidence result;
      indicators := indicators result;
      keywords := keywords result;
      behavioral_flags := behavioral_flags result;
      recommended_action :=
        if esc then "handoff_to_ai" else recommended_action result;
      escalation_detected := esc |}).

End Analyzer.

End ThreatAnalyzer.

(** ** [services/intelligence_extractor.py] *)

Module IntelligenceExtractor.

(** The keys of [PATTERNS], in their order. *)
Inductive EntityType :=
| upi_id | phone_number | email | bank_account | ifsc_code | aadhaar
| pan | otp | credit_card | cvv | amount.

#[global] Instance EntityType_eq_dec : EqDecision EntityType.
Proof. solve_decision. Defined.

Definition entity_types : list EntityType :=
  [upi_id; phone_number; email; bank_account; ifsc_code; aadhaar;
   pan; otp; credit_card; cvv; amount].

Record ExtractedEntity := {
  entity_type : EntityType;
  value : string;
  confidence : Q;
  context : string;
  position : nat;
  verified : bool
}.

Import Re.

(** [[\s-]] *)
Definition sep : regex := Cls (fun c => Text.is_space c || one_of "-" c).

Definition upi_handles : list string :=
  ["paytm"; "okaxis"; "okhdfcbank"; "okicici"; "oksbi"; "ybl"; "apl";
   "okbizaxis"; "payzapp"; "ibl"; "axl"].

Definition PATTERNS (t : EntityType) : pattern :=
  match t with
  | upi_id =>
      (* \b[A-Za-z0-9._-]+@(paytm|okaxis|...|axl)\b *)
      Pattern (seq [WordB;
                    plus (Cls (fun c => Text.is_alnum c || one_of "._-" c));
                    chr "@"; alt (lit <$> upi_handles); WordB]) true
  | phone_number =>
      (* \b(\+91[-\s]?)?[6-9]\d{9}\b *)
      Pattern (seq [WordB; opt (seq [lit "+91"; opt sep]);
                    Cls (Text.between 54 57); times 9 digit; WordB]) false
  | email =>
      (* \b[A-Za-z0-9._%+-]+@[A-Za-z0-9.-]+\.[A-Z|a-z]{2,}\b *)
      Pattern (seq [WordB;
                    plus (Cls (fun c => Text.is_alnum c || one_of "._%+-" c));
                    chr "@";
                    plus (Cls (fun c => Text.is_alnum c || one_of ".-" c));
                    chr ".";
                    Rep (Cls (fun c => Text.is_alpha c || one_of "|" c)) 2 None;
                    WordB]) false
  | bank_account =>
      (* \b\d{9,18}\b *)
      Pattern (seq [WordB; Rep digit 9 (Some 18); WordB]) false
  | ifsc_code =>
      (* \b[A-Z]{4}0[A-Z0-9]{6}\b *)
      Pattern (seq [WordB; times 4 (Cls Text.is_upper); chr "0";
                    times 6 (Cls (fun c => Text.is_upper c || Text.is_digit c));
                    WordB]) true
  | aadhaar =>
      (* \b\d{4}[\s-]?\d{4}[\s-]?\d{4}\b *)
      Pattern (seq [WordB; times 4 digit; opt sep; times 4 digit; opt sep;
                    times 4 digit; WordB]) false
  | pan =>
      (* \b[A-Z]{5}[0-9]{4}[A-Z]\b *)
      Pattern (seq [WordB; times 5 (Cls Text.is_upper); times 4 digit;
                    Cls Text.is_upper; WordB]) true
  | otp =>
      (* \b\d{4,6}\b *)
      Pattern (seq [WordB; Rep digit 4 (Some 6); WordB]) true
  | credit_card =>
      (* \b\d{4}[\s-]?\d{4}[\s-]?\d{4}[\s-]?\d{4}\b *)
      Pattern (seq [WordB; times 4 digit; opt sep; times 4 digit; opt sep;
                    times 4 digit; opt sep; times 4 digit; WordB]) false
  | cvv =>
      (* \b\d{3,4}\b *)
      Pattern (seq [WordB; Rep digit 3 (Some 4); WordB]) true
  | amount =>
      (* \b(\d{1,3}(,\d{2,3})*|\d+)(\s)?(lakh|crore|thousand|hundred|rupees|rs\.?)?\b *)
      Pattern (seq [WordB;
                    Alt (seq [Rep digit 1 (Some 3);
                              star (seq [chr ","; Rep digit 2 (Some 3)])])
                        (plus digit);
                    opt (Cls Text.is_space);
                    opt (alt [lit "lakh"; lit "crore"; lit "thousand";
                              lit "hundred"; lit "rupees";
                              seq [lit "rs"; opt (chr ".")]]);
                    WordB]) true
  end.

Definition CONTEXT_KEYWORDS (t : EntityType) : list string :=
  match t with
  | upi_id => ["upi"; "pay"; "google pay"; "phonepe"; "paytm"; "send money"; "transfer"]
  | phone_number => ["call"; "phone"; "mobile"; "number"; "contact"; "whatsapp"]
  | email => ["email"; "mail"; "send"; "id"]
  | bank_account => ["account"; "bank"; "transfer"; "deposit"; "ifsc"]
  | ifsc_code => ["ifsc"; "branch"; "bank code"]
  | aadhaar => ["aadhaar"; "uid"; "identity"; "verification"]
  | pan => ["pan"; "permanent account number"; "tax"]
  | otp => ["otp"; "password"; "code"; "verification code"; "pin"]
  | credit_card => ["card"; "credit"; "debit"; "atm"; "cvv"]
  | cvv => ["cvv"; "security code"; "back of card"; "three digit"]
  | amount => ["rupees"; "rs"; "amount"; "money"; "payment"; "fee"; "charge"]
  end.

(** [s.split(sep)] for a one-character separator. *)
Fixpoint split_on (sepc : ascii) (cur : list ascii) (s : list ascii) : list string :=
  match s with
  | [] => [Text.str (rev cur)]
  | c :: s' =>
      if Ascii.eqb c sepc then Text.str (rev cur) :: split_on sepc [] s'
      else split_on sepc (c :: cur) s'
  end.

Definition _validate_upi (upi : string) : bool :=
  match split_on "@" [] (Text.chars upi) with
  | [_; handle] =>
      bool_decide (Text.lower handle ∈ upi_handles)
  | _ => false
  end.

Definition _validate_phone (phone : string) : bool :=
  let digits := Text.digits_of phone in
  if (Text.len digits =? 10)%nat
     && Text.contains (Text.first_n 1 digits) "6789" then true
  else if (Text.len digits =? 12)%nat
          && Text.starts_with (Text.chars "91") (Text.chars digits) then true
  else false.

Definition _validate_email (addr : string) : bool :=
  (* ^[A-Za-z0-9._%+-]+@[A-Za-z0-9.-]+\.[A-Z|a-z]{2,}$ *)
  matches
    (Pattern (seq [Bol;
                   plus (Cls (fun c => Text.is_alnum c || one_of "._%+-" c));
                   chr "@";
                   plus (Cls (fun c => Text.is_alnum c || one_of ".-" c));
                   chr ".";
                   Rep (Cls (fun c => Text.is_alpha c || one_of "|" c)) 2 None;
                   Eol]) false)
    addr.

Definition _is_likely_false_positive (t : EntityType) (v ctx : string) : bool :=
  let context_lower := Text.lower ctx in
  match t with
  | otp =>
      if existsb (fun word => Text.contains word context_lower)
           ["date"; "year"; "jan"; "feb"; "mar"] then true
      else if bool_decide (v ∈ ["2023"; "2024"; "2025"; "2026"]) then true
      else false
  | phone_number => (Text.len (Text.digits_of v) <? 10)%nat
  | _ => false
  end.

Definition _calculate_confidence (t : EntityType) (v ctx full_transcript : string)
  : Q :=
  let conf := 0.5%Q in
  let context_lower := Text.lower ctx in
  let keyword_matches :=
    length (filter (fun kw => Text.contains kw context_lower) (CONTEXT_KEYWORDS t)) in
  let conf := (conf + Num.min 0.3 (Num.of_nat keyword_matches * 0.1))%Q in
  let conf :=
    match t with
    | upi_id => if _validate_upi v then (conf + 0.2)%Q else conf
    | phone_number => if _validate_phone v then (conf + 0.2)%Q else conf
    | email => if _validate_email v then (conf + 0.2)%Q else conf
    | _ => conf
    end in
  let conf := if _is_likely_false_positive t v ctx
              then (conf - 0.3)%Q else conf in
  Num.min 1 (Num.max 0 conf).

Definition _mask_sensitive (t : EntityType) (v : string) : string :=
  match t with
  | aadhaar =>
      let digits := Text.digits_of v in
      if (4 <=? Text.len digits)%nat
      then "XXXX-XXXX-" +:+ Text.last_n 4 digits
      else "XXXX-XXXX-XXXX"
  | pan =>
      if (4 <=? Text.len v)%nat
      then Text.first_n 2 v +:+ "XXXX" +:+ Text.last_n 2 v
      else "XXXXX0000X"
  | credit_card =>
      let digits := Text.digits_of v in
      if (4 <=? Text.len digits)%nat
      then "XXXX-XXXX-XXXX-" +:+ Text.last_n 4 digits
      else "XXXX-XXXX-XXXX-XXXX"
  | bank_account =>
      if (4 <=? Text.len v)%nat
      then "XXXXXX" +:+ Text.last_n 4 v
      else "XXXXXXXX"
  | otp => "XXXX"
  | cvv => "XXX"
  | _ => v
  end.

(** [_deduplicate]: [seen] holds the keys [(entity_type, value.lower())]. *)
Fixpoint dedup (seen : list (EntityType * string)) (entities : list ExtractedEntity)
  : list ExtractedEntity :=
  match entities with
  | [] => []
  | e :: rest =>
      let key := (entity_type e, Text.lower (value e)) in
      if bool_decide (key ∈ seen) then dedup seen rest
      else e :: dedup (key :: seen) rest
  end.

Definition _deduplicate (entities : list ExtractedEntity) : list ExtractedEntity :=
  dedup [] entities.

(** [transcript[a:b]] for [0 <= a] *)
Definition slice (a b : nat) (s : string) : string :=
  Text.str (take (b - a) (drop a (Text.chars s))).

(** The body of the inner loop of [extract] for one match: the entity
    it appends, or nothing when the confidence is under the floor. *)
Definition candidate (transcript : string) (t : EntityType) (m : nat * string)
  : option ExtractedEntity :=
  let '(pos, v) := m in
  let context_start := (pos - 50)%nat in
  let context_end := Nat.min (Text.len transcript) (pos + Text.len v + 50) in
  let ctx := slice context_start context_end transcript in
  let conf := _calculate_confidence t v ctx transcript in
  if Num.ltb conf 0.3 then None
  else Some {| entity_type := t; value := _mask_sensitive t v;
               confidence := conf; context := ctx; position := pos;
               verified := false |}.

(** The entities appended for one entity type. *)
Definition candidates (transcript : string) (t : EntityType) : list ExtractedEntity :=
  omap (candidate transcript t) (finditer (PATTERNS t) transcript).

(** [extract]; the counters of [extraction_stats], which nothing
    reads, are left out. *)
Definition extract (transcript : option string) : list ExtractedEntity :=
  match ThreatAnalyzer.nonempty transcript with
  | None => []
  | Some s => _deduplicate (entity_types ≫= candidates s)
  end.

End IntelligenceExtractor.

(** ** What a call returns: a value, or an exception that propagates *)

Inductive PyResult (A : Type) :=
| Returned (a : A)
| Raised (exc : string).

Arguments Returned {A} a.
Arguments Raised {A} exc.

(** ** [services/bait_agent.py] *)

Module BaitAgent.

Import IntelligenceExtractor.

(** The values of [ConversationState.engagement_stage]. *)
Inductive Stage := initial | building_trust | extracting | terminating.

#[global] Instance Stage_eq_dec : EqDecision Stage.
Proof. solve_decision. Defined.

Definition Stage_value (s : Stage) : string :=
  match s with
  | initial => "initial" | building_trust => "building_trust"
  | extracting => "extracting" | terminating => "terminating"
  end.

Record Turn := { speaker : string; text : option string }.

(** [ConversationState]; the two timestamps are left out. *)
Record ConversationState := {
  call_id : string;
  persona : string;
  transcript_history : list Turn;
  intelligence_extracted : list ExtractedEntity;
  scammer_patience_level : Q;
  engagement_stage : Stage;
  total_responses : nat
}.

Definition PERSONAS : list string :=
  ["confused_senior"; "cautious_professional"; "trusting_homemaker"].

(** The routing of [_generate_response]. *)
Inductive Intent :=
| financial_request | threat | urgency | tech_request
| verification_request | prize_offer | general.

Definition mentions (words : list string) (s : string) : bool :=
  existsb (fun word => Text.contains word s) words.

Definition intent_of (scammer_input : string) : Intent :=
  let scammer_lower := Text.lower scammer_input in
  if mentions ["bank"; "account"; "card"; "otp"; "pin"] scammer_lower
  then financial_request
  else if mentions ["police"; "arrest"; "case"; "court"; "jail"; "fir"] scammer_lower
  then threat
  else if mentions ["urgent"; "immediately"; "now"; "hurry"; "fast"] scammer_lower
  then urgency
  else if mentions ["download"; "install"; "app"; "anydesk"; "link"] scammer_lower
  then tech_request
  else if mentions ["aadhaar"; "pan"; "kyc"; "document"] scammer_lower
  then verification_request
  else if mentions ["won"; "prize"; "lottery"; "cash"; "gift"] scammer_lower
  then prize_offer
  else general.

(** [_update_engagement_stage]: the stage for a number of responses. *)
Definition stage_of (n : nat) : Stage :=
  if (n <? 3)%nat then initial
  else if (n <? 8)%nat then building_trust
  else if (n <? 15)%nat then extracting
  else terminating.

Definition with_turn (state : ConversationState) (t : Turn) : ConversationState :=
  {| call_id := call_id state; persona := persona state;
     transcript_history := transcript_history state ++ [t];
     intelligence_extracted := intelligence_extracted state;
     scammer_patience_level := scammer_patience_level state;
     engagement_stage := engagement_stage state;
     total_responses := total_responses state |}.

Definition _update_engagement_stage (state : ConversationState) : ConversationState :=
  {| call_id := call_id state; persona := persona state;
     transcript_history := transcript_history state;
     intelligence_extracted := intelligence_extracted state;
     scammer_patience_level := scammer_patience_level state;
     engagement_stage := stage_of (total_responses state);
     total_responses := total_responses state |}.

Record Reply := {
  reply_text : string;
  intelligence : list ExtractedEntity;
  reply_stage : Stage
}.

Record Summary := {
  total_exchanges : nat;
  summary_intelligence : list ExtractedEntity;
  final_stage : Stage
}.

Section Agent.

Variable settings : Config.Settings.
(** [random.choice] over the canned replies of a persona for an
    intent, and over its greetings: the tables are not reproduced. *)
Variable canned_reply : Intent -> string -> string.
Variable greeting : string -> string.

Definition _generate_response (state : ConversationState)
    (scammer_input : option string) : PyResult string :=
  match scammer_input with
  | None => Raised "AttributeError"
  | Some s => Returned (canned_reply (intent_of s) (persona state))
  end.

Definition start_engagement (active_engagements : gmap string ConversationState)
    (cid : string) (persona_arg : option string)
  : gmap string ConversationState * string :=
  let persona_key :=
    default (Config.bait_agent_persona settings)
            (ThreatAnalyzer.nonempty persona_arg) in
  let persona_key :=
    if bool_decide (persona_key ∈ PERSONAS) then persona_key
    else "confused_senior" in
  let state :=
    {| call_id := cid; persona := persona_key; transcript_history := [];
       intelligence_extracted := []; scammer_patience_level := 1;
       engagement_stage := initial; total_responses := 0 |} in
  (<[cid := state]> active_engagements, greeting persona_key).

(** [process_caller_input].  [None] as the answer is the dictionary
    with the key ["error"]; the artificial delay is left out. *)
Definition process_caller_input
    (active_engagements : gmap string ConversationState)
    (cid : string) (transcript : option string)
  : gmap string ConversationState * PyResult (option Reply) :=
  match active_engagements !! cid with
  | None => (active_engagements, Returned None)
  | Some state =>
      let state :=
        {| call_id := call_id state; persona := persona state;
           transcript_history := transcript_history state;
           intelligence_extracted := intelligence_extracted state;
           scammer_patience_level := scammer_patience_level state;
           engagement_stage := engagement_stage state;
           total_responses := total_responses state + 1 |} in
      let state := with_turn state {| speaker := "scammer"; text := transcript |} in
      let found := extract transcript in
      let state :=
        {| call_id := call_id state; persona := persona state;
           transcript_history := transcript_history state;
           intelligence_extracted := intelligence_extracted state ++ found;
           scammer_patience_level := scammer_patience_level state;
           engagement_stage := engagement_stage state;
           total_responses := total_responses state |} in
      let state := _update_engagement_stage state in
      match _generate_response state transcript with
      | Raised exc => (<[cid := state]> active_engagements, Raised exc)
      | Returned response_text =>
          let state :=
            with_turn state {| speaker := "agent"; text := Some response_text |} in
          (<[cid := state]> active_engagements,
           Returned (Some {| reply_text := response_text;
                             intelligence := found;
                             reply_stage := engagement_stage state |}))
      end
  end.

Definition terminate_engagement
    (active_engagements : gmap string ConversationState) (cid : string)
  : gmap string ConversationState * option Summary :=
  match active_engagements !! cid with
  | None => (active_engagements, None)
  | Some state =>
      (delete cid active_engagements,
       Some {| total_exchanges := total_responses state;
               summary_intelligence := intelligence_extracted state;
               final_stage := engagement_stage state |})
  end.

End Agent.

End BaitAgent.

(** ** [services/audio_processor.py] *)

Module AudioProcessor.

Import ThreatAnalyzer.

(** The dictionary [detect_voice_activity] returns; the handler of its
    [except] clause gives no ["speech_ratio"]. *)
Record VadResult := {
  is_speech : bool;
  speech_duration_ms : Z;
  speech_ratio : option Q;
  features : AudioFeatures
}.

(** What [store_audio_chunk] leaves behind: its log line. *)
Inductive StorageLog :=
| audio_encryption_disabled_skipping_storage
| audio_chunk_stored (call_id : string) (sequence : Z)
    (transcript : option string) (threat_score : Q)
| audio_storage_error.

(** [np.frombuffer(audio_bytes, dtype=np.int16)]: little-endian pairs;
    an odd number of bytes raises. *)
Fixpoint frombuffer (audio_bytes : list Z) : option (list Z) :=
  match audio_bytes with
  | [] => Some []
  | [_] => None
  | lo :: hi :: more =>
      let u := (lo + 256 * hi)%Z in
      let v := if (32768 <=? u)%Z then (u - 65536)%Z else u in
      cons v <$> frombuffer more
  end.

(** [np.sqrt(np.mean(audio_float ** 2)) > threshold], for a threshold
    that is not negative: the comparison of the squares.  The mean of
    an empty array is [nan], which exceeds nothing. *)
Definition rms_exceeds (audio_array : list Z) (threshold : Q) : bool :=
  match audio_array with
  | [] => false
  | _ =>
      let squares := (fun x => (inject_Z x / 32768) * (inject_Z x / 32768))%Q
                       <$> audio_array in
      Num.gtb (Num.sum squares / Num.of_nat (length audio_array))%Q
              (threshold * threshold)%Q
  end.

(** The frames [audio_array[i:i + frame_size]] for
    [i in range(0, len(audio_array) - frame_size, frame_size)],
    [frame_size] positive. *)
Fixpoint frames (fuel frame_size : nat) (audio_array : list Z) : list (list Z) :=
  match fuel with
  | O => []
  | S fuel' =>
      if (frame_size <? length audio_array)%nat
      then take frame_size audio_array
           :: frames fuel' frame_size (drop frame_size audio_array)
      else []
  end.

Section Processor.

Variable settings : Config.Settings.
(** [base64.b64decode]: the bytes, or [None] when it raises. *)
Variable b64decode : string -> option (list Z).
(** [self.vad]: [None] without webrtcvad; else [is_speech] on the
    samples of a frame, [None] when it raises. *)
Variable vad : option (list Z -> option bool).
(** [_extract_features]: numpy and librosa numerics; it never raises. *)
Variable _extract_features : list Z -> AudioFeatures.
(** [self.whisper_model]: the stripped text, [None] when it raises. *)
Variable whisper_model : option (list Z -> option string).
(** [Fernet(key).encrypt], [None] when it raises. *)
Variable fernet_encrypt : string -> list Z -> option (list Z).

(** The body of the [try] of [detect_voice_activity]. *)
Definition detect_body (audio_base64 : string) : PyResult VadResult :=
  match b64decode audio_base64 with
  | None => Raised "binascii.Error"
  | Some audio_bytes =>
  match frombuffer audio_bytes with
  | None => Raised "ValueError"
  | Some audio_array =>
      let sample_rate := Config.audio_sample_rate settings in
      let sweep :=
        match vad with
        | Some vad_is_speech =>
            if (0 <? length audio_array)%nat then
              let frame_duration_ms := 30%Z in
              let frame_size := (sample_rate * frame_duration_ms ÷ 1000)%Z in
              if (frame_size =? 0)%Z then Raised "ValueError"
              else
                let fs := if (frame_size <? 0)%Z then []
                          else frames (length audio_array)
                                 (Z.to_nat frame_size) audio_array in
                let verdicts := vad_is_speech <$> fs in
                let speech_frames :=
                  length (filter (fun v => v = Some true) verdicts) in
                let total_frames :=
                  length (filter (fun v => is_Some v) verdicts) in
                Returned (bool_decide (0 < speech_frames)%nat,
                          speech_frames, total_frames)
            else Returned (rms_exceeds audio_array 0.01, 0%nat, 0%nat)
        | None => Returned (rms_exceeds audio_array 0.01, 0%nat, 0%nat)
        end in
      match sweep with
      | Raised exc => Raised exc
      | Returned (speech, speech_frames, total_frames) =>
          let ratio :=
            if (0 <? total_frames)%nat
            then (Num.of_nat speech_frames / Num.of_nat total_frames)%Q
            else 0%Q in
          Returned
            {| is_speech := speech || Num.gtb ratio 0.3;
               speech_duration_ms := Z.of_nat speech_frames * 30;
               speech_ratio := Some ratio;
               features := _extract_features audio_array |}
      end
  end
  end.

(** [detect_voice_activity] from its [try] on, for a processor that
    is initialised: [vad] is [self.vad].  The whole method, with the
    call of [initialize] that stands before the [try] and can raise,
    is [AudioState.detect_voice_activity]. *)
Definition detect_voice_activity (audio_base64 : string) : PyResult VadResult :=
  match detect_body audio_base64 with
  | Returned r => Returned r
  | Raised _ =>
      Returned {| is_speech := false; speech_duration_ms := 0;
                  speech_ratio := None; features := ∅ |}
  end.

Definition transcribe (audio_base64 : string) : option string :=
  match b64decode audio_base64 with
  | None => None
  | Some audio_bytes =>
      match whisper_model with
      | Some model => frombuffer audio_bytes ≫= model
      | None => None
      end
  end.

Definition store_audio_chunk (cid : string) (sequence : Z)
    (audio_data : string) (transcript : option string) (sc : Q)
  : StorageLog :=
  if negb (Config.enable_audio_encryption settings)
  then audio_encryption_disabled_skipping_storage
  else
    match b64decode audio_data with
    | None => audio_storage_error
    | Some audio_bytes =>
        let encrypted :=
          match Config.encryption_key settings with
          | Some key => if String.eqb key "" then Some audio_bytes
                        else fernet_encrypt key audio_bytes
          | None => Some audio_bytes
          end in
        match encrypted with
        | None => audio_storage_error
        | Some _ => audio_chunk_stored cid sequence transcript sc
        end
    end.

End Processor.

End AudioProcessor.

(** ** [services/audio_processor.py]: the processor and [initialize] *)

Module AudioState.

Import ThreatAnalyzer.

(** The mutable fields of an [AudioProcessor]. *)
Record t := {
  vad : option (list Z -> option bool);
  whisper_model : option (list Z -> option string);
  _initialized : bool
}.

(** [__init__] *)
Definition init : t :=
  {| vad := None; whisper_model := None; _initialized := false |}.

Section Calls.

Variable settings : Config.Settings.
Variable b64decode : string -> option (list Z).
Variable _extract_features : list Z -> AudioFeatures.
(** [webrtcvad.Vad(settings.vad_aggressiveness)]: [None] when
    webrtcvad could not be imported, else the detector, or the
    exception of its constructor. *)
Variable webrtcvad_Vad : option (PyResult (list Z -> option bool)).
(** [whisper.load_model(model_size)], likewise. *)
Variable whisper_load_model : option (PyResult (list Z -> option string)).

(** [initialize]: the processor afterwards, and the exception that
    leaves the call, if one does. *)
Definition initialize (self : t) : t * option string :=
  if _initialized self then (self, None)
  else
    match webrtcvad_Vad with
    | Some (Raised exc) => (self, Some exc)
    | _ =>
        let self :=
          match webrtcvad_Vad with
          | Some (Returned detector) =>
              {| vad := Some detector; whisper_model := whisper_model self;
                 _initialized := _initialized self |}
          | _ => self
          end in
        match whisper_load_model with
        | Some (Raised exc) => (self, Some exc)
        | Some (Returned model) =>
            ({| vad := vad self; whisper_model := Some model;
                _initialized := true |}, None)
        | None =>
            ({| vad := vad self; whisper_model := whisper_model self;
                _initialized := true |}, None)
        end
    end.

(** [detect_voice_activity], the whole method: [initialize], then the
    [try]. *)
Definition detect_voice_activity (self : t) (audio_base64 : string)
  : t * PyResult AudioProcessor.VadResult :=
  match initialize self with
  | (self, Some exc) => (self, Raised exc)
  | (self, None) =>
      (self,
       AudioProcessor.detect_voice_activity settings b64decode (vad self)
         _extract_features audio_base64)
  end.

End Calls.

End AudioState.

(** ** [api/main.py]: the connection manager and the audio handler *)

Module Main.

Import ThreatAnalyzer.

(** An entry of [ConnectionManager.call_sessions]; its two timestamps
    are left out. *)
Record Session := {
  audio_chunks_received : Z;
  threat_score : Q;
  status : CallStatus;
  ai_handoff : bool
}.

(** The mutable state of the process: the manager's two dictionaries
    (of [active_connections], the keys), the analyzer's contexts and
    the decoy's engagements. *)
Record Backend := {
  active_connections : gset string;
  call_sessions : gmap string Session;
  call_contexts : gmap string CallContext;
  active_engagements : gmap string BaitAgent.ConversationState
}.

(** The payload of an ["audio_chunk"] message. *)
Record Payload := {
  audio_data : option string;
  sequence_number : option Z
}.

(** What goes out on the socket. *)
Inductive WsMessage :=
| ai_response (call_id : string) (reply : option BaitAgent.Reply)
| threat_update (call_id : string) (score : Q) (level : ThreatLevel)
    (current_transcript : string) (alert_triggered : bool)
| threat_alert (call_id : string) (score : Q)
| error_message (exc : string).

(** The calls the handler makes to its collaborators, in order. *)
Inductive Event :=
| Transcribe (audio : string)
| DecoyInput (call_id : string) (transcript : option string)
| AnalyzeRealtime (call_id : string) (transcript : option string)
| SendJson (m : WsMessage)
| StoreAudioChunk (call_id : string) (sequence : Z) (audio : string)
    (transcript : option string) (score : Q) (log : AudioProcessor.StorageLog).

(** How a run of the handler ends. *)
Record Outcome := {
  backend : Backend;
  events : list Event;
  (** the exception that leaves the handler, if one does *)
  escaped : option string
}.

Definition connect (b : Backend) (cid : string) : Backend :=
  {| active_connections := {[cid]} ∪ active_connections b;
     call_sessions :=
       <[cid := {| audio_chunks_received := 0; threat_score := 0;
                   status := CONNECTED; ai_handoff := false |}]>
         (call_sessions b);
     call_contexts := call_contexts b;
     active_engagements := active_engagements b |}.

Definition disconnect (b : Backend) (cid : string) : Backend :=
  {| active_connections := active_connections b ∖ {[cid]};
     call_sessions := delete cid (call_sessions b);
     call_contexts := call_contexts b;
     active_engagements := active_engagements b |}.

Definition get_session (b : Backend) (cid : string) : option Session :=
  call_sessions b !! cid.

(** [update_session], the updates being given as a function. *)
Definition update_session (b : Backend) (cid : string)
    (updates : Session -> Session) : Backend :=
  {| active_connections := active_connections b;
     call_sessions := alter updates cid (call_sessions b);
     call_contexts := call_contexts b;
     active_engagements := active_engagements b |}.

Section Handler.

Variable settings : Config.Settings.
Variable ml_model : option MlModel.
Variable b64decode : string -> option (list Z).
Variable vad : option (list Z -> option bool).
Variable _extract_features : list Z -> AudioFeatures.
Variable whisper_model : option (list Z -> option string).
Variable fernet_encrypt : string -> list Z -> option (list Z).
Variable canned_reply : BaitAgent.Intent -> string -> string.
(** [websocket.send_json]: whether it returns rather than raises. *)
Variable send_json : WsMessage -> bool.

Definition detect_voice_activity :=
  AudioProcessor.detect_voice_activity settings b64decode vad _extract_features.
Definition transcribe := AudioProcessor.transcribe b64decode whisper_model.
Definition store_audio_chunk :=
  AudioProcessor.store_audio_chunk settings b64decode fernet_encrypt.

(** The [except] clause of [handle_audio_chunk]. *)
Definition on_error (b : Backend) (evs : list Event) (exc : string) : Outcome :=
  let m := error_message exc in
  {| backend := b; events := evs ++ [SendJson m];
     escaped := if send_json m then None else Some "send_json" |}.

(** Steps 3 of [handle_audio_chunk]: the decoy has the call. *)
Definition route_to_decoy (b : Backend) (evs : list Event) (cid : string)
    (transcript : option string) : Outcome :=
  let '(engagements, answer) :=
    BaitAgent.process_caller_input canned_reply
      (active_engagements b) cid transcript in
  let b := {| active_connections := active_connections b;
              call_sessions := call_sessions b;
              call_contexts := call_contexts b;
              active_engagements := engagements |} in
  let evs := evs ++ [DecoyInput cid transcript] in
  match answer with
  | Raised exc => on_error b evs exc
  | Returned reply =>
      let m := ai_response cid reply in
      if send_json m
      then {| backend := b; events := evs ++ [SendJson m]; escaped := None |}
      else on_error b (evs ++ [SendJson m]) "send_json"
  end.

(** Steps 4 to 6 and the privacy filter. *)
Definition score_turn (b : Backend) (evs : list Event) (cid : string)
    (audio : string) (sequence : Z) (transcript : option string)
    (feats : AudioFeatures) : Outcome :=
  let '(contexts, threat_result) :=
    analyze_realtime settings ml_model (call_contexts b) cid transcript
      (Some feats) in
  let sc := ThreatAnalyzer.threat_score threat_result in
  let b := {| active_connections := active_connections b;
              call_sessions := call_sessions b;
              call_contexts := contexts;
              active_engagements := active_engagements b |} in
  let evs := evs ++ [AnalyzeRealtime cid transcript] in
  let b :=
    update_session b cid (fun s =>
      {| audio_chunks_received := audio_chunks_received s;
         threat_score := sc;
         status := if Num.gtb sc (Config.threat_threshold_medium settings)
                   then THREAT_DETECTED else MONITORING;
         ai_handoff := ai_handoff s |}) in
  match transcript with
  | None => on_error b evs "ValidationError"
  | Some current_transcript =>
      let alert := Num.gtb sc (Config.threat_threshold_high settings) in
      let update :=
        threat_update cid sc (ThreatAnalyzer.threat_level threat_result)
          current_transcript alert in
      let evs := evs ++ [SendJson update] in
      if negb (send_json update) then on_error b evs "send_json"
      else
        let alerting := alert && bool_decide (cid ∈ active_connections b) in
        let evs := if alerting then evs ++ [SendJson (threat_alert cid sc)]
                   else evs in
        if alerting && negb (send_json (threat_alert cid sc))
        then on_error b evs "send_json"
        else
          let evs :=
            if Num.gtb sc (Config.threat_threshold_low settings)
            then evs ++ [StoreAudioChunk cid sequence audio transcript sc
                           (store_audio_chunk cid sequence audio transcript sc)]
            else evs in
          {| backend := b; events := evs; escaped := None |}
  end.

(** [handle_audio_chunk], with the services the lifespan handler
    creates all present. *)
Definition handle_audio_chunk (b : Backend) (cid : string) (payload : Payload)
  : Outcome :=
  match get_session b cid with
  | None => {| backend := b; events := []; escaped := None |}
  | Some session =>
      let audio := default "" (audio_data payload) in
      let sequence := default 0%Z (sequence_number payload) in
      match detect_voice_activity audio with
      | Raised exc => on_error b [] exc
      | Returned vad_result =>
          if negb (AudioProcessor.is_speech vad_result)
          then {| backend := b; events := []; escaped := None |}
          else
            let transcript := transcribe audio in
            let evs := [Transcribe audio] in
            if ai_handoff session
            then route_to_decoy b evs cid transcript
            else score_turn b evs cid audio sequence transcript
                   (AudioProcessor.features vad_result)
      end
  end.

End Handler.

End Main.

(** ** The rules of the specification that the embedding is compared with *)

Module Spec.

Import ThreatAnalyzer.

(** The tier rule in the words of the specification: below low is
    safe, [low, medium) is low, [medium, high) is medium, at or above
    high is high or critical, and exactly high is high. *)
Definition tier_rule (settings : Config.Settings) (s : Q) (tier : ThreatLevel) : Prop :=
  let low := Config.threat_threshold_low settings in
  let medium := Config.threat_threshold_medium settings in
  let high := Config.threat_threshold_high settings in
  ((s < low)%Q -> tier = SAFE)
  /\ ((low <= s)%Q -> (s < medium)%Q -> tier = LOW)
  /\ ((medium <= s)%Q -> (s < high)%Q -> tier = MEDIUM)
  /\ ((high <= s)%Q -> tier = HIGH \/ tier = CRITICAL)
  /\ ((s == high)%Q -> tier = HIGH).

(** The four scoring layers and the weight of each. *)
Inductive Layer := keyword | behavioral | classifier | audio.

Definition weight_of (l : Layer) : Q :=
  match l with
  | keyword => 0.4 | behavioral => 0.2 | classifier => 0.3 | audio => 0.1
  end.

(** The fused score in the words of the specification: the average of
    the scores of the layers that are present, each with its own
    weight, the weights renormalised to sum to one. *)
Definition fused (present : list (Layer * Q)) : Q :=
  let total := Num.sum (weight_of <$> (fst <$> present)) in
  Num.sum ((fun ls => (ls.2 * (weight_of ls.1 / total))%Q) <$> present).

(** The layers that [analyze] runs, each with its score. *)
Definition present_layers (ml_model : option MlModel)
    (transcript : option string) (audio_features : option AudioFeatures)
  : list (Layer * Q) :=
  let text := nonempty transcript in
  from_option (fun s =>
    [(keyword, KeywordSpotter.score (KeywordSpotter.analyze keyword_model s));
     (behavioral, score (_analyze_behavior s))]) [] text
  ++ match ml_model, text with
     | Some m, Some s => [(classifier, score (_ml_classify m s))]
     | _, _ => []
     end
  ++ match audio_features with
     | Some f => if decide (f = ∅) then []
                 else [(audio, _analyze_audio_features f)]
     | None => []
     end.

End Spec.

(** ** The histories of the decoy: what can happen to its registry *)

Module Decoy.

Import BaitAgent.

Inductive Op :=
| Start (cid : string) (persona_arg : option string)
| Input (cid : string) (transcript : option string)
| Terminate (cid : string).

Section Runs.

Variable settings : Config.Settings.
Variable canned_reply : Intent -> string -> string.
Variable greeting : string -> string.

Definition apply (engagements : gmap string ConversationState) (op : Op)
  : gmap string ConversationState :=
  match op with
  | Start cid p => (start_engagement settings greeting engagements cid p).1
  | Input cid t => (process_caller_input canned_reply engagements cid t).1
  | Terminate cid => (terminate_engagement engagements cid).1
  end.

(** The registry after a history, from the empty one of [__init__]. *)
Definition run (ops : list Op) : gmap string ConversationState :=
  foldl apply ∅ ops.

End Runs.

(** The order of the stages. *)
Definition rank (s : Stage) : nat :=
  match s with
  | initial => 0 | building_trust => 1 | extracting => 2 | terminating => 3
  end.

End Decoy.

(** ** The inputs of the worked examples *)

Module Examples.

(** The example turn of the specification. *)
Definition kyc_transcript : string :=
  "Sir, your KYC has expired. Give me your card number, CVV, and OTP now".

(** A turn that scores exactly the default medium threshold, 0.6:
    six urgency keywords and nothing else. *)
Definition emergency_turn : string :=
  "emergency emergency emergency emergency emergency emergency".

(** A turn that scores above it. *)
Definition alarm_turn : string :=
  "emergency emergency emergency emergency emergency emergency emergency".

(** The turns of one call, in order, through [analyze_realtime] with
    the default settings, no classifier and no audio features: the
    contexts at the end and the result of the last turn. *)
Definition replay (cid : string) (turns : list string)
  : gmap string ThreatAnalyzer.CallContext * option ThreatAnalyzer.AnalysisResult :=
  foldl (fun acc t =>
           let '(contexts, r) :=
             ThreatAnalyzer.analyze_realtime Config.defaults None acc.1 cid
               (Some t) None in
           (contexts, Some r))
        (∅, None) turns.

(** The bytes of 100 samples of amplitude 16384: 6.25 ms at 16 kHz,
    none of the 10, 20 or 30 ms frame sizes. *)
Definition short_loud_chunk : list Z := mjoin (replicate 100 [0; 64]%Z).

(** The bytes of a 30 ms frame of silence at 16 kHz: 480 samples. *)
Definition silent_frame : list Z := repeat 0%Z (2 * 480).

(** The process right after [connect] for one call. *)
Definition connected (cid : string) : Main.Backend :=
  Main.connect
    {| Main.active_connections := ∅; Main.call_sessions := ∅;
       Main.call_contexts := ∅; Main.active_engagements := ∅ |} cid.

(** The handler with the default settings, no classifier, no
    webrtcvad, no audio features, a socket that delivers, and a
    decoder and a transcriber that answer the same for every chunk. *)
Definition handler (audio_bytes : list Z) (transcript : option string) :=
  Main.handle_audio_chunk Config.defaults None (fun _ => Some audio_bytes)
    None (fun _ => ∅) (Some (fun _ => transcript)) (fun _ _ => None)
    (fun _ _ => "Ji?") (fun _ => true).

(** A turn in which the caller reads out a PAN. *)
Definition pan_turn : string := "My PAN is ABCDE1234F".

End Examples.

(** ** [services/intelligence_extractor.py]: the intelligence report *)

Module Report.

Import IntelligenceExtractor.

Definition indicator_patterns : list (string * list string) := [
  ("request_otp", ["otp bataiye"; "otp do"; "code batao"; "password batao"]);
  ("request_upi_pin", ["upi pin"; "pin batao"; "pin do"]);
  ("request_card_details", ["card number"; "cvv"; "expiry date"; "atm card"]);
  ("urgency_pressure", ["jaldi"; "abhi"; "immediately"; "urgent"; "time kam hai"]);
  ("secrecy", ["kisi ko mat batana"; "secret"; "confidential"; "chupke se"]);
  ("remote_access", ["anydesk"; "teamviewer"; "screen share"; "remote"; "download app"]);
  ("threats", ["arrest"; "jail"; "police"; "case"; "court"; "legal action"]);
  ("advance_fee", ["processing fee"; "security deposit"; "tax pehle"; "advance mein"])
].

Definition _extract_fraud_indicators (transcript : string) : list string :=
  let transcript_lower := Text.lower transcript in
  omap (fun ip : string * list string =>
          if existsb (fun pattern => Text.contains pattern transcript_lower) ip.2
          then Some ip.1 else None)
       indicator_patterns.

Definition high_risk_entities : list EntityType :=
  [upi_id; phone_number; bank_account; ifsc_code].

Definition _calculate_risk_score (entities : list ExtractedEntity)
    (fraud_indicators : list string) : Q :=
  let sc :=
    foldl (fun sc e =>
             if bool_decide (entity_type e ∈ high_risk_entities)
                && Num.gtb (confidence e) 0.5
             then (sc + 0.15)%Q else sc)
          0%Q entities in
  let sc := (sc + Num.of_nat (length fraud_indicators) * 0.1)%Q in
  Num.min 1 sc.

Definition _risk_level (sc : Q) : string :=
  if Num.geb sc 0.8 then "critical"
  else if Num.geb sc 0.6 then "high"
  else if Num.geb sc 0.4 then "medium"
  else if Num.gtb sc 0 then "low"
  else "none".

(** An entry of a list of [entities_by_type]. *)
Record Item := {
  item_value : string;
  item_confidence : Q;
  item_context : string
}.

(** [by_type[t].append(item)], the key being created when absent. *)
Fixpoint add_item (t : EntityType) (it : Item)
    (by_type : list (EntityType * list Item)) : list (EntityType * list Item) :=
  match by_type with
  | [] => [(t, [it])]
  | (k, items) :: more =>
      if decide (k = t) then (k, items ++ [it]) :: more
      else (k, items) :: add_item t it more
  end.

(** [by_type.get(t, [])] *)
Fixpoint items_for (t : EntityType) (by_type : list (EntityType * list Item))
  : list Item :=
  match by_type with
  | [] => []
  | (k, items) :: more => if decide (k = t) then items else items_for t more
  end.

(** The dictionary an entity contributes to [by_type]. *)
Definition item_of (e : ExtractedEntity) : Item :=
  {| item_value := value e; item_confidence := confidence e;
     item_context := Text.first_n 100 (context e) |}.

Definition group_by_type (entities : list ExtractedEntity)
  : list (EntityType * list Item) :=
  foldl (fun by_type e => add_item (entity_type e) (item_of e) by_type)
        [] entities.

(** [_recommend_actions]; [entities] is the dictionary [by_type]. *)
Definition _recommend_actions (risk_score : Q)
    (entities : list (EntityType * list Item)) : list string :=
  let has t := bool_decide (t ∈ entities.*1) in
  let actions := [] in
  let actions := if Num.geb risk_score 0.8
                 then actions ++ ["immediate_report_to_authorities"] else actions in
  let actions := if has upi_id then actions ++ ["flag_upi_ids"] else actions in
  let actions := if has phone_number
                 then actions ++ ["trace_phone_numbers"] else actions in
  let actions := if has bank_account || has ifsc_code
                 then actions ++ ["notify_banks"] else actions in
  match actions with
  | [] => ["continue_monitoring"]
  | _ => actions
  end.

(** The report; its timestamp is left out. *)
Record IntelligenceReport := {
  report_call_id : string;
  total_entities : nat;
  high_confidence_entities : nat;
  risk_score : Q;
  risk_level : string;
  entities_by_type : list (EntityType * list Item);
  fraud_indicators : list string;
  recommended_actions : list string
}.

Definition generate_intelligence_report (cid : string)
    (entities : list ExtractedEntity) (transcript : string) : IntelligenceReport :=
  let by_type := group_by_type entities in
  let indicators := _extract_fraud_indicators transcript in
  let sc := _calculate_risk_score entities indicators in
  {| report_call_id := cid;
     total_entities := length entities;
     high_confidence_entities :=
       length (filter (fun e => Num.gtb (confidence e) 0.7 = true) entities);
     risk_score := sc;
     risk_level := _risk_level sc;
     entities_by_type := by_type;
     fraud_indicators := indicators;
     recommended_actions := _recommend_actions sc by_type |}.

End Report.

(** ** [services/bait_agent.py]: the delay and the speakers of a transcript *)

Module Pacing.

Import BaitAgent.

(** [_calculate_response_delay]; the three arguments after the state
    are the draws of [random.uniform(1.0, 3.0)], [random.uniform(0.5, 2.0)]
    and [random.uniform(0.5, 1.5)]. *)
Definition _calculate_response_delay (state : ConversationState)
    (base confused fatigue : Q) : Q :=
  let base_delay := base in
  let base_delay := if String.eqb (persona state) "confused_senior"
                    then (base_delay + confused)%Q else base_delay in
  let base_delay := if (10 <? total_responses state)%nat
                    then (base_delay + fatigue)%Q else base_delay in
  Num.min base_delay 5.0.

(** The messages of one speaker in a history, as
    [_summarize_transcript] selects them. *)
Definition messages_of (who : string) (history : list Turn) : list Turn :=
  filter (fun h => speaker h = who) history.

End Pacing.

(** ** [api/main.py]: the socket loop and its other handlers *)

Module Control.

Import ThreatAnalyzer Main.

(** The messages a client sends, by their ["type"]. *)
Inductive Incoming :=
| audio_chunk (payload : Payload)
| handoff_request (persona_arg : option string)
| terminate_bait
| ping
| unknown (msg_type : string).

(** What the two decoy handlers and the keep-alive send. *)
Inductive ControlMessage :=
| handoff_confirmed (call_id agent_name : string)
| bait_terminated (call_id : string)
| pong.

(** What went out while a message was handled. *)
Inductive Sent :=
| from_audio (e : Event)
| from_control (m : ControlMessage).

Definition with_engagements (b : Backend)
    (engagements : gmap string BaitAgent.ConversationState) : Backend :=
  {| active_connections := active_connections b;
     call_sessions := call_sessions b;
     call_contexts := call_contexts b;
     active_engagements := engagements |}.

(** The calls and the messages of the scoring path of the audio
    handler. *)
Definition scoring (e : Event) : bool :=
  match e with
  | AnalyzeRealtime _ _ | StoreAudioChunk _ _ _ _ _ _ => true
  | SendJson (threat_update _ _ _ _ _) | SendJson (threat_alert _ _) => true
  | _ => false
  end.

(** Those of its decoy path. *)
Definition decoying (e : Event) : bool :=
  match e with
  | DecoyInput _ _ | SendJson (ai_response _ _) => true
  | _ => false
  end.

(** What tells the client, or the evidence store, of a turn: a threat
    update, an alert, a reply of the decoy, a stored chunk. *)
Definition reporting (e : Event) : bool :=
  match e with
  | StoreAudioChunk _ _ _ _ _ _ => true
  | SendJson (threat_update _ _ _ _ _) | SendJson (threat_alert _ _) => true
  | SendJson (ai_response _ (Some _)) => true
  | _ => false
  end.

(** Two states that differ at one call at most. *)
Definition same_elsewhere (cid : string) (b b' : Backend) : Prop :=
  forall other, other <> cid ->
    (other ∈ active_connections b' <-> other ∈ active_connections b)
    /\ call_sessions b' !! other = call_sessions b !! other
    /\ call_contexts b' !! other = call_contexts b !! other
    /\ active_engagements b' !! other = active_engagements b !! other.

(** The hand-off mark of a session agrees with its status, and a call
    that is marked has an engagement. *)
Definition handoff_consistent (b : Backend) (cid : string) : Prop :=
  forall session, call_sessions b !! cid = Some session ->
    (ai_handoff session = true <-> status session = AI_HANDOFF)
    /\ (ai_handoff session = true ->
        is_Some (active_engagements b !! cid)).

Section Loop.

Variable settings : Config.Settings.
Variable ml_model : option MlModel.
Variable b64decode : string -> option (list Z).
Variable vad : option (list Z -> option bool).
Variable _extract_features : list Z -> AudioFeatures.
Variable whisper_model : option (list Z -> option string).
Variable fernet_encrypt : string -> list Z -> option (list Z).
Variable canned_reply : BaitAgent.Intent -> string -> string.
Variable greeting : string -> string.
Variable send_json : WsMessage -> bool.
(** [websocket.send_json] for the control messages. *)
Variable send_control : ControlMessage -> bool.

(** The result of handling one message: the state, what was sent, and
    the exception that leaves the handler, if one does. *)
Definition Step : Type := Backend * list Sent * option string.

Definition deliver (b : Backend) (m : ControlMessage) : Step :=
  (b, [from_control m], if send_control m then None else Some "send_json").

Definition handle_handoff_request (b : Backend) (cid : string)
    (persona_arg : option string) : Step :=
  let b := update_session b cid (fun s =>
             {| audio_chunks_received := audio_chunks_received s;
                threat_score := Main.threat_score s;
                status := AI_HANDOFF;
                ai_handoff := true |}) in
  let b := with_engagements b
             (BaitAgent.start_engagement settings greeting
                (active_engagements b) cid persona_arg).1 in
  deliver b (handoff_confirmed cid (Config.bait_agent_name settings)).

Definition handle_terminate_bait (b : Backend) (cid : string) : Step :=
  let b := with_engagements b
             (BaitAgent.terminate_engagement (active_engagements b) cid).1 in
  let b := update_session b cid (fun s =>
             {| audio_chunks_received := audio_chunks_received s;
                threat_score := Main.threat_score s;
                status := MONITORING;
                ai_handoff := false |}) in
  deliver b (bait_terminated cid).

(** One turn of the loop of [websocket_endpoint]. *)
Definition dispatch (b : Backend) (cid : string) (msg : Incoming) : Step :=
  match msg with
  | audio_chunk payload =>
      let out := handle_audio_chunk settings ml_model b64decode vad
                   _extract_features whisper_model fernet_encrypt
                   canned_reply send_json b cid payload in
      (backend out, from_audio <$> events out, escaped out)
  | handoff_request persona_arg => handle_handoff_request b cid persona_arg
  | terminate_bait => handle_terminate_bait b cid
  | ping => deliver b pong
  | unknown _ => (b, [], None)
  end.

(** The loop: it ends when the client goes away, which is the end of
    the messages, or when a handler lets an exception out; either way
    the manager disconnects the call. *)
Fixpoint receive (b : Backend) (cid : string) (msgs : list Incoming) : Step :=
  match msgs with
  | [] => (disconnect b cid, [], None)
  | msg :: more =>
      match dispatch b cid msg with
      | (b, sent, Some exc) => (disconnect b cid, sent, Some exc)
      | (b, sent, None) =>
          let '(b, sent', exc) := receive b cid more in
          (b, sent ++ sent', exc)
      end
  end.

(** [websocket_endpoint] *)
Definition websocket_endpoint (b : Backend) (cid : string)
    (msgs : list Incoming) : Step :=
  receive (connect b cid) cid msgs.

End Loop.

End Control.

(** ** [services/evidence_packager.py] *)

Module EvidencePackager.

(** [ChainOfCustodyEntry], as the dictionary [asdict] gives; the
    timestamp is left out. *)
Record ChainOfCustodyEntry := {
  action : string;
  actor : string;
  description : string;
  hash_before : option string;
  hash_after : option string
}.

Record EvidenceSignature := {
  algorithm : string;
  hash_value : string;
  signed_by : string
}.

Record EvidencePackage := {
  package_id : string;
  call_id : string;
  created_at : string;
  phone_number : string;
  call_duration_seconds : Z;
  threat_level : string;
  audio_file_hash : option string;
  transcript : option string;
  entities : list IntelligenceExtractor.ExtractedEntity;
  threat_timeline : list string;
  signature : option EvidenceSignature;
  chain_of_custody : list ChainOfCustodyEntry
}.

(** The dictionary [_sign_package] hashes. *)
Record Canonical := {
  c_package_id : string;
  c_call_id : string;
  c_created_at : string;
  c_phone_number : string;
  c_call_duration_seconds : Z;
  c_threat_level : string;
  c_audio_file_hash : option string;
  c_transcript_hash : option string;
  c_entities_count : nat
}.

(** What [export_for_submission] returns for the format ["json"]. *)
Record Submission := {
  case_reference : string;
  suspect_phone_number : string;
  suspect_call_duration : Z;
  threat_assessment_level : string;
  threat_assessment_timeline : list string;
  extracted_intelligence : list IntelligenceExtractor.ExtractedEntity;
  audio_hash : option string;
  signature_algorithm : option string;
  signature_hash : option string;
  submitted_chain_of_custody : list ChainOfCustodyEntry
}.

Definition with_signature (p : EvidencePackage)
    (sg : option EvidenceSignature) : EvidencePackage :=
  {| package_id := package_id p; call_id := call_id p;
     created_at := created_at p; phone_number := phone_number p;
     call_duration_seconds := call_duration_seconds p;
     threat_level := threat_level p; audio_file_hash := audio_file_hash p;
     transcript := transcript p; entities := entities p;
     threat_timeline := threat_timeline p; signature := sg;
     chain_of_custody := chain_of_custody p |}.

Section Packager.

(** [settings.secret_key] *)
Variable secret_key : string.
(** [hashlib.sha256(s.encode()).hexdigest()] *)
Variable sha256 : string -> string.
(** [json.dumps(d, sort_keys=True)] *)
Variable json_dumps : Canonical -> string.

Definition _sign_package (p : EvidencePackage) : EvidenceSignature :=
  let package_dict :=
    {| c_package_id := package_id p; c_call_id := call_id p;
       c_created_at := created_at p; c_phone_number := phone_number p;
       c_call_duration_seconds := call_duration_seconds p;
       c_threat_level := threat_level p;
       c_audio_file_hash := audio_file_hash p;
       c_transcript_hash := sha256 <$> ThreatAnalyzer.nonempty (transcript p);
       c_entities_count := length (entities p) |} in
  let package_hash := sha256 (json_dumps package_dict) in
  {| algorithm := "SHA256";
     hash_value := sha256 (package_hash +:+ secret_key);
     signed_by := "rakshak_system" |}.

Definition verify_package (p : EvidencePackage) : bool :=
  match signature p with
  | None => false
  | Some sg =>
      let expected_signature := _sign_package (with_signature p None) in
      String.eqb (hash_value expected_signature) (hash_value sg)
  end.

(** [create_package]; the identifier and the creation time, which the
    code draws from the clock, are arguments.  [_gather_evidence_data]
    is the fixed dictionary of the source, whose audio is [None]. *)
Definition create_package (new_id now : string) (cid : string)
    (include_audio include_transcript include_intelligence sign_package : bool)
  : EvidencePackage :=
  let chain :=
    [{| action := "package_created"; actor := "rakshak_system";
        description := "Evidence package creation initiated";
        hash_before := None; hash_after := None |}] in
  let p :=
    {| package_id := new_id; call_id := cid; created_at := now;
       phone_number := "+91XXXXXXXXXX"; call_duration_seconds := 300;
       threat_level := "high"; audio_file_hash := None;
       transcript := if include_transcript
                     then Some "Sample transcript for evidence..." else None;
       entities := []; threat_timeline := []; signature := None;
       chain_of_custody := chain |} in
  if sign_package then with_signature p (Some (_sign_package p)) else p.

Definition add_custody_entry (p : EvidencePackage)
    (act who what : string) : EvidencePackage :=
  {| package_id := package_id p; call_id := call_id p;
     created_at := created_at p; phone_number := phone_number p;
     call_duration_seconds := call_duration_seconds p;
     threat_level := threat_level p; audio_file_hash := audio_file_hash p;
     transcript := transcript p; entities := entities p;
     threat_timeline := threat_timeline p; signature := signature p;
     chain_of_custody :=
       chain_of_custody p
       ++ [{| action := act; actor := who; description := what;
              hash_before := None; hash_after := None |}] |}.

Definition export_for_submission (p : EvidencePackage) (format : string)
  : PyResult Submission :=
  if String.eqb format "json"
  then Returned
         {| case_reference := package_id p;
            suspect_phone_number := phone_number p;
            suspect_call_duration := call_duration_seconds p;
            threat_assessment_level := threat_level p;
            threat_assessment_timeline := threat_timeline p;
            extracted_intelligence := entities p;
            audio_hash := audio_file_hash p;
            signature_algorithm := algorithm <$> signature p;
            signature_hash := hash_value <$> signature p;
            submitted_chain_of_custody := chain_of_custody p |}
  else Raised "ValueError".

End Packager.

End EvidencePackager.

(** ** More inputs of worked examples *)

Module MoreExamples.

(** A classifier that is sure of a scam, whatever the turn. *)
Definition sure_classifier : ThreatAnalyzer.MlModel :=
  fun _ => Some {| ThreatAnalyzer.proba := [0.2; 0.8]%Q;
                   ThreatAnalyzer.prediction := 1 |}.

(** A turn with no scam keyword and no behavioural pattern in it. *)
Definition delivery_turn : string :=
  "Your order has shipped and arrives in two days".



Definition newline : string := String (Ascii.ascii_of_nat 10) "".

(** The transcript of [test_kyc_scam_detection] in
    [tests/test_backend.py]. *)
Definition kyc_test_script : string :=
  "Scammer: Sir, your KYC has expired." +:+ newline
  +:+ "        Victim: What?" +:+ newline
  +:+ "        Scammer: You need to update immediately or account will be blocked."
  +:+ newline
  +:+ "        Victim: Okay." +:+ newline
  +:+ "        Scammer: Give me your card number, CVV, and OTP.".

End MoreExamples.

(** * Properties *)

(** ** Comparisons *)

Section Comparisons.

Local Open Scope Q_scope.

Lemma geb_true a b : Num.geb a b = true <-> b <= a.
Proof. apply Qle_bool_iff. Qed.

Lemma geb_false a b : Num.geb a b = false <-> a < b.
Proof.
  unfold Num.geb. rewrite <- not_true_iff_false, Qle_bool_iff.
  split; [apply Qnot_le_lt | apply Qlt_not_le].
Qed.

Lemma gtb_true a b : Num.gtb a b = true <-> b < a.
Proof.
  unfold Num.gtb. rewrite negb_true_iff. apply (geb_false b a).
Qed.

Lemma gtb_false a b : Num.gtb a b = false <-> a <= b.
Proof.
  unfold Num.gtb. rewrite negb_false_iff. apply (geb_true b a).
Qed.

End Comparisons.

(** Decide every threshold test in sight and leave the arithmetic. *)
Ltac thresholds :=
  repeat match goal with
  | |- context [Num.geb ?a ?b] =>
      let H := fresh "Hge" in
      destruct (Num.geb a b) eqn:H;
      [apply geb_true in H | apply geb_false in H]
  | |- context [Num.gtb ?a ?b] =>
      let H := fresh "Hgt" in
      destruct (Num.gtb a b) eqn:H;
      [apply gtb_true in H | apply gtb_false in H]
  end.

(** ** The tier of a score *)

Section Tiers.

Import ThreatAnalyzer.
Local Open Scope Q_scope.

(** C1, as the specification words it, fails: with the default cut
    points a score of exactly 0.3 (the low threshold) is classified
    medium, where the rule of the specification asks for low. *)
Lemma tier_rule_fails_at_the_low_threshold :
  ~ (forall s, Spec.tier_rule Config.defaults s
                 (_get_threat_level Config.defaults s)).
Proof.
  intros H. destruct (H 0.3) as (_ & Hlow & _).
  cbn in Hlow. discriminate Hlow; [apply Qle_refl | reflexivity].
Qed.

(** C1, amended: for cut points low < medium < high the tier is
    critical at or above high (exactly high included), high in
    [medium, high), medium in [low, medium), and below low it is low
    when the score exceeds 0.1 and safe otherwise. *)
Theorem threat_level_by_cut_points (settings : Config.Settings) (s : Q) :
  Config.threat_threshold_low settings < Config.threat_threshold_medium settings ->
  Config.threat_threshold_medium settings < Config.threat_threshold_high settings ->
  let low := Config.threat_threshold_low settings in
  let medium := Config.threat_threshold_medium settings in
  let high := Config.threat_threshold_high settings in
  let tier := _get_threat_level settings s in
  (high <= s -> tier = CRITICAL)
  /\ (medium <= s -> s < high -> tier = HIGH)
  /\ (low <= s -> s < medium -> tier = MEDIUM)
  /\ (s < low -> 0.1 < s -> tier = LOW)
  /\ (s < low -> s <= 0.1 -> tier = SAFE).
Proof.
  intros Hlm Hmh low medium high tier.
  subst low medium high tier. unfold _get_threat_level.
  repeat split; intros; thresholds; try reflexivity; exfalso; lra.
Qed.

Lemma threat_level_by_cut_points_witness :
  (0.3 < 0.6 /\ 0.6 < 0.85)
  /\ _get_threat_level Config.defaults 0.85 = CRITICAL
  /\ _get_threat_level Config.defaults 0.7 = HIGH
  /\ _get_threat_level Config.defaults 0.3 = MEDIUM
  /\ _get_threat_level Config.defaults 0.2 = LOW
  /\ _get_threat_level Config.defaults 0.05 = SAFE.
Proof.
  assert (Hlm : 0.3 < 0.6) by reflexivity.
  assert (Hmh : 0.6 < 0.85) by reflexivity.
  split; [split; assumption |].
  pose proof (threat_level_by_cut_points Config.defaults 0.85 Hlm Hmh) as (H1 & _).
  pose proof (threat_level_by_cut_points Config.defaults 0.7 Hlm Hmh) as (_ & H2 & _).
  pose proof (threat_level_by_cut_points Config.defaults 0.3 Hlm Hmh) as (_ & _ & H3 & _).
  pose proof (threat_level_by_cut_points Config.defaults 0.2 Hlm Hmh) as (_ & _ & _ & H4 & _).
  pose proof (threat_level_by_cut_points Config.defaults 0.05 Hlm Hmh) as (_ & _ & _ & _ & H5).
  cbn beta zeta in *.
  split_and!.
  - apply H1. cbn. apply Qle_refl.
  - apply H2; cbn; [discriminate | reflexivity].
  - apply H3; cbn; [apply Qle_refl | reflexivity].
  - apply H4; cbn; reflexivity.
  - apply H5; cbn; [reflexivity | discriminate].
Defined.

End Tiers.

(** ** The fused score of one turn *)

Section Fusion.

Import ThreatAnalyzer.
Local Open Scope Q_scope.

Variable settings : Config.Settings.
Variable ml_model : option MlModel.

(** With a transcript, no classifier and audio features, the three
    scores are weighted 0.4, 0.2 and 0.3 over 0.9: the audio score
    stands in the classifier's place. *)
Lemma combine_three (k b a : Q) :
  combine [k; b; a] == (0.4 * k + 0.2 * b + 0.3 * a) / 0.9.
Proof. unfold combine, Num.sum. cbn. field. Qed.

(** In the same case the rule of the specification weights the audio
    score 0.1 over 0.7. *)
Lemma fused_three (k b a : Q) :
  Spec.fused [(Spec.keyword, k); (Spec.behavioral, b); (Spec.audio, a)]
  == (0.4 * k + 0.2 * b + 0.1 * a) / 0.7.
Proof. unfold Spec.fused, Num.sum. cbn. field. Qed.

(** The layers of the specification are the layers [analyze] scores. *)
Lemma present_layers_scores transcript audio_features :
  snd <$> Spec.present_layers ml_model transcript audio_features
  = layer_scores ml_model transcript audio_features.
Proof.
  unfold Spec.present_layers, layer_scores.
  destruct (nonempty transcript) as [s|], ml_model as [m|],
    audio_features as [f|]; cbn; try reflexivity;
    destruct (decide (f = ∅)); reflexivity.
Qed.

(** Whenever the classifier ran or no audio layer did, [analyze]
    combines the scores as the specification says. *)
Lemma combine_agrees_off_the_gap transcript audio_features :
  is_Some ml_model \/ nonempty transcript = None
  \/ audio_features = None \/ audio_features = Some ∅ ->
  combine (layer_scores ml_model transcript audio_features)
  == Spec.fused (Spec.present_layers ml_model transcript audio_features).
Proof.
  intros Hcase.
  unfold Spec.present_layers, layer_scores, combine, Spec.fused, Num.sum.
  destruct (nonempty transcript) as [s|], ml_model as [m|],
    audio_features as [f|]; cbn;
    try destruct (decide (f = ∅)); cbn; try field; try reflexivity.
  exfalso. destruct Hcase as [[? [=]] | [[=] | [[=] | [= ->]]]]. congruence.
Qed.

End Fusion.

Section FusionGap.

Import ThreatAnalyzer.
Local Open Scope Q_scope.

(** C3, where the code departs from it: for the turn "hello" with a
    loud audio chunk (rms_energy 0.9) and no classifier loaded, the
    layers present are keyword (0), behavioural (0) and audio (0.1);
    the weighted average with the renormalised weights 0.4, 0.2, 0.1
    is 1/70, but [analyze] gives the audio score the classifier's
    weight and reports 1/30, rounded to 0.033. *)
Theorem audio_score_takes_the_classifier_weight :
  let feats : gmap string Q := {[ "rms_energy" := 0.9 ]} in
  let present := Spec.present_layers None (Some "hello") (Some feats) in
  let scores := layer_scores None (Some "hello") (Some feats) in
  (fst <$> present) = [Spec.keyword; Spec.behavioral; Spec.audio]
  /\ Forall2 Qeq scores [0; 0; 0.1]
  /\ Spec.fused present == 1 # 70
  /\ combine scores == 1 # 30
  /\ threat_score (analyze Config.defaults None (Some "hello") (Some feats))
     == 0.033.
Proof.
  cbv zeta. split_and!.
  - vm_compute. reflexivity.
  - vm_compute. repeat constructor.
  - vm_compute. reflexivity.
  - vm_compute. reflexivity.
  - vm_compute. reflexivity.
Qed.

End FusionGap.

(** ** A turn with no layer at all *)

Section NoLayers.

Import ThreatAnalyzer.
Local Open Scope Q_scope.


End NoLayers.

Section NoLayersWitness.

Import ThreatAnalyzer.
Local Open Scope Q_scope.


End NoLayersWitness.

(** ** The worked example of the specification *)

Section KycExample.

Import ThreatAnalyzer Examples.
Local Open Scope Q_scope.

Lemma kyc_keyword_indicators :
  KeywordSpotter.indicators (KeywordSpotter.analyze keyword_model kyc_transcript)
  = ["financial_keywords_detected"].
Proof. vm_compute. reflexivity. Qed.

Lemma kyc_threat_level :
  threat_level (analyze Config.defaults None (Some kyc_transcript) None) = MEDIUM.
Proof. vm_compute. reflexivity. Qed.

Lemma kyc_threat_score :
  threat_score (analyze Config.defaults None (Some kyc_transcript) None)
  == 0.317.
Proof. vm_compute. reflexivity. Qed.

Lemma kyc_test_script_score :
  threat_score
    (analyze Config.defaults None (Some MoreExamples.kyc_test_script) None)
  == 0.317.
Proof. vm_compute. reflexivity. Qed.

(** C8: the code does not do what the claim says of this transcript.
    Scored with no classifier and no audio features at the default
    cut points, the urgency category does not fire (its keywords do
    not include a bare "now"), no multiple-category bonus is applied,
    the score is 0.317 and the tier is neither high nor critical.
    The script of the repository's own test of KYC fraud, which
    asserts a score above 0.5, scores 0.317 as well. *)
Theorem kyc_example_is_not_high :
  let kw := KeywordSpotter.analyze keyword_model kyc_transcript in
  let r := analyze Config.defaults None (Some kyc_transcript) None in
  let tested :=
    analyze Config.defaults None (Some MoreExamples.kyc_test_script) None in
  ~ ("urgent_keywords_detected" ∈ KeywordSpotter.indicators kw)
  /\ ~ ("multiple_threat_categories" ∈ KeywordSpotter.indicators kw)
  /\ threat_level r <> HIGH /\ threat_level r <> CRITICAL
  /\ threat_score r == 0.317
  /\ ~ (0.5 < threat_score tested).
Proof.
  cbv zeta. rewrite kyc_keyword_indicators. rewrite kyc_threat_level.
  split_and!.
  - intros H. apply list_elem_of_singleton in H. discriminate H.
  - intros H. apply list_elem_of_singleton in H. discriminate H.
  - discriminate.
  - discriminate.
  - apply kyc_threat_score.
  - rewrite kyc_test_script_score. intros H. discriminate H.
Qed.

End KycExample.

(** ** Escalation over the score history *)

Section Escalation.

Import ThreatAnalyzer.
Local Open Scope Q_scope.

Variable settings : Config.Settings.
Variable ml_model : option MlModel.

Lemma forallb_Forall {A} (f : A -> bool) (l : list A) :
  forallb f l = true <-> Forall (fun x => f x = true) l.
Proof.
  induction l as [|x l IH]; cbn.
  - split; [constructor | reflexivity].
  - rewrite andb_true_iff, IH, Forall_cons. reflexivity.
Qed.

(** The test of the handler: at least three scores, the last three
    all strictly above the medium threshold. *)
Lemma escalating_iff (context : CallContext) :
  escalating settings context = true
  <-> (3 <= length (threat_scores context))%nat
      /\ Forall (fun s => Config.threat_threshold_medium settings < s)
           (recent_scores context).
Proof.
  unfold escalating. rewrite andb_true_iff, Nat.leb_le, forallb_Forall.
  apply and_iff_compat_l, Forall_iff. intros s. apply gtb_true.
Qed.

(** The context a turn leaves for its call: the score of the turn, as
    [analyze] reports it, is the newest entry of the history. *)
Lemma analyze_realtime_context call_contexts cid transcript audio_features :
  exists context,
    (analyze_realtime settings ml_model call_contexts cid transcript
       audio_features).1 !! cid = Some context
    /\ threat_scores context
       = deque_append 10
           (threat_scores (default new_context (call_contexts !! cid)))
           (threat_score (analyze settings ml_model transcript audio_features))
    /\ escalation_detected
         (analyze_realtime settings ml_model call_contexts cid transcript
            audio_features).2
       = escalating settings context
    /\ recommended_action
         (analyze_realtime settings ml_model call_contexts cid transcript
            audio_features).2
       = if escalating settings context then "handoff_to_ai"
         else recommended_action
                (analyze settings ml_model transcript audio_features).
Proof.
  eexists. unfold analyze_realtime. cbn [fst snd].
  rewrite lookup_insert_eq. split_and!; reflexivity.
Qed.

(** C2, amended: when, after a turn, the history of the call holds at
    least three scores and the three most recent are each strictly
    above the medium threshold, the result of the turn has
    escalation_detected set and its recommended action forced to
    handoff_to_ai, whatever the latest score alone recommends. *)
Theorem sustained_scores_force_handoff call_contexts cid transcript
    audio_features context :
  (analyze_realtime settings ml_model call_contexts cid transcript
     audio_features).1 !! cid = Some context ->
  (3 <= length (threat_scores context))%nat ->
  Forall (fun s => Config.threat_threshold_medium settings < s)
    (recent_scores context) ->
  let r := (analyze_realtime settings ml_model call_contexts cid transcript
              audio_features).2 in
  escalation_detected r = true /\ recommended_action r = "handoff_to_ai".
Proof.
  intros Hctx Hlen Hrecent r.
  destruct (analyze_realtime_context call_contexts cid transcript audio_features)
    as (context' & Hctx' & _ & Hesc & Hact).
  rewrite Hctx in Hctx'. injection Hctx' as <-.
  assert (He : escalating settings context = true)
    by (apply escalating_iff; split; assumption).
  subst r. rewrite Hesc, Hact, He. split; reflexivity.
Qed.

End Escalation.

Section EscalationExamples.

Import ThreatAnalyzer Examples.
Local Open Scope Q_scope.

(** C2, as the specification words it, fails on the boundary: three
    consecutive turns of six urgency keywords each score exactly the
    medium threshold 0.6, so the three most recent entries of the
    history are all at or above it, yet escalation_detected stays
    unset and the recommended action is not the handoff. *)
Lemma escalation_misses_scores_equal_to_medium :
  let run := replay "call-1" [emergency_turn; emergency_turn; emergency_turn] in
  exists context r,
    run.1 !! "call-1" = Some context /\ run.2 = Some r
    /\ length (threat_scores context) = 3%nat
    /\ Forall (fun s => Config.threat_threshold_medium Config.defaults <= s)
         (recent_scores context)
    /\ escalation_detected r = false
    /\ recommended_action r <> "handoff_to_ai".
Proof.
  cbv zeta. eexists _, _. split_and!.
  - vm_compute; reflexivity.
  - vm_compute; reflexivity.
  - vm_compute; reflexivity.
  - vm_compute. repeat constructor; discriminate.
  - vm_compute; reflexivity.
  - vm_compute. discriminate.
Qed.

Lemma sustained_scores_force_handoff_witness :
  let before := (replay "call-1" [alarm_turn; alarm_turn]).1 in
  let turn := analyze_realtime Config.defaults None before "call-1"
                (Some alarm_turn) None in
  exists context,
    turn.1 !! "call-1" = Some context
    /\ (3 <= length (threat_scores context))%nat
    /\ Forall (fun s => Config.threat_threshold_medium Config.defaults < s)
         (recent_scores context)
    /\ escalation_detected turn.2 = true
    /\ recommended_action turn.2 = "handoff_to_ai".
Proof.
  cbv zeta. eexists.
  assert (Hand : forall A B C D : Prop,
             A -> B -> C -> (A -> B -> C -> D) -> A /\ B /\ C /\ D) by tauto.
  apply Hand; clear Hand.
  - vm_compute. reflexivity.
  - vm_compute. lia.
  - vm_compute. repeat constructor.
  - intros Ha Hb Hc.
    exact (sustained_scores_force_handoff Config.defaults None _ _ _ _ _ Ha Hb Hc).
Defined.

End EscalationExamples.

(** ** The stages of a decoy engagement *)

Section Stages.

Import BaitAgent Decoy.

Variable settings : Config.Settings.
Variable canned_reply : Intent -> string -> string.
Variable greeting : string -> string.

Lemma stage_of_bands (n : nat) :
  (n <= 2 -> stage_of n = initial)
  /\ (3 <= n <= 7 -> stage_of n = building_trust)
  /\ (8 <= n <= 14 -> stage_of n = extracting)
  /\ (15 <= n -> stage_of n = terminating).
Proof.
  unfold stage_of.
  destruct (Nat.ltb_spec n 3), (Nat.ltb_spec n 8), (Nat.ltb_spec n 15);
    split_and!; intros; first [reflexivity | lia].
Qed.

Lemma stage_of_monotone (n m : nat) :
  n <= m -> rank (stage_of n) <= rank (stage_of m).
Proof.
  intros Hnm. unfold stage_of.
  destruct (Nat.ltb_spec n 3), (Nat.ltb_spec n 8), (Nat.ltb_spec n 15),
    (Nat.ltb_spec m 3), (Nat.ltb_spec m 8), (Nat.ltb_spec m 15);
    cbn; lia.
Qed.

(** One caller turn on a live engagement: the count goes up by one
    and the stage is recomputed from it, whether or not the reply
    could be generated; the other engagements are not touched. *)
Lemma process_caller_input_live engagements cid transcript state :
  engagements !! cid = Some state ->
  exists state',
    (process_caller_input canned_reply engagements cid transcript).1
    = <[cid := state']> engagements
    /\ total_responses state' = S (total_responses state)
    /\ engagement_stage state' = stage_of (S (total_responses state)).
Proof.
  intros Hlive. unfold process_caller_input. rewrite Hlive.
  destruct transcript as [s|]; cbn [_generate_response fst];
    eexists; (split; [reflexivity |]); cbn; rewrite Nat.add_1_r; auto.
Qed.

Lemma process_caller_input_absent engagements cid transcript :
  engagements !! cid = None ->
  (process_caller_input canned_reply engagements cid transcript).1 = engagements.
Proof. intros Hnone. unfold process_caller_input. rewrite Hnone. reflexivity. Qed.

(** In every history, each registered engagement has the stage of
    its turn count. *)
Lemma stage_invariant (ops : list Op) cid state :
  run settings canned_reply greeting ops !! cid = Some state ->
  engagement_stage state = stage_of (total_responses state).
Proof.
  unfold run. revert cid state.
  induction ops as [|op ops IH] using rev_ind; intros cid state.
  - cbn. rewrite lookup_empty. discriminate.
  - rewrite foldl_app. cbn [foldl].
    set (before := foldl (apply settings canned_reply greeting) ∅ ops) in *.
    destruct op as [cid' p | cid' t | cid']; cbn [apply].
    + unfold start_engagement. cbn [fst].
      destruct (decide (cid' = cid)) as [-> | Hne].
      * rewrite lookup_insert_eq. intros [= <-]. reflexivity.
      * rewrite lookup_insert_ne by assumption. apply IH.
    + destruct (before !! cid') as [state0|] eqn:Hlive.
      * destruct (process_caller_input_live before cid' t state0 Hlive)
          as (state' & -> & Hcount & Hstage).
        destruct (decide (cid' = cid)) as [-> | Hne].
        -- rewrite lookup_insert_eq. intros [= <-]. congruence.
        -- rewrite lookup_insert_ne by assumption. apply IH.
      * rewrite process_caller_input_absent by assumption. apply IH.
    + unfold terminate_engagement.
      destruct (before !! cid') as [state0|] eqn:Hlive; cbn [fst].
      * destruct (decide (cid' = cid)) as [-> | Hne].
        -- rewrite lookup_delete_eq. discriminate.
        -- rewrite lookup_delete_ne by assumption. apply IH.
      * apply IH.
Qed.

(** C9: while an engagement exists its stage is a function of its
    turn count alone (initial for 0 to 2, building-trust for 3 to 7,
    extracting for 8 to 14, terminating from 15 on); each caller turn
    processed raises the count by exactly one; and so the stage never
    regresses. *)
Theorem engagement_stage_never_regresses (ops : list Op) cid state :
  run settings canned_reply greeting ops !! cid = Some state ->
  let n := total_responses state in
  engagement_stage state = stage_of n
  /\ ((n <= 2 -> stage_of n = initial)
      /\ (3 <= n <= 7 -> stage_of n = building_trust)
      /\ (8 <= n <= 14 -> stage_of n = extracting)
      /\ (15 <= n -> stage_of n = terminating))
  /\ forall transcript, exists state',
       run settings canned_reply greeting (ops ++ [Input cid transcript]) !! cid
       = Some state'
       /\ total_responses state' = S n
       /\ engagement_stage state' = stage_of (S n)
       /\ rank (engagement_stage state) <= rank (engagement_stage state').
Proof.
  intros Hlive n. subst n.
  pose proof (stage_invariant ops cid state Hlive) as Hstage.
  split; [assumption | split; [apply stage_of_bands |]].
  intros transcript.
  destruct (process_caller_input_live _ cid transcript state Hlive)
    as (state' & Hmap & Hcount & Hstage').
  exists state'. unfold run in *. rewrite foldl_app. cbn [foldl apply].
  rewrite Hmap, lookup_insert_eq. split_and!; try congruence.
  rewrite Hstage, Hstage'. apply stage_of_monotone. lia.
Qed.

End Stages.

Section StagesWitness.

Import BaitAgent Decoy.

Lemma engagement_stage_never_regresses_witness :
  let run := run Config.defaults (fun _ _ => "Ji?") (fun _ => "Hello?") in
  let ops := [Start "call-9" None; Input "call-9" (Some "share the otp");
              Input "call-9" None; Input "call-9" (Some "hurry")] in
  exists state,
    run ops !! "call-9" = Some state
    /\ total_responses state = 3
    /\ engagement_stage state = building_trust
    /\ forall transcript, exists state',
         run (ops ++ [Input "call-9" transcript]) !! "call-9" = Some state'
         /\ total_responses state' = S (total_responses state)
         /\ engagement_stage state' = stage_of (S (total_responses state))
         /\ rank (engagement_stage state) <= rank (engagement_stage state').
Proof.
  cbv zeta. eexists.
  assert (Hand : forall A B C D : Prop,
             A -> B -> C -> (A -> D) -> A /\ B /\ C /\ D) by tauto.
  apply Hand; clear Hand.
  - vm_compute. reflexivity.
  - vm_compute. reflexivity.
  - vm_compute. reflexivity.
  - intros Hlive.
    exact (proj2 (proj2 (engagement_stage_never_regresses Config.defaults
             (fun _ _ => "Ji?") (fun _ => "Hello?") _ _ _ Hlive))).
Defined.

End StagesWitness.

(** ** The audio gate *)

Section Gate.

Import ThreatAnalyzer AudioProcessor.
Local Open Scope Q_scope.

Variable settings : Config.Settings.
Variable b64decode : string -> option (list Z).
Variable vad : option (list Z -> option bool).
Variable _extract_features : list Z -> AudioFeatures.

Lemma frombuffer_zeros (n : nat) :
  frombuffer (repeat 0%Z (2 * n)) = Some (repeat 0%Z n).
Proof.
  induction n as [|n IH]; [reflexivity |].
  replace (2 * S n)%nat with (S (S (2 * n))) by lia.
  cbn [repeat frombuffer]. rewrite IH. reflexivity.
Qed.

Lemma sum_of_silent_squares (n : nat) (acc : Q) :
  acc == 0 ->
  foldl Qplus acc
    ((fun x => (inject_Z x / 32768) * (inject_Z x / 32768)) <$> repeat 0%Z n)
  == 0.
Proof.
  revert acc. induction n as [|n IH]; intros acc Hacc; cbn; [assumption |].
  apply IH. rewrite Hacc. reflexivity.
Qed.

Lemma silence_has_no_energy (n : nat) (threshold : Q) :
  rms_exceeds (repeat 0%Z n) threshold = false.
Proof.
  unfold rms_exceeds. destruct n as [|n]; [reflexivity |].
  cbn [repeat]. apply gtb_false. unfold Num.sum.
  change (0%Z :: repeat 0%Z n) with (repeat 0%Z (S n)).
  rewrite (sum_of_silent_squares (S n) 0) by reflexivity.
  unfold Qdiv. rewrite Qmult_0_l. nra.
Qed.

Lemma frames_of_one_frame (fuel n : nat) (xs : list Z) :
  length xs = n -> frames fuel n xs = [].
Proof.
  intros <-. destruct fuel; [reflexivity |].
  cbn [frames]. rewrite Nat.ltb_irrefl. reflexivity.
Qed.

End Gate.
Section GateDecision.

Import ThreatAnalyzer AudioProcessor.
Local Open Scope Q_scope.

Variable settings : Config.Settings.
Variable b64decode : string -> option (list Z).
Variable vad : option (list Z -> option bool).
Variable _extract_features : list Z -> AudioFeatures.

Abbreviation detect := (detect_voice_activity settings b64decode vad _extract_features).

Lemma frames_whole (fuel n : nat) (xs : list Z) :
  Forall (fun f => length f = n) (frames fuel n xs).
Proof.
  revert xs. induction fuel as [|fuel IH]; intros xs; cbn [frames]; [constructor |].
  destruct (Nat.ltb_spec n (length xs)); constructor; [| apply IH].
  rewrite length_take. lia.
Qed.

Lemma some_verdict_counts (v : list Z -> option bool) (fs : list (list Z)) :
  (0 < length (filter (fun o => o = Some true) (v <$> fs)))%nat
  <-> exists f, f ∈ fs /\ v f = Some true.
Proof.
  induction fs as [|f fs IH].
  - cbn. split; [lia | intros (f & Hin & _); inversion Hin].
  - rewrite fmap_cons, filter_cons.
    destruct (decide (v f = Some true)) as [Hv | Hv].
    + cbn [length]. split; [intros _; exists f; split; [left | assumption] | lia].
    + rewrite IH. split.
      * intros (g & Hin & Hg). exists g. split; [right |]; assumption.
      * intros (g & Hin & Hg). apply elem_of_cons in Hin as [-> | Hin];
          [contradiction | exists g; split; assumption].
Qed.

Lemma no_speech_frames_no_ratio (total : nat) :
  Num.gtb (if (0 <? total)%nat then Num.of_nat 0 / Num.of_nat total else 0) 0.3
  = false.
Proof.
  apply gtb_false. destruct (0 <? total)%nat; [| discriminate].
  unfold Qdiv. change (Num.of_nat 0) with 0. rewrite Qmult_0_l. discriminate.
Qed.

(** The decision of the gate on a chunk that decodes, with webrtcvad:
    speech exactly when some examined frame is speech. *)
Lemma vad_sweep_decides (v : list Z -> option bool) (fs : list (list Z)) :
  let verdicts := v <$> fs in
  let speech_frames := length (filter (fun o => o = Some true) verdicts) in
  let total_frames := length (filter (fun o => is_Some o) verdicts) in
  (bool_decide (0 < speech_frames)%nat
   || Num.gtb (if (0 <? total_frames)%nat
               then Num.of_nat speech_frames / Num.of_nat total_frames else 0) 0.3)
  = true
  <-> exists f, f ∈ fs /\ v f = Some true.
Proof.
  cbv zeta. rewrite <- some_verdict_counts.
  destruct (length (filter (fun o => o = Some true) (v <$> fs))) as [|k] eqn:Hk.
  - rewrite no_speech_frames_no_ratio. cbn. split; [discriminate | lia].
  - cbn. split; [lia | reflexivity].
Qed.

(** What the [try] of the gate answers on an initialised processor:
    a chunk that does not decode is not speech; without webrtcvad the
    decision is the energy test over the whole chunk; with it the
    chunk is speech exactly when one of the frames the loop hands to
    webrtcvad is. *)
Lemma gate_decision (audio_base64 : string) :
  exists r,
    detect audio_base64 = Returned r
    /\ (b64decode audio_base64 ≫= frombuffer = None ->
        is_speech r = false /\ features r = ∅)
    /\ (forall audio_array,
          b64decode audio_base64 ≫= frombuffer = Some audio_array ->
          vad = None \/ audio_array = [] ->
          is_speech r = rms_exceeds audio_array 0.01)
    /\ (forall audio_array v,
          b64decode audio_base64 ≫= frombuffer = Some audio_array ->
          vad = Some v -> audio_array <> [] ->
          let frame_size := (Config.audio_sample_rate settings * 30 ÷ 1000)%Z in
          let examined :=
            if (frame_size <=? 0)%Z then []
            else frames (length audio_array) (Z.to_nat frame_size) audio_array in
          Forall (fun f => length f = Z.to_nat frame_size) examined
          /\ (is_speech r = true <-> exists f, f ∈ examined /\ v f = Some true)).
Proof.
  unfold detect_voice_activity, detect_body.
  destruct (b64decode audio_base64) as [audio_bytes|]; cbn [mbind option_bind];
    [destruct (frombuffer audio_bytes) as [audio_array|] |].
  2,3: eexists; split; [reflexivity |];
       split_and!; [intros _; split; reflexivity | discriminate | discriminate].
  destruct vad as [v|].
  - destruct audio_array as [|x audio_array].
    + eexists; split; [reflexivity |]. split_and!; [discriminate | | ].
      * intros ? [= <-] _. rewrite no_speech_frames_no_ratio.
        apply orb_false_r.
      * intros ? ? [= <-] _ Hne. contradiction.
    + cbn [length Nat.ltb Nat.leb].
      set (frame_size := (Config.audio_sample_rate settings * 30 ÷ 1000)%Z).
      destruct (Z.eqb_spec frame_size 0) as [Hz | Hz].
      * eexists; split; [reflexivity |]. split_and!; [discriminate | | ].
        -- intros ? [= <-] [[=] | [=]].
        -- intros ? v' [= <-] [= <-] _. cbv zeta.
           fold frame_size. rewrite Hz. cbn. split; [constructor |].
           split; [discriminate | intros (f & Hin & _); inversion Hin].
      * eexists; split; [reflexivity |]. split_and!; [discriminate | | ].
        -- intros ? [= <-] [[=] | [=]].
        -- intros ? v' [= <-] [= <-] _. cbv zeta. fold frame_size.
           cbn [is_speech length].
           destruct (Z.ltb_spec frame_size 0) as [Hneg | Hpos].
           ++ replace (frame_size <=? 0)%Z with true by (symmetry; apply Z.leb_le; lia).
              split; [constructor |]. apply (vad_sweep_decides v []).
           ++ replace (frame_size <=? 0)%Z with false
                by (symmetry; apply Z.leb_gt; lia).
              split; [apply frames_whole |]. apply vad_sweep_decides.
  - eexists; split; [reflexivity |]. split_and!; [discriminate | | ].
    + intros ? [= <-] _. rewrite no_speech_frames_no_ratio. apply orb_false_r.
    + intros ? ? _ [=].
Qed.

Lemma frames_are_aligned (fuel n : nat) (xs f : list Z) :
  f ∈ frames fuel n xs ->
  exists i, f = take n (drop (i * n) xs) /\ length f = n.
Proof.
  revert xs. induction fuel as [|fuel IH]; intros xs; cbn [frames].
  - intros H. inversion H.
  - destruct (Nat.ltb_spec n (length xs)) as [Hlong | Hshort];
      [| intros H; inversion H].
    intros H. apply elem_of_cons in H as [-> | H].
    + exists 0%nat. split; [reflexivity |]. rewrite length_take. lia.
    + destruct (IH _ H) as (i & -> & Hlen). exists (S i).
      rewrite drop_drop in *. replace (S i * n)%nat with (n + i * n)%nat by lia.
      split; [reflexivity | exact Hlen].
Qed.

End GateDecision.

Section GateCall.

Import ThreatAnalyzer AudioProcessor.
Local Open Scope Q_scope.

Variable settings : Config.Settings.
Variable b64decode : string -> option (list Z).
Variable _extract_features : list Z -> AudioFeatures.
Variable webrtcvad_Vad : option (PyResult (list Z -> option bool)).
Variable whisper_load_model : option (PyResult (list Z -> option string)).

(** C7, amended: the gate has no check of the frame duration.  For a
    chunk of any length, the only exception that leaves the call is
    one of [initialize], which loads the models before the [try];
    when [initialize] returns, the gate returns a result.  A chunk
    that does not decode is then not speech and has no features;
    without webrtcvad the decision is the energy test over the whole
    chunk; with it the chunk is speech only if webrtcvad finds speech
    in a whole frame of 30 ms of it that starts at a frame boundary. *)
Theorem gate_returns_for_any_duration (self : AudioState.t)
    (audio_base64 : string) :
  let loaded := AudioState.initialize webrtcvad_Vad whisper_load_model self in
  let outcome :=
    (AudioState.detect_voice_activity settings b64decode _extract_features
       webrtcvad_Vad whisper_load_model self audio_base64).2 in
  let frame_size := Z.to_nat (Config.audio_sample_rate settings * 30 ÷ 1000) in
  (forall exc, outcome = Raised exc -> loaded.2 = Some exc)
  /\ (loaded.2 = None ->
      exists r,
        outcome = Returned r
        /\ (b64decode audio_base64 ≫= frombuffer = None ->
            is_speech r = false /\ features r = ∅)
        /\ (forall audio_array,
              b64decode audio_base64 ≫= frombuffer = Some audio_array ->
              AudioState.vad loaded.1 = None \/ audio_array = [] ->
              is_speech r = rms_exceeds audio_array 0.01)
        /\ (forall audio_array v,
              b64decode audio_base64 ≫= frombuffer = Some audio_array ->
              AudioState.vad loaded.1 = Some v ->
              is_speech r = true ->
              exists i,
                let frame :=
                  take frame_size (drop (i * frame_size) audio_array) in
                length frame = frame_size /\ v frame = Some true)).
Proof.
  cbv zeta. unfold AudioState.detect_voice_activity.
  destruct (AudioState.initialize webrtcvad_Vad whisper_load_model self)
    as [loaded [exc|]]; cbn [fst snd].
  - split; [intros ? [= <-]; reflexivity | discriminate].
  - destruct (gate_decision settings b64decode (AudioState.vad loaded)
                _extract_features audio_base64)
      as (r & Hr & Hbad & Henergy & Hsweep).
    rewrite Hr. split; [discriminate |]. intros _.
    exists r. split; [reflexivity |].
    split; [exact Hbad |]. split; [exact Henergy |].
    intros audio_array v Harr Hvad Hspeech.
    destruct audio_array as [|x audio_array].
    { rewrite (Henergy [] Harr) in Hspeech by (right; reflexivity).
      discriminate Hspeech. }
    destruct (Hsweep (x :: audio_array) v Harr Hvad) as (_ & Hiff);
      [discriminate |].
    apply Hiff in Hspeech as (f & Hin & Hv).
    destruct (_ <=? 0)%Z; [inversion Hin |].
    destruct (frames_are_aligned _ _ _ _ Hin) as (i & -> & Hlen).
    exists i. split; [exact Hlen | exact Hv].
Qed.

End GateCall.

Section GateExamples.

Import ThreatAnalyzer AudioProcessor Examples.
Local Open Scope Q_scope.

(** C7, as the specification words it, fails: a chunk of 100 samples
    (6.25 ms at 16 kHz, not a 10, 20 or 30 ms frame) is not rejected
    with an InvalidFrameDuration error; the gate returns a result for
    it, here that it is speech. *)
Lemma odd_duration_chunk_is_not_rejected :
  let gate := detect_voice_activity Config.defaults
                (fun _ => Some short_loud_chunk) None (fun _ => ∅) in
  (length <$> frombuffer short_loud_chunk) = Some 100%nat
  /\ gate "chunk" <> Raised "InvalidFrameDuration"
  /\ exists r, gate "chunk" = Returned r /\ is_speech r = true.
Proof.
  cbv zeta. split_and!.
  - vm_compute. reflexivity.
  - vm_compute. discriminate.
  - eexists. split; vm_compute; reflexivity.
Qed.

Lemma gate_returns_for_any_duration_witness :
  exists r,
    (AudioState.detect_voice_activity Config.defaults
       (fun _ => Some short_loud_chunk) (fun _ => ∅) None None
       AudioState.init "chunk").2 = Returned r
    /\ is_speech r = true.
Proof.
  destruct (gate_returns_for_any_duration Config.defaults
              (fun _ => Some short_loud_chunk) (fun _ => ∅) None None
              AudioState.init "chunk") as (_ & Hreturns).
  destruct (Hreturns eq_refl) as (r & Hr & _ & Henergy & _).
  exists r. split; [exact Hr |].
  rewrite (Henergy (replicate 100 16384%Z)).
  - vm_compute. reflexivity.
  - vm_compute. reflexivity.
  - left. reflexivity.
Defined.

End GateExamples.

(** ** The audio handler *)

Section HandlerProperties.

Import ThreatAnalyzer Main.
Local Open Scope Q_scope.

Variable settings : Config.Settings.
Variable ml_model : option MlModel.
Variable b64decode : string -> option (list Z).
Variable vad : option (list Z -> option bool).
Variable _extract_features : list Z -> AudioFeatures.
Variable whisper_model : option (list Z -> option string).
Variable fernet_encrypt : string -> list Z -> option (list Z).
Variable canned_reply : BaitAgent.Intent -> string -> string.
Variable send_json : WsMessage -> bool.

Abbreviation gate :=
  (AudioProcessor.detect_voice_activity settings b64decode vad _extract_features).
Abbreviation handle :=
  (handle_audio_chunk settings ml_model b64decode vad _extract_features
     whisper_model fernet_encrypt canned_reply send_json).
Abbreviation turn_result b cid audio feats :=
  ((analyze_realtime settings ml_model (call_contexts b) cid
      (AudioProcessor.transcribe b64decode whisper_model audio) (Some feats)).2).

(** A frame of silence, as long as the 30 ms frame of the configured
    sample rate, is never speech: its energy is zero, and with
    webrtcvad no frame of it is examined. *)
Lemma silent_frame_is_not_speech (audio : string) :
  b64decode audio
  = Some (repeat 0%Z
            (2 * Z.to_nat (Config.audio_sample_rate settings * 30 ÷ 1000))) ->
  exists r, gate audio = Returned r /\ AudioProcessor.is_speech r = false.
Proof.
  intros Hdecode.
  unfold AudioProcessor.detect_voice_activity, AudioProcessor.detect_body.
  rewrite Hdecode, frombuffer_zeros.
  set (frame_size := (Config.audio_sample_rate settings * 30 ÷ 1000)%Z).
  destruct vad as [v|].
  - rewrite repeat_length.
    destruct (Nat.ltb_spec 0 (Z.to_nat frame_size)) as [Hpos | Hzero].
    + destruct (Z.eqb_spec frame_size 0) as [Hz | Hz]; [lia |].
      destruct (Z.ltb_spec frame_size 0) as [Hneg | _]; [lia |].
      rewrite frames_of_one_frame by apply repeat_length.
      eexists. split; reflexivity.
    + replace (Z.to_nat frame_size) with 0%nat by lia.
      eexists. split; reflexivity.
  - eexists. split; [reflexivity |]. cbn [AudioProcessor.is_speech].
    rewrite silence_has_no_energy. reflexivity.
Qed.

(** C6: a chunk for which the gate answers not-speech is dropped
    where the handler stands: nothing is transcribed, scored, stored
    or sent, and the state of the process (the session, the score
    history, the engagements) is the one before; in particular so is
    a 30 ms frame of silence. *)
Theorem non_speech_chunk_is_dropped (b : Backend) (cid : string)
    (payload : Payload) :
  let audio := default "" (audio_data payload) in
  let dropped := {| backend := b; events := []; escaped := None |} in
  (forall r, gate audio = Returned r -> AudioProcessor.is_speech r = false ->
             handle b cid payload = dropped)
  /\ (b64decode audio
      = Some (repeat 0%Z
                (2 * Z.to_nat (Config.audio_sample_rate settings * 30 ÷ 1000))) ->
      handle b cid payload = dropped).
Proof.
  cbv zeta.
  assert (Hdrop : forall r, gate (default "" (audio_data payload)) = Returned r ->
            AudioProcessor.is_speech r = false ->
            handle b cid payload = {| backend := b; events := []; escaped := None |}).
  { intros r Hr Hquiet. unfold handle_audio_chunk, Main.detect_voice_activity.
    destruct (get_session b cid); [| reflexivity].
    rewrite Hr, Hquiet. reflexivity. }
  split; [exact Hdrop |].
  intros Hsilent.
  destruct (silent_frame_is_not_speech _ Hsilent) as (r & Hr & Hquiet).
  exact (Hdrop r Hr Hquiet).
Qed.




End HandlerProperties.

Section HandlerExamples.

Import ThreatAnalyzer Main Examples.
Local Open Scope Q_scope.


Lemma non_speech_chunk_is_dropped_witness :
  let b := connected "call-6" in
  handler silent_frame (Some alarm_turn) b "call-6"
    {| audio_data := Some "frame"; sequence_number := Some 1%Z |}
  = {| backend := b; events := []; escaped := None |}.
Proof.
  cbv zeta. unfold handler.
  apply (proj2 (non_speech_chunk_is_dropped Config.defaults None
                  (fun _ => Some silent_frame) None (fun _ => ∅)
                  (Some (fun _ => Some alarm_turn)) (fun _ _ => None)
                  (fun _ _ => "Ji?") (fun _ => true)
                  (connected "call-6") "call-6"
                  {| audio_data := Some "frame"; sequence_number := Some 1%Z |})).
  vm_compute. reflexivity.
Defined.



End HandlerExamples.

(** ** Masking of the extracted entities *)

Section Masking.

Import IntelligenceExtractor.
Local Open Scope Q_scope.

Lemma dedup_keeps_members seen entities e :
  e ∈ dedup seen entities -> e ∈ entities.
Proof.
  revert seen. induction entities as [|x entities IH]; intros seen; cbn [dedup].
  - intros H. exact H.
  - case_bool_decide as Hseen.
    + intros Hin. right. exact (IH _ Hin).
    + intros Hin. apply elem_of_cons in Hin as [-> | Hin];
        [left | right; exact (IH _ Hin)].
Qed.

(** What [extract] appends for a match that passes the floor. *)
Lemma candidate_is_masked transcript t pos raw e :
  candidate transcript t (pos, raw) = Some e ->
  entity_type e = t /\ value e = _mask_sensitive t raw
  /\ position e = pos /\ 0.3 <= confidence e.
Proof.
  unfold candidate.
  destruct (Num.ltb _ 0.3) eqn:Hfloor; [discriminate |].
  intros [= <-]. cbn. split_and!; try reflexivity.
  unfold Num.ltb in Hfloor. apply negb_false_iff, Qle_bool_iff in Hfloor.
  exact Hfloor.
Qed.

(** Every entity [extract] returns was built from a match of the
    pattern of its type, by masking the matched text. *)
Lemma extracted_from_a_match transcript e :
  e ∈ extract transcript ->
  exists s pos raw,
    ThreatAnalyzer.nonempty transcript = Some s
    /\ (pos, raw) ∈ Re.finditer (PATTERNS (entity_type e)) s
    /\ value e = _mask_sensitive (entity_type e) raw
    /\ 0.3 <= confidence e.
Proof.
  unfold extract. destruct (ThreatAnalyzer.nonempty transcript) as [s|];
    [| intros H; inversion H].
  intros H. apply dedup_keeps_members in H.
  apply list_elem_of_bind in H as (t & H & _).
  unfold candidates in H. apply list_elem_of_omap in H as ([pos raw] & Hm & Hc).
  apply candidate_is_masked in Hc as (<- & Hv & _ & Hconf).
  exists s, pos, raw. split_and!; [reflexivity | assumption..].
Qed.

(** C4, amended: the value stored for an accepted entity is the
    matched text masked by type: one-time codes and security codes
    are replaced whole; aadhaar and card numbers keep the last four
    of their digits and bank accounts the last four characters; a PAN
    keeps its first two and last two characters around a mask; UPI
    handles, phone numbers, e-mail addresses, IFSC codes and amounts
    are stored as matched. *)
Theorem stored_values_are_masked_by_type transcript e :
  e ∈ extract transcript ->
  exists s pos raw,
    ThreatAnalyzer.nonempty transcript = Some s
    /\ (pos, raw) ∈ Re.finditer (PATTERNS (entity_type e)) s
    /\ match entity_type e with
       | otp => value e = "XXXX"
       | cvv => value e = "XXX"
       | aadhaar =>
           value e = "XXXX-XXXX-" +:+ Text.last_n 4 (Text.digits_of raw)
           \/ value e = "XXXX-XXXX-XXXX"
       | credit_card =>
           value e = "XXXX-XXXX-XXXX-" +:+ Text.last_n 4 (Text.digits_of raw)
           \/ value e = "XXXX-XXXX-XXXX-XXXX"
       | bank_account =>
           value e = "XXXXXX" +:+ Text.last_n 4 raw \/ value e = "XXXXXXXX"
       | pan =>
           value e = Text.first_n 2 raw +:+ "XXXX" +:+ Text.last_n 2 raw
           \/ value e = "XXXXX0000X"
       | upi_id | phone_number | email | ifsc_code | amount => value e = raw
       end.
Proof.
  intros H.
  destruct (extracted_from_a_match transcript e H) as (s & pos & raw & Hs & Hm & Hv & _).
  exists s, pos, raw. split_and!; [assumption.. |].
  rewrite Hv. destruct (entity_type e); cbn [_mask_sensitive];
    try reflexivity;
    match goal with |- context [if ?c then _ else _] => destruct c end;
    auto.
Qed.

End Masking.

Section MaskingExamples.

Import IntelligenceExtractor Examples.

(** C4, as the specification words it, fails for the PAN: the PAN
    read out in the turn "My PAN is ABCDE1234F" is accepted and stored
    as "ABXXXX4F", not as matched. *)
Lemma pan_is_not_stored_unmasked :
  exists e,
    e ∈ extract (Some pan_turn)
    /\ entity_type e = pan
    /\ (position e, "ABCDE1234F") ∈ Re.finditer (PATTERNS pan) pan_turn
    /\ value e = "ABXXXX4F"
    /\ value e <> "ABCDE1234F".
Proof.
  eexists. split_and!.
  - vm_compute. apply list_elem_of_here.
  - reflexivity.
  - vm_compute. apply list_elem_of_here.
  - reflexivity.
  - discriminate.
Qed.

Lemma stored_values_are_masked_by_type_witness :
  exists e raw,
    e ∈ extract (Some pan_turn)
    /\ entity_type e = pan
    /\ (value e = Text.first_n 2 raw +:+ "XXXX" +:+ Text.last_n 2 raw
        \/ value e = "XXXXX0000X").
Proof.
  assert (Hone : exists e, extract (Some pan_turn) = [e] /\ entity_type e = pan).
  { eexists. split; [vm_compute; reflexivity | reflexivity]. }
  destruct Hone as (e & Hone & Htype).
  assert (Hin : e ∈ extract (Some pan_turn)) by (rewrite Hone; left).
  destruct (stored_values_are_masked_by_type (Some pan_turn) e Hin)
    as (s & pos & raw & _ & _ & Hmask).
  rewrite Htype in Hmask.
  exists e, raw. split_and!; assumption.
Defined.

End MaskingExamples.

(** * Further properties of the services *)

(** ** Arithmetic *)

Section Arithmetic.

Local Open Scope Q_scope.

Lemma min_spec (a b : Q) :
  (a <= b /\ Num.min a b = a) \/ (b < a /\ Num.min a b = b).
Proof.
  unfold Num.min. destruct (Qle_bool a b) eqn:H.
  - left. split; [apply Qle_bool_iff; exact H | reflexivity].
  - right. split; [| reflexivity].
    apply Qnot_le_lt. intros Hle. apply Qle_bool_iff in Hle. congruence.
Qed.

Lemma max_spec (a b : Q) :
  (b <= a /\ Num.max a b = a) \/ (a < b /\ Num.max a b = b).
Proof.
  unfold Num.max. destruct (Qle_bool b a) eqn:H.
  - left. split; [apply Qle_bool_iff; exact H | reflexivity].
  - right. split; [| reflexivity].
    apply Qnot_le_lt. intros Hle. apply Qle_bool_iff in Hle. congruence.
Qed.

Lemma min_one_unit (x : Q) : 0 <= x -> 0 <= Num.min 1 x /\ Num.min 1 x <= 1.
Proof. intros Hx. destruct (min_spec 1 x) as [[? ->] | [? ->]]; lra. Qed.

Lemma of_nat_nonneg (n : nat) : 0 <= Num.of_nat n.
Proof.
  unfold Num.of_nat. change 0 with (inject_Z 0). rewrite <- Zle_Qle. lia.
Qed.

Lemma of_nat_S (n : nat) : Num.of_nat (S n) == Num.of_nat n + 1.
Proof.
  unfold Num.of_nat. rewrite Nat2Z.inj_succ, <- Z.add_1_r, inject_Z_plus.
  reflexivity.
Qed.

(** [round] goes to the nearest integer. *)
Lemma round_half_even_near (x : Q) :
  x - (1 # 2) <= inject_Z (Num.round_half_even x)
  /\ inject_Z (Num.round_half_even x) <= x + (1 # 2).
Proof.
  unfold Num.round_half_even.
  pose proof (Qfloor_le x) as Hlo. pose proof (Qlt_floor x) as Hhi.
  rewrite inject_Z_plus in Hhi. change (inject_Z 1) with 1 in Hhi.
  destruct (Qcompare_spec (x - inject_Z (Qfloor x)) (1 # 2)) as [He | Hl | Hg].
  - destruct (Z.even (Qfloor x)); [| rewrite inject_Z_plus; change (inject_Z 1) with 1]; lra.
  - lra.
  - rewrite inject_Z_plus. change (inject_Z 1) with 1. lra.
Qed.

Lemma round_half_even_Z (z : Z) : Num.round_half_even (inject_Z z) = z.
Proof.
  unfold Num.round_half_even. rewrite Qfloor_Z.
  destruct (Qcompare_spec (inject_Z z - inject_Z z) (1 # 2)) as [He | Hl | Hg];
    [exfalso; lra | reflexivity | exfalso; lra].
Qed.

Lemma round_half_even_monotone (x y : Q) :
  x <= y -> (Num.round_half_even x <= Num.round_half_even y)%Z.
Proof.
  intros Hxy. unfold Num.round_half_even.
  pose proof (Qfloor_resp_le _ _ Hxy) as Hf.
  pose proof (Qfloor_le x) as Hxl. pose proof (Qlt_floor x) as Hxh.
  pose proof (Qfloor_le y) as Hyl. pose proof (Qlt_floor y) as Hyh.
  rewrite inject_Z_plus in Hxh, Hyh. change (inject_Z 1) with 1 in Hxh, Hyh.
  destruct (Z.eq_dec (Qfloor x) (Qfloor y)) as [Heq | Hne].
  - rewrite <- Heq in *.
    destruct (Qcompare_spec (x - inject_Z (Qfloor x)) (1 # 2)),
      (Qcompare_spec (y - inject_Z (Qfloor x)) (1 # 2));
      try destruct (Z.even (Qfloor x)); try lia; exfalso; lra.
  - assert (Qfloor x + 1 <= Qfloor y)%Z by lia.
    destruct (Qcompare_spec (x - inject_Z (Qfloor x)) (1 # 2)),
      (Qcompare_spec (y - inject_Z (Qfloor y)) (1 # 2));
      try destruct (Z.even (Qfloor x)); try destruct (Z.even (Qfloor y)); lia.
Qed.

Lemma round3_value (x : Q) :
  Num.round3 x == inject_Z (Num.round_half_even (x * 1000)) / 1000.
Proof.
  unfold Num.round3. rewrite Qred_correct. rewrite (Qmake_Qdiv _ 1000). reflexivity.
Qed.

(** [round(x, 3)] is within half a thousandth of [x]. *)
Lemma round3_near (x : Q) :
  x - (1 # 2000) <= Num.round3 x /\ Num.round3 x <= x + (1 # 2000).
Proof.
  rewrite round3_value.
  destruct (round_half_even_near (x * 1000)) as [Hlo Hhi].
  split.
  - apply Qle_shift_div_l; [reflexivity | lra].
  - apply Qle_shift_div_r; [reflexivity | lra].
Qed.

Lemma round3_monotone (x y : Q) : x <= y -> Num.round3 x <= Num.round3 y.
Proof.
  intros Hxy. rewrite !round3_value.
  assert (Hm : x * 1000 <= y * 1000) by lra.
  apply round_half_even_monotone in Hm. rewrite Zle_Qle in Hm.
  apply Qle_shift_div_l; [reflexivity |].
  assert (E : inject_Z (Num.round_half_even (x * 1000)) / 1000 * 1000
              == inject_Z (Num.round_half_even (x * 1000))) by field.
  rewrite E. exact Hm.
Qed.

Lemma round_half_even_comp (x y : Q) :
  x == y -> Num.round_half_even x = Num.round_half_even y.
Proof.
  intros Hxy. unfold Num.round_half_even.
  rewrite (Qfloor_comp _ _ Hxy).
  assert (Hc : Qcompare (x - inject_Z (Qfloor y)) (1 # 2)
               = Qcompare (y - inject_Z (Qfloor y)) (1 # 2)).
  { apply Qcompare_comp; [rewrite Hxy; reflexivity | reflexivity]. }
  rewrite Hc. reflexivity.
Qed.

Lemma round3_idempotent (x : Q) : Num.round3 (Num.round3 x) == Num.round3 x.
Proof.
  rewrite (round3_value (Num.round3 x)).
  assert (H : Num.round3 x * 1000 == inject_Z (Num.round_half_even (x * 1000))).
  { rewrite round3_value. field. }
  rewrite (round_half_even_comp _ _ H), round_half_even_Z, round3_value.
  reflexivity.
Qed.

Lemma round3_unit (x : Q) : 0 <= x -> x <= 1 -> 0 <= Num.round3 x /\ Num.round3 x <= 1.
Proof.
  intros H0 H1.
  assert (Hz : Num.round3 0 == 0) by reflexivity.
  assert (Ho : Num.round3 1 == 1) by reflexivity.
  split.
  - rewrite <- Hz. apply round3_monotone. exact H0.
  - rewrite <- Ho. apply round3_monotone. exact H1.
Qed.

End Arithmetic.

(** ** The scores of the layers and the fused score *)

Section ScoreBounds.

Import ThreatAnalyzer.
Local Open Scope Q_scope.

Lemma category_score_nonneg (category : string) :
  0 <= KeywordSpotter.get KeywordSpotter.category_scores category 0.1.
Proof.
  unfold KeywordSpotter.category_scores. cbn [KeywordSpotter.get].
  repeat match goal with
  | |- context [String.eqb ?a ?b] => destruct (String.eqb a b)
  end; discriminate.
Qed.

Lemma visit_keeps_nonneg transcript acc cp :
  0 <= acc.2 -> 0 <= (KeywordSpotter.visit transcript acc cp).2.
Proof.
  destruct acc as [[matched inds] sc]. cbn [snd]. intros Hsc.
  unfold KeywordSpotter.visit.
  destruct (Re.findall cp.2 transcript) as [|m ms]; cbn [snd]; [exact Hsc |].
  pose proof (category_score_nonneg cp.1) as Hc.
  pose proof (of_nat_nonneg (length (m :: ms))) as Hn.
  nra.
Qed.

Lemma visits_keep_nonneg transcript patterns acc :
  0 <= acc.2 -> 0 <= (foldl (KeywordSpotter.visit transcript) acc patterns).2.
Proof.
  revert acc. induction patterns as [|cp patterns IH]; intros acc Hacc; cbn [foldl].
  - exact Hacc.
  - apply IH, visit_keeps_nonneg, Hacc.
Qed.

(** The keyword score of any spotter on any transcript is in [0, 1]. *)
Lemma keyword_score_unit (self : KeywordSpotter.t) (transcript : string) :
  0 <= KeywordSpotter.score (KeywordSpotter.analyze self transcript) <= 1.
Proof.
  unfold KeywordSpotter.analyze.
  pose proof (visits_keep_nonneg transcript (KeywordSpotter.compiled_patterns self)
                ([], [], 0) (Qle_refl 0)) as Hsc.
  destruct (foldl _ _ _) as [[matched inds] sc]. cbn [snd] in Hsc.
  match goal with
  | |- context [if ?c then _ else _] => destruct c
  end; cbn [KeywordSpotter.score]; apply min_one_unit.
  - match goal with |- context [Num.of_nat ?n] => pose proof (of_nat_nonneg n) end.
    nra.
  - exact Hsc.
Qed.

Lemma behavior_score_unit (transcript : string) :
  0 <= score (_analyze_behavior transcript) <= 1.
Proof.
  unfold _analyze_behavior.
  assert (Hfold : forall flags (acc : list string * Q),
            0 <= acc.2 ->
            0 <= (foldl (fun acc fp =>
                     foldl (fun acc' pattern =>
                       if Text.contains pattern (Text.lower transcript)
                       then (acc'.1 ++ [fp.1], acc'.2 + 0.15) else acc')
                       acc fp.2) acc flags).2).
  { induction flags as [|fp flags IH]; intros acc Hacc; cbn [foldl]; [exact Hacc |].
    apply IH. generalize dependent acc. generalize (fp.2).
    induction l as [|p l IHl]; intros acc Hacc; cbn [foldl]; [exact Hacc |].
    apply IHl. destruct (Text.contains _ _); cbn [snd]; lra. }
  specialize (Hfold BEHAVIORAL_FLAGS ([], 0) (Qle_refl 0)).
  destruct (foldl _ _ BEHAVIORAL_FLAGS) as [flags sc]. cbn [snd] in Hfold.
  destruct (10 <? _)%nat; [destruct (Num.ltb _ _) |];
    cbn [score]; apply min_one_unit; lra.
Qed.

Lemma audio_score_small (features : AudioFeatures) :
  0 <= _analyze_audio_features features <= 0.15.
Proof.
  unfold _analyze_audio_features.
  destruct (features !! "rms_energy") as [e|];
    destruct (features !! "zero_crossing_rate") as [z|];
    repeat match goal with
    | |- context [Num.gtb ?a ?b] => destruct (Num.gtb a b)
    end;
    match goal with
    | |- context [Num.min 1 ?x] => destruct (min_spec 1 x) as [[? ->] | [? ->]]
    end; lra.
Qed.

(** A classifier whose probabilities are probabilities. *)
Lemma ml_score_unit (ml_model : MlModel) (transcript : string) :
  (forall out, ml_model transcript = Some out ->
               Forall (fun p => 0 <= p <= 1) (proba out)) ->
  0 <= score (_ml_classify ml_model transcript) <= 1.
Proof.
  intros Hcal. unfold _ml_classify.
  destruct (ml_model transcript) as [out|]; [| cbn; lra].
  specialize (Hcal out eq_refl). rewrite Forall_lookup in Hcal.
  destruct (1 <? length (proba out))%nat.
  - destruct (proba out !! 1%nat) as [p|] eqn:Hp; [| cbn; lra].
    apply (Hcal _ _ Hp).
  - destruct (proba out !! 0%nat) as [p|] eqn:Hp; [| cbn; lra].
    apply (Hcal _ _ Hp).
Qed.

Lemma layer_scores_unit (ml_model : option MlModel) transcript audio_features :
  (forall m s out, ml_model = Some m -> m s = Some out ->
                   Forall (fun p => 0 <= p <= 1) (proba out)) ->
  Forall (fun s => 0 <= s <= 1)
    (layer_scores ml_model transcript audio_features)
  /\ (length (layer_scores ml_model transcript audio_features) <= 4)%nat.
Proof.
  intros Hcal. unfold layer_scores.
  assert (Haudio : forall f : AudioFeatures, 0 <= _analyze_audio_features f <= 1).
  { intros f. pose proof (audio_score_small f). lra. }
  destruct (nonempty transcript) as [s|], ml_model as [m|], audio_features as [f|];
    try destruct (decide (f = ∅)); cbn [app length]; split; try lia;
    repeat apply Forall_cons_2; try apply Forall_nil_2;
    first [ apply keyword_score_unit | apply behavior_score_unit
          | apply Haudio | apply ml_score_unit; intros out; apply (Hcal m s out eq_refl) ].
Qed.

(** The combination of scores in [0, 1] is in [0, 1]. *)
Lemma combine_unit (scores : list Q) :
  Forall (fun s => 0 <= s <= 1) scores -> 0 <= combine scores <= 1.
Proof.
  intros Hall. unfold combine.
  destruct scores as [|s1 [|s2 [|s3 [|s4 more]]]].
  1: lra.
  4: destruct more.
  all: repeat match goal with
       | H : Forall _ (_ :: _) |- _ => apply Forall_cons in H as [? H]
       end.
  all: unfold Num.sum, layer_weights; cbn [length take fmap list_fmap zip_with foldl].
  - assert (E : 0 + s1 * (0.4 / (0 + 0.4)) == s1) by field. rewrite E. lra.
  - assert (E : 0 + s1 * (0.4 / (0 + 0.4 + 0.2)) + s2 * (0.2 / (0 + 0.4 + 0.2))
                == (2 # 3) * s1 + (1 # 3) * s2) by field.
    rewrite E. lra.
  - assert (E : 0 + s1 * (0.4 / (0 + 0.4 + 0.2 + 0.3))
                + s2 * (0.2 / (0 + 0.4 + 0.2 + 0.3))
                + s3 * (0.3 / (0 + 0.4 + 0.2 + 0.3))
                == (4 # 9) * s1 + (2 # 9) * s2 + (3 # 9) * s3) by field.
    rewrite E. lra.
  - assert (E : 0 + s1 * (0.4 / (0 + 0.4 + 0.2 + 0.3 + 0.1))
                + s2 * (0.2 / (0 + 0.4 + 0.2 + 0.3 + 0.1))
                + s3 * (0.3 / (0 + 0.4 + 0.2 + 0.3 + 0.1))
                + s4 * (0.1 / (0 + 0.4 + 0.2 + 0.3 + 0.1))
                == 0.4 * s1 + 0.2 * s2 + 0.3 * s3 + 0.1 * s4) by field.
    rewrite E. lra.
  - assert (E : 0 + s1 * (0.4 / (0 + 0.4 + 0.2 + 0.3 + 0.1))
                + s2 * (0.2 / (0 + 0.4 + 0.2 + 0.3 + 0.1))
                + s3 * (0.3 / (0 + 0.4 + 0.2 + 0.3 + 0.1))
                + s4 * (0.1 / (0 + 0.4 + 0.2 + 0.3 + 0.1))
                == 0.4 * s1 + 0.2 * s2 + 0.3 * s3 + 0.1 * s4) by field.
    rewrite E. lra.
Qed.

(** X1: with no classifier, or one whose probabilities lie in [0, 1],
    the fused score [analyze] reports lies in [0, 1] and its confidence
    in [0.5, 1], for every transcript, every feature dictionary and
    every setting of the thresholds. *)
Theorem analyze_score_in_unit_interval (settings : Config.Settings)
    (ml_model : option MlModel) (transcript : option string)
    (audio_features : option AudioFeatures) :
  (forall m s out, ml_model = Some m -> m s = Some out ->
                   Forall (fun p => 0 <= p <= 1) (proba out)) ->
  let r := analyze settings ml_model transcript audio_features in
  0 <= threat_score r <= 1 /\ 0.5 <= confidence r <= 1.
Proof.
  intros Hcal r. subst r. unfold analyze. cbn [threat_score confidence].
  destruct (layer_scores_unit ml_model transcript audio_features Hcal) as [Hall Hlen].
  split.
  - apply round3_unit; apply (combine_unit _ Hall).
  - set (n := length (layer_scores ml_model transcript audio_features)) in *.
    pose proof (of_nat_nonneg n) as Hn.
    assert (Hmin : 0.5 <= Num.min 1 (Num.of_nat n * 0.25 + 0.5)
                   /\ Num.min 1 (Num.of_nat n * 0.25 + 0.5) <= 1).
    { destruct (min_spec 1 (Num.of_nat n * 0.25 + 0.5)) as [[? ->] | [? ->]]; lra. }
    assert (Hh : 0.5 <= Num.round3 0.5) by discriminate.
    assert (Ho : Num.round3 1 <= 1) by discriminate.
    split.
    + apply Qle_trans with (Num.round3 0.5); [exact Hh |].
      apply round3_monotone, Hmin.
    + apply Qle_trans with (Num.round3 1); [| exact Ho].
      apply round3_monotone, Hmin.
Qed.

End ScoreBounds.

(** ** The action, the level and the clean turn *)

Section Verdicts.

Import ThreatAnalyzer.
Local Open Scope Q_scope.

Variable settings : Config.Settings.

(** X2: in the result of [analyze] the recommended action is a
    function of the level, whatever the thresholds: handoff_to_ai for
    critical, alert_user for high, increase_monitoring for medium and
    continue_monitoring for low and safe. *)
Theorem action_follows_level (ml_model : option MlModel)
    (transcript : option string) (audio_features : option AudioFeatures) :
  let r := analyze settings ml_model transcript audio_features in
  recommended_action r
  = match threat_level r with
    | CRITICAL => "handoff_to_ai"
    | HIGH => "alert_user"
    | MEDIUM => "increase_monitoring"
    | LOW | SAFE => "continue_monitoring"
    end.
Proof.
  cbv zeta. unfold analyze. cbn [recommended_action threat_level].
  generalize (combine (layer_scores ml_model transcript audio_features)).
  intros sc. unfold _get_recommended_action, _get_threat_level.
  thresholds; reflexivity.
Qed.

Lemma no_match_no_keywords (transcript : string)
    (patterns : list (string * Re.pattern)) acc :
  Forall (fun cp => Re.findall cp.2 transcript = []) patterns ->
  foldl (KeywordSpotter.visit transcript) acc patterns = acc.
Proof.
  intros Hnone. revert acc.
  induction Hnone as [|cp patterns Hcp _ IH]; intros acc; cbn [foldl]; [reflexivity |].
  rewrite IH. destruct acc as [[matched inds] sc].
  unfold KeywordSpotter.visit. rewrite Hcp. reflexivity.
Qed.

Lemma no_pattern_no_flags (lowered : string)
    (flags : list (string * list string)) (acc : list string * Q) :
  Forall (fun fp => Forall (fun p => Text.contains p lowered = false) fp.2) flags ->
  foldl (fun acc fp =>
           foldl (fun acc' pattern =>
                    if Text.contains pattern lowered
                    then (acc'.1 ++ [fp.1], (acc'.2 + 0.15)%Q) else acc')
                 acc fp.2) acc flags = acc.
Proof.
  intros Hnone. revert acc.
  induction Hnone as [|fp flags Hfp _ IH]; intros acc; cbn [foldl]; [reflexivity |].
  rewrite IH. clear IH. revert acc.
  induction Hfp as [|p ps Hp _ IHp]; intros acc; cbn [foldl]; [reflexivity |].
  rewrite IHp, Hp. reflexivity.
Qed.

(** X3: a turn in which no scam keyword matches, no behavioural
    pattern occurs and the speech is not repetitive, scored without
    classifier and without audio features, has score 0, level safe,
    the action continue_monitoring and no indicator, keyword or flag,
    for any positive thresholds. *)
Theorem clean_turn_is_safe (transcript : string) :
  transcript <> "" ->
  Forall (fun cp => Re.findall cp.2 transcript = [])
    (KeywordSpotter.compiled_patterns keyword_model) ->
  Forall (fun fp => Forall (fun p => Text.contains p (Text.lower transcript) = false)
                      fp.2) BEHAVIORAL_FLAGS ->
  (length (Text.split (Text.lower transcript)) <= 10)%nat
  \/ 0.4 <= Num.of_nat (length (remove_dups (Text.split (Text.lower transcript))))
            / Num.of_nat (length (Text.split (Text.lower transcript))) ->
  0 < Config.threat_threshold_low settings ->
  0 < Config.threat_threshold_medium settings ->
  0 < Config.threat_threshold_high settings ->
  let r := analyze settings None (Some transcript) None in
  threat_score r == 0 /\ threat_level r = SAFE
  /\ recommended_action r = "continue_monitoring"
  /\ indicators r = [] /\ keywords r = [] /\ behavioral_flags r = [].
Proof.
  intros Hne Hkw Hbh Hrep Hlow Hmed Hhigh r.
  assert (Hk : KeywordSpotter.analyze keyword_model transcript
               = {| KeywordSpotter.score := Num.min 1 0;
                    KeywordSpotter.matched_keywords := [];
                    KeywordSpotter.indicators := [] |}).
  { unfold KeywordSpotter.analyze. rewrite (no_match_no_keywords _ _ _ Hkw).
    reflexivity. }
  assert (Hb : _analyze_behavior transcript = {| score := Num.min 1 0; labels := [] |}).
  { unfold _analyze_behavior.
    rewrite (no_pattern_no_flags _ _ _ Hbh).
    destruct (10 <? _)%nat eqn:Hlong; [| reflexivity].
    destruct Hrep as [Hshort | Hratio].
    - apply Nat.ltb_lt in Hlong. lia.
    - unfold Num.ltb. apply Qle_bool_iff in Hratio. rewrite Hratio. reflexivity. }
  assert (Htext : nonempty (Some transcript) = Some transcript).
  { destruct transcript; [contradiction | reflexivity]. }
  subst r. unfold analyze, layer_scores. rewrite Htext.
  cbn [fmap option_fmap option_map from_option]. rewrite Hk, Hb.
  cbn [KeywordSpotter.score KeywordSpotter.indicators
       KeywordSpotter.matched_keywords score labels app
       threat_score threat_level recommended_action indicators keywords
       behavioral_flags].
  assert (Hc : combine [Num.min 1 0; Num.min 1 0] = combine [0; 0]) by reflexivity.
  rewrite Hc.
  assert (Hz : combine [0; 0] == 0) by reflexivity.
  split_and!; try reflexivity.
  - unfold _get_threat_level. thresholds; try reflexivity; exfalso; lra.
  - unfold _get_recommended_action. thresholds; try reflexivity; exfalso; lra.
Qed.

End Verdicts.

(** ** The context of a call across turns *)

Section Contexts.

Import ThreatAnalyzer.
Local Open Scope Q_scope.

Variable settings : Config.Settings.
Variable ml_model : option MlModel.

(** A bounded queue: appending keeps at most [maxlen] entries, the
    newest last; below the bound nothing is lost, at the bound exactly
    the oldest entry is. *)
Lemma deque_append_spec {A} (maxlen : nat) (d : list A) (x : A) :
  (0 < maxlen)%nat ->
  (length (deque_append maxlen d x) <= maxlen)%nat
  /\ last (deque_append maxlen d x) = Some x
  /\ ((length d < maxlen)%nat -> deque_append maxlen d x = d ++ [x])
  /\ (length d = maxlen -> deque_append maxlen d x = drop 1 d ++ [x]).
Proof.
  intros Hpos. unfold deque_append. rewrite length_app. cbn [length].
  split_and!.
  - rewrite length_drop, length_app. cbn [length]. lia.
  - destruct (decide (length d + 1 - maxlen <= length d)%nat) as [Hle | Hgt]; [| lia].
    rewrite drop_app_le by exact Hle. apply last_snoc.
  - intros Hlt. replace (length d + 1 - maxlen)%nat with 0%nat by lia. reflexivity.
  - intros Heq. replace (length d + 1 - maxlen)%nat with 1%nat by lia.
    destruct d as [|y d]; [cbn in Heq; lia |]. reflexivity.
Qed.

(** X4: a turn of [analyze_realtime] leaves the context of its call
    with at most 10 scores and 20 transcripts, the newest being those
    of the turn; every keyword seen before is still seen; and the
    context of every other call is the one it was. *)
Theorem turn_keeps_histories_bounded (call_contexts : gmap string CallContext)
    (cid : string) (transcript : option string)
    (audio_features : option AudioFeatures) :
  let after := (analyze_realtime settings ml_model call_contexts cid transcript
                  audio_features).1 in
  let before := default new_context (call_contexts !! cid) in
  (exists context,
      after !! cid = Some context
      /\ (length (threat_scores context) <= 10)%nat
      /\ (length (transcripts context) <= 20)%nat
      /\ last (threat_scores context)
         = Some (threat_score (analyze settings ml_model transcript audio_features))
      /\ last (transcripts context) = Some transcript
      /\ keywords_seen before ⊆ keywords_seen context
      /\ (forall k, k ∈ keywords (analyze settings ml_model transcript audio_features) ->
                    k ∈ keywords_seen context))
  /\ forall other, other <> cid -> after !! other = call_contexts !! other.
Proof.
  cbv zeta. unfold analyze_realtime. cbn [fst]. split.
  - eexists. rewrite lookup_insert_eq. split; [reflexivity |].
    cbn [threat_scores transcripts keywords_seen].
    destruct (deque_append_spec 10 (threat_scores (default new_context (call_contexts !! cid)))
                (threat_score (analyze settings ml_model transcript audio_features)))
      as (Hlen & Hlast & _); [lia |].
    destruct (deque_append_spec 20 (transcripts (default new_context (call_contexts !! cid)))
                transcript) as (Hlen' & Hlast' & _); [lia |].
    split_and!; try assumption.
    + set_solver.
    + intros k Hk. apply elem_of_union. right. apply elem_of_list_to_set. exact Hk.
  - intros other Hne. apply lookup_insert_ne. congruence.
Qed.

(** X5: a call cannot escalate before its third recorded score: with
    no context yet, or at most one score in it, the turn's result has
    escalation_detected unset and keeps the action [analyze] gave. *)
Theorem no_escalation_before_third_score (call_contexts : gmap string CallContext)
    (cid : string) (transcript : option string)
    (audio_features : option AudioFeatures) :
  (length (threat_scores (default new_context (call_contexts !! cid))) <= 1)%nat ->
  let r := (analyze_realtime settings ml_model call_contexts cid transcript
              audio_features).2 in
  escalation_detected r = false
  /\ recommended_action r
     = recommended_action (analyze settings ml_model transcript audio_features).
Proof.
  intros Hshort r.
  destruct (analyze_realtime_context settings ml_model call_contexts cid transcript
              audio_features) as (context & _ & Hscores & Hesc & Hact).
  assert (Hno : escalating settings context = false).
  { unfold escalating. rewrite Hscores.
    destruct (deque_append_spec 10
                (threat_scores (default new_context (call_contexts !! cid)))
                (threat_score (analyze settings ml_model transcript audio_features)))
      as (_ & _ & Hbelow & _); [lia |].
    rewrite Hbelow by lia. rewrite length_app. cbn [length].
    replace (3 <=? _)%nat with false; [reflexivity |].
    symmetry. apply Nat.leb_gt. lia. }
  subst r. rewrite Hesc, Hact, Hno. split; reflexivity.
Qed.

(** The adjustment for the context adds at most 0.2 and caps at 1. *)
Lemma adjust_for_context_bounds (sc : Q) (context : CallContext) :
  _adjust_for_context settings sc context <= 1
  /\ _adjust_for_context settings sc context <= sc + 0.2
  /\ (sc <= 1 -> sc <= _adjust_for_context settings sc context).
Proof.
  unfold _adjust_for_context.
  destruct (3 <? _)%nat; destruct (5 <=? _)%nat;
    try destruct (Num.gtb _ _);
    match goal with
    | |- context [Num.min 1 ?x] => destruct (min_spec 1 x) as [[? ->] | [? ->]]
    end; split_and!; intros; lra.
Qed.

(** X6: the score [analyze_realtime] reports is never below the score
    [analyze] reports for the same turn, never more than 0.2 above it,
    and never above 1 (for a classifier, if any, whose probabilities
    lie in [0, 1]). *)
Theorem context_never_lowers_the_score (call_contexts : gmap string CallContext)
    (cid : string) (transcript : option string)
    (audio_features : option AudioFeatures) :
  (forall m s out, ml_model = Some m -> m s = Some out ->
                   Forall (fun p => 0 <= p <= 1) (proba out)) ->
  let plain := threat_score (analyze settings ml_model transcript audio_features) in
  let adjusted := threat_score (analyze_realtime settings ml_model call_contexts
                                  cid transcript audio_features).2 in
  plain <= adjusted /\ adjusted <= plain + 0.2 /\ adjusted <= 1.
Proof.
  intros Hcal plain adjusted.
  assert (Hunit : 0 <= plain /\ plain <= 1).
  { subst plain. unfold analyze. cbn [threat_score].
    destruct (layer_scores_unit ml_model transcript audio_features Hcal)
      as [Hall _].
    apply round3_unit; apply (combine_unit _ Hall). }
  destruct Hunit as [Hlo Hhi].
  assert (Hfix : Num.round3 plain == plain).
  { subst plain. unfold analyze. cbn [threat_score]. apply round3_idempotent. }
  subst adjusted. unfold analyze_realtime. cbn [snd threat_score]. fold plain.
  match goal with
  | |- context [_adjust_for_context settings plain ?c] =>
      destruct (adjust_for_context_bounds plain c) as (Hone & Hup & Hdown);
      set (a := _adjust_for_context settings plain c) in *
  end.
  specialize (Hdown Hhi).
  assert (Hr1 : Num.round3 1 == 1) by reflexivity.
  assert (Hfix2 : Num.round3 (plain + 0.2) == plain + 0.2).
  { rewrite round3_value.
    assert (E : (plain + 0.2) * 1000 == inject_Z (Num.round_half_even (plain * 1000) + 200)).
    { rewrite inject_Z_plus. rewrite <- Hfix at 1. rewrite round3_value. field. }
    rewrite (round_half_even_comp _ _ E), round_half_even_Z.
    rewrite inject_Z_plus. rewrite <- Hfix at 2. rewrite round3_value. field. }
  split_and!.
  - rewrite <- Hfix. apply round3_monotone, Hdown.
  - rewrite <- Hfix2. apply round3_monotone, Hup.
  - rewrite <- Hr1. apply round3_monotone, Hone.
Qed.

End Contexts.

(** ** Extraction: duplicates, confidence, selection *)

Section Extraction.

Import IntelligenceExtractor.
Local Open Scope Q_scope.

(** The key [_deduplicate] compares. *)
Abbreviation key e := (entity_type e, Text.lower (value e)).

Lemma dedup_spec (seen : list (EntityType * string)) (entities : list ExtractedEntity) :
  NoDup ((fun e => key e) <$> dedup seen entities)
  /\ (forall e, e ∈ dedup seen entities -> key e ∉ seen)
  /\ dedup seen entities `sublist_of` entities
  /\ (forall e, e ∈ entities -> key e ∉ seen ->
                exists e', e' ∈ dedup seen entities /\ key e' = key e).
Proof.
  revert seen. induction entities as [|x entities IH]; intros seen; cbn [dedup].
  - split_and!; [constructor | intros e H; inversion H | constructor
                 | intros e H; inversion H].
  - case_bool_decide as Hseen.
    + destruct (IH seen) as (Hnd & Hfresh & Hsub & Hcover).
      split_and!; [exact Hnd | exact Hfresh | apply sublist_cons, Hsub |].
      intros e Hin Hnot. apply elem_of_cons in Hin as [-> | Hin];
        [contradiction | exact (Hcover e Hin Hnot)].
    + destruct (IH (key x :: seen)) as (Hnd & Hfresh & Hsub & Hcover).
      split_and!.
      * rewrite fmap_cons. constructor; [| exact Hnd].
        intros Hdup. apply list_elem_of_fmap in Hdup as (e & Hk & He).
        apply (Hfresh e He). rewrite <- Hk. left.
      * intros e He. apply elem_of_cons in He as [-> | He]; [exact Hseen |].
        intros Hin. apply (Hfresh e He). right. exact Hin.
      * apply sublist_skip, Hsub.
      * intros e Hin Hnot.
        destruct (decide (key e = key x)) as [Heq | Hne].
        -- exists x. split; [left | symmetry; exact Heq].
        -- apply elem_of_cons in Hin as [-> | Hin]; [contradiction |].
           destruct (Hcover e Hin) as (e' & He' & Hk).
           ++ intros Hbad. apply elem_of_cons in Hbad as [Hbad | Hbad];
                [contradiction | contradiction].
           ++ exists e'. split; [right; exact He' | exact Hk].
Qed.

(** X7: [_deduplicate] keeps a subsequence of its input in which no
    two entities have the same type and the same value up to case, and
    every entity of the input is still represented by one of its type
    and value; a second pass changes nothing. *)
Theorem deduplicate_keeps_one_per_key (entities : list ExtractedEntity) :
  NoDup ((fun e => key e) <$> _deduplicate entities)
  /\ _deduplicate entities `sublist_of` entities
  /\ (forall e, e ∈ entities ->
                exists e', e' ∈ _deduplicate entities /\ key e' = key e)
  /\ _deduplicate (_deduplicate entities) = _deduplicate entities.
Proof.
  unfold _deduplicate.
  destruct (dedup_spec [] entities) as (Hnd & _ & Hsub & Hcover).
  split_and!; [exact Hnd | exact Hsub | |].
  - intros e He. apply (Hcover e He). intros H. inversion H.
  - clear Hsub Hcover. revert Hnd. generalize (dedup [] entities). intros l.
    assert (Hgen : forall seen,
              NoDup ((fun e => key e) <$> l) ->
              (forall e, e ∈ l -> key e ∉ seen) -> dedup seen l = l).
    { induction l as [|x l IH]; intros seen Hnd Hfresh; cbn [dedup]; [reflexivity |].
      rewrite fmap_cons in Hnd. apply NoDup_cons in Hnd as [Hx Hnd].
      case_bool_decide as Hseen.
      - exfalso. apply (Hfresh x); [left | exact Hseen].
      - f_equal. apply IH; [exact Hnd |].
        intros e He Hin. apply elem_of_cons in Hin as [Hin | Hin].
        + apply Hx. rewrite <- Hin. apply list_elem_of_fmap. exists e. split; [reflexivity | exact He].
        + apply (Hfresh e); [right; exact He | exact Hin]. }
    intros Hnd. apply Hgen; [exact Hnd |]. intros e _ H. inversion H.
Qed.

Lemma confidence_unit (t : EntityType) (v ctx full : string) :
  0 <= _calculate_confidence t v ctx full <= 1.
Proof.
  unfold _calculate_confidence.
  match goal with
  | |- context [Num.min 1 (Num.max 0 ?x)] =>
      destruct (max_spec 0 x) as [[? ->] | [? ->]]
  end;
  match goal with
  | |- context [Num.min 1 ?x] => destruct (min_spec 1 x) as [[? ->] | [? ->]]
  end; lra.
Qed.

(** X8: every entity [extract] returns has a confidence in [0.3, 1],
    is not marked verified, and no two of them share type and value up
    to case; without a transcript nothing is returned. *)
Theorem extracted_entities_are_confident (transcript : option string) :
  (forall e, e ∈ extract transcript ->
             0.3 <= confidence e <= 1 /\ verified e = false)
  /\ NoDup ((fun e => key e) <$> extract transcript)
  /\ (ThreatAnalyzer.nonempty transcript = None -> extract transcript = []).
Proof.
  split_and!.
  - intros e He. unfold extract in He.
    destruct (ThreatAnalyzer.nonempty transcript) as [s|]; [| inversion He].
    apply dedup_keeps_members in He.
    apply list_elem_of_bind in He as (t & He & _).
    unfold candidates in He. apply list_elem_of_omap in He as ([pos raw] & _ & Hc).
    unfold candidate in Hc.
    destruct (Num.ltb _ 0.3) eqn:Hfloor; [discriminate |].
    injection Hc as <-. cbn [confidence verified].
    unfold Num.ltb in Hfloor. apply negb_false_iff, Qle_bool_iff in Hfloor.
    pose proof (confidence_unit t raw
                  (slice (pos - 50) (Nat.min (Text.len s) (pos + Text.len raw + 50)) s) s).
    split; [split; [exact Hfloor | lra] | reflexivity].
  - unfold extract. destruct (ThreatAnalyzer.nonempty transcript) as [s|];
      [exact (proj1 (dedup_spec [] _)) | constructor].
  - intros Hnone. unfold extract. rewrite Hnone. reflexivity.
Qed.

End Extraction.

(** ** The intelligence report *)

Section Reports.

Import IntelligenceExtractor Report.
Local Open Scope Q_scope.

Lemma chars_of_str (l : list ascii) : Text.chars (Text.str l) = l.
Proof. apply list_ascii_of_string_of_list_ascii. Qed.

Lemma add_item_keys (t : EntityType) (it : Item) by_type :
  (add_item t it by_type).*1
  = if bool_decide (t ∈ by_type.*1) then by_type.*1 else by_type.*1 ++ [t].
Proof.
  induction by_type as [|[k items] more IH]; cbn [add_item].
  - reflexivity.
  - destruct (decide (k = t)) as [-> | Hne]; cbn [fmap list_fmap fst].
    + rewrite bool_decide_eq_true_2 by left. reflexivity.
    + change (list_fmap _ _ fst ?l) with (l.*1). rewrite IH.
      destruct (bool_decide (t ∈ more.*1)) eqn:Hin.
      * apply bool_decide_eq_true in Hin.
        rewrite bool_decide_eq_true_2 by (right; exact Hin). reflexivity.
      * apply bool_decide_eq_false in Hin.
        rewrite bool_decide_eq_false_2; [reflexivity |].
        intros Hbad. apply elem_of_cons in Hbad as [-> | Hbad]; contradiction.
Qed.

Lemma add_item_items (t k : EntityType) (it : Item) by_type :
  items_for k (add_item t it by_type)
  = if decide (k = t) then items_for k by_type ++ [it] else items_for k by_type.
Proof.
  induction by_type as [|[k' items] more IH]; cbn [add_item items_for].
  - destruct (decide (t = k)) as [-> | Hne].
    + rewrite decide_True by reflexivity. reflexivity.
    + rewrite decide_False by congruence. reflexivity.
  - destruct (decide (k' = t)) as [-> | Hne]; cbn [items_for].
    + destruct (decide (t = k)) as [<- | Hne'].
      * rewrite decide_True by reflexivity. reflexivity.
      * rewrite decide_False by congruence. reflexivity.
    + destruct (decide (k' = k)) as [<- | Hne'].
      * rewrite decide_False by congruence. reflexivity.
      * exact IH.
Qed.

(** The dictionary [by_type] after the loop of the report. *)
Lemma group_by_type_spec (entities : list ExtractedEntity) :
  let by_type := group_by_type entities in
  NoDup by_type.*1
  /\ (forall t, t ∈ by_type.*1 <-> exists e, e ∈ entities /\ entity_type e = t)
  /\ (forall t, items_for t by_type
                = item_of <$> filter (fun e => entity_type e = t) entities).
Proof.
  cbv zeta. unfold group_by_type.
  induction entities as [|e entities IH] using rev_ind.
  - cbn. split_and!; [constructor | | reflexivity].
    intros t. split; [intros H; inversion H | intros (e & H & _); inversion H].
  - rewrite foldl_app. cbn [foldl].
    set (g := foldl _ [] entities) in *.
    destruct IH as (Hnd & Hkeys & Hitems).
    split_and!.
    + rewrite add_item_keys. case_bool_decide as Hin; [exact Hnd |].
      apply NoDup_app. split_and!; [exact Hnd | | apply NoDup_singleton].
      intros t Ht Ht'. apply list_elem_of_singleton in Ht'. subst t. contradiction.
    + intros t. rewrite add_item_keys. split.
      * intros Ht. case_bool_decide as Hin.
        -- apply Hkeys in Ht as (e' & He' & Ht). exists e'.
           split; [apply elem_of_app; left; exact He' | exact Ht].
        -- apply elem_of_app in Ht as [Ht | Ht].
           ++ apply Hkeys in Ht as (e' & He' & Ht). exists e'.
              split; [apply elem_of_app; left; exact He' | exact Ht].
           ++ apply list_elem_of_singleton in Ht. exists e.
              split; [apply elem_of_app; right; left | congruence].
      * intros (e' & He' & Ht). apply elem_of_app in He' as [He' | He'].
        -- assert (Hk : t ∈ g.*1) by (apply Hkeys; exists e'; split; assumption).
           case_bool_decide; [exact Hk | apply elem_of_app; left; exact Hk].
        -- apply list_elem_of_singleton in He'. subst e'. subst t.
           case_bool_decide as Hin; [exact Hin | apply elem_of_app; right; left].
    + intros t. rewrite add_item_items, filter_app, fmap_app, Hitems.
      rewrite filter_cons, filter_nil.
      destruct (decide (t = entity_type e)) as [-> | Hne].
      * rewrite decide_True by reflexivity. reflexivity.
      * rewrite decide_False by congruence. rewrite app_nil_r. reflexivity.
Qed.

(** X9: [entities_by_type] of the report is a partition of the
    entities by type: its keys are distinct and are exactly the types
    that occur, under each key stand the entities of that type, in
    their order, and the context of each is cut to 100 characters. *)
Theorem report_groups_by_type (cid : string)
    (entities : list ExtractedEntity) (transcript : string) :
  let r := generate_intelligence_report cid entities transcript in
  let by_type := entities_by_type r in
  NoDup by_type.*1
  /\ (forall t, t ∈ by_type.*1 <-> exists e, e ∈ entities /\ entity_type e = t)
  /\ (forall t, items_for t by_type
                = item_of <$> filter (fun e => entity_type e = t) entities)
  /\ (forall t it, it ∈ items_for t by_type ->
                   (Text.len (item_context it) <= 100)%nat).
Proof.
  cbv zeta. unfold generate_intelligence_report.
  cbn [entities_by_type].
  destruct (group_by_type_spec entities) as (Hnd & Hkeys & Hitems).
  split_and!; [exact Hnd | exact Hkeys | exact Hitems |].
  intros t it. rewrite Hitems. intros Hin.
  apply list_elem_of_fmap in Hin as (e & -> & _).
  unfold item_of, Text.first_n, Text.len. cbn [item_context].
  rewrite chars_of_str, length_take. lia.
Qed.

End Reports.

Section Risk.

Import IntelligenceExtractor Report.
Local Open Scope Q_scope.

(** The entities that count towards the risk score. *)
Abbreviation counted e :=
  (entity_type e ∈ high_risk_entities /\ Num.gtb (confidence e) 0.5 = true).

Lemma risk_fold (entities : list ExtractedEntity) (acc : Q) :
  foldl (fun sc e =>
           if bool_decide (entity_type e ∈ high_risk_entities)
              && Num.gtb (confidence e) 0.5
           then sc + 0.15 else sc) acc entities
  == acc + 0.15 * Num.of_nat (length (filter (fun e => counted e) entities)).
Proof.
  revert acc. induction entities as [|e entities IH]; intros acc; cbn [foldl].
  - change (acc == acc + 0.15 * 0). field.
  - rewrite IH, filter_cons.
    destruct (decide (counted e)) as [[Hin Hconf] | Hout].
    + rewrite bool_decide_eq_true_2 by exact Hin. rewrite Hconf. cbn [andb length].
      rewrite of_nat_S. field.
    + destruct (bool_decide (entity_type e ∈ high_risk_entities)) eqn:Hb;
        destruct (Num.gtb (confidence e) 0.5) eqn:Hc; cbn [andb]; try reflexivity.
      exfalso. apply Hout. split; [apply bool_decide_eq_true in Hb; exact Hb | reflexivity].
Qed.

(** X10: the risk score of a report lies in [0, 1]; it is 0.15 for
    each high-risk entity (UPI handle, phone number, bank account, IFSC
    code) of confidence above 0.5 plus 0.1 for each fraud indicator,
    capped at 1; and the risk level is none exactly when there is no
    such entity and no indicator. *)
Theorem risk_score_is_bounded (entities : list ExtractedEntity)
    (indicators : list string) :
  let sc := _calculate_risk_score entities indicators in
  let n := length (filter (fun e => counted e) entities) in
  0 <= sc <= 1
  /\ sc == Num.min 1 (0.15 * Num.of_nat n + 0.1 * Num.of_nat (length indicators))
  /\ (_risk_level sc = "none" <-> n = 0%nat /\ indicators = []).
Proof.
  cbv zeta. unfold _calculate_risk_score.
  set (n := length (filter (fun e => counted e) entities)).
  pose proof (risk_fold entities 0) as Hfold. fold n in Hfold.
  set (f := foldl _ 0 entities) in *.
  pose proof (of_nat_nonneg n) as Hn.
  pose proof (of_nat_nonneg (length indicators)) as Hi.
  assert (Hraw : f + Num.of_nat (length indicators) * 0.1
                 == 0.15 * Num.of_nat n + 0.1 * Num.of_nat (length indicators)).
  { rewrite Hfold. field. }
  assert (Hmin : Num.min 1 (f + Num.of_nat (length indicators) * 0.1)
                 == Num.min 1 (0.15 * Num.of_nat n + 0.1 * Num.of_nat (length indicators))).
  { destruct (min_spec 1 (f + Num.of_nat (length indicators) * 0.1)) as [[? ->] | [? ->]];
      destruct (min_spec 1 (0.15 * Num.of_nat n + 0.1 * Num.of_nat (length indicators)))
        as [[? ->] | [? ->]]; lra. }
  split; [| split].
  - destruct (min_spec 1 (f + Num.of_nat (length indicators) * 0.1)) as [[? ->] | [? ->]];
      lra.
  - exact Hmin.
  - set (raw := f + Num.of_nat (length indicators) * 0.1) in *.
    assert (Hiff : (n = 0%nat /\ indicators = []) <-> raw <= 0).
    { split.
      - intros [Hn0 Hnil]. rewrite Hraw, Hn0, Hnil. discriminate.
      - intros Hz. rewrite Hraw in Hz.
        destruct n as [|k]; [destruct indicators as [|i l]; [split; reflexivity |] |].
        + exfalso. cbn [length] in Hz. rewrite of_nat_S in Hz.
          pose proof (of_nat_nonneg (length l)).
          change (Num.of_nat 0) with 0 in Hz. lra.
        + exfalso. rewrite of_nat_S in Hz. pose proof (of_nat_nonneg k). lra. }
    rewrite Hiff. clear Hiff.
    destruct (min_spec 1 raw) as [[Hle ->] | [Hlt ->]].
    + change (_risk_level 1) with "critical". split; [discriminate | lra].
    + unfold _risk_level. thresholds; split; intros;
        first [discriminate | reflexivity | lra | exfalso; lra].
Qed.

(** X11: the recommended actions of a report are never empty;
    immediate_report_to_authorities is among them exactly when the risk
    level is critical, flag_upi_ids, trace_phone_numbers and
    notify_banks exactly when an entity of the matching type was
    extracted, and continue_monitoring exactly when it is the only
    action. *)
Theorem report_actions_match_findings (cid : string)
    (entities : list ExtractedEntity) (transcript : string) :
  let r := generate_intelligence_report cid entities transcript in
  let found t := exists e, e ∈ entities /\ entity_type e = t in
  recommended_actions r <> []
  /\ ("immediate_report_to_authorities" ∈ recommended_actions r
      <-> risk_level r = "critical")
  /\ ("flag_upi_ids" ∈ recommended_actions r <-> found upi_id)
  /\ ("trace_phone_numbers" ∈ recommended_actions r <-> found phone_number)
  /\ ("notify_banks" ∈ recommended_actions r
      <-> found bank_account \/ found ifsc_code)
  /\ ("continue_monitoring" ∈ recommended_actions r
      <-> recommended_actions r = ["continue_monitoring"]).
Proof.
  cbv zeta. unfold generate_intelligence_report.
  cbn [recommended_actions risk_level].
  set (sc := _calculate_risk_score entities (_extract_fraud_indicators transcript)).
  destruct (group_by_type_spec entities) as (_ & Hkeys & _).
  set (g := group_by_type entities) in *.
  assert (Hcrit : _risk_level sc = "critical" <-> Num.geb sc 0.8 = true).
  { unfold _risk_level.
    destruct (Num.geb sc 0.8); [tauto |].
    destruct (Num.geb sc 0.6); [split; discriminate |].
    destruct (Num.geb sc 0.4); [split; discriminate |].
    destruct (Num.gtb sc 0); split; discriminate. }
  assert (Hb : forall t, bool_decide (t ∈ g.*1) = true
                         <-> exists e, e ∈ entities /\ entity_type e = t).
  { intros t. rewrite bool_decide_eq_true. apply Hkeys. }
  rewrite Hcrit.
  rewrite <- (Hb upi_id), <- (Hb phone_number), <- (Hb bank_account),
    <- (Hb ifsc_code).
  clear Hb Hkeys Hcrit.
  unfold _recommend_actions.
  destruct (Num.geb sc 0.8), (bool_decide (upi_id ∈ g.*1)),
    (bool_decide (phone_number ∈ g.*1)), (bool_decide (bank_account ∈ g.*1)),
    (bool_decide (ifsc_code ∈ g.*1));
    cbn [app orb];
    (split; [discriminate |]);
    repeat split; set_unfold; intros;
    repeat match goal with
    | H : _ \/ _ |- _ => destruct H
    | H : False |- _ => destruct H
    | H : _ = _ |- _ => discriminate H
    end;
    first [reflexivity | tauto].
Qed.

End Risk.

(** ** The decoy: pacing, bookkeeping and the end of an engagement

    [process_caller_input] is read with the call that appends the
    agent's turn closed before the delay, as its layout intends. *)

Section Delay.

Import BaitAgent Pacing.
Local Open Scope Q_scope.

(** X12: with the three draws in the ranges the code draws them from,
    the delay before a reply is between 1 and 5 seconds; a confused
    senior waits at least 1.5 seconds, the other personas at most 4.5,
    and with them the delay of the first ten replies is the base draw. *)
Theorem response_delay_is_bounded (state : ConversationState)
    (base confused fatigue : Q) :
  1 <= base <= 3 -> 0.5 <= confused <= 2 -> 0.5 <= fatigue <= 1.5 ->
  let delay := _calculate_response_delay state base confused fatigue in
  1 <= delay <= 5
  /\ (persona state = "confused_senior" -> 1.5 <= delay)
  /\ (persona state <> "confused_senior" -> delay <= 4.5)
  /\ (persona state <> "confused_senior" ->
      (total_responses state <= 10)%nat -> delay = base).
Proof.
  intros Hb Hc Hf. cbv zeta. unfold _calculate_response_delay.
  destruct (String.eqb_spec (persona state) "confused_senior") as [Hp | Hp];
    destruct (Nat.ltb_spec 10 (total_responses state)) as [Hn | Hn];
    match goal with
    | |- context [Num.min ?a ?b] =>
        destruct (min_spec a b) as [[Hle ->] | [Hlt ->]]
    end;
    (split; [lra |]); (split; [intros; try lra; congruence |]);
    (split; [intros; try lra; congruence |]);
    intros; first [reflexivity | congruence | lia | exfalso; lra].
Qed.

End Delay.

Section DelayWitness.

Import BaitAgent Pacing.
Local Open Scope Q_scope.

Lemma response_delay_is_bounded_witness :
  let state := {| call_id := "call-1"; persona := "confused_senior";
                  transcript_history := []; intelligence_extracted := [];
                  scammer_patience_level := 1; engagement_stage := extracting;
                  total_responses := 11 |} in
  1 <= _calculate_response_delay state 3 2 1.5 <= 5.
Proof.
  cbv zeta.
  apply (response_delay_is_bounded _ 3 2 1.5); split; discriminate.
Defined.

End DelayWitness.

Section Engagements.

Import IntelligenceExtractor BaitAgent Decoy Pacing.

Variable settings : Config.Settings.
Variable canned_reply : Intent -> string -> string.
Variable greeting : string -> string.

Abbreviation run := (Decoy.run settings canned_reply greeting).

(** The caller's turns of a history that carry a text. *)
Abbreviation spoken history :=
  (filter (fun t => is_Some (text t)) (messages_of "scammer" history)).

(** What one caller turn does to a live engagement. *)
Lemma process_caller_input_history engagements cid transcript state :
  engagements !! cid = Some state ->
  exists state',
    (process_caller_input canned_reply engagements cid transcript).1
    = <[cid := state']> engagements
    /\ call_id state' = call_id state
    /\ persona state' = persona state
    /\ total_responses state' = S (total_responses state)
    /\ intelligence_extracted state'
       = intelligence_extracted state ++ extract transcript
    /\ transcript_history state'
       = transcript_history state
         ++ {| speaker := "scammer"; text := transcript |}
         :: match transcript with
            | Some s => [{| speaker := "agent";
                            text := Some (canned_reply (intent_of s)
                                            (persona state)) |}]
            | None => []
            end.
Proof.
  intros Hlive. unfold process_caller_input. rewrite Hlive.
  destruct transcript as [s|]; cbn [_generate_response fst];
    eexists; (split; [reflexivity |]); cbn; rewrite Nat.add_1_r;
    rewrite <- ?app_assoc; auto.
Qed.

Lemma messages_of_app who (h1 h2 : list Turn) :
  messages_of who (h1 ++ h2) = messages_of who h1 ++ messages_of who h2.
Proof. unfold messages_of. apply filter_app. Qed.

(** X13: in every history of the decoy, an engagement on the registry
    is filed under its own call, has one of the three personas, counts
    exactly the caller's turns of its transcript, holds one reply for
    each caller's turn that carried a text, and holds as intelligence
    what extraction found in the caller's turns, in their order. *)
Theorem engagement_counts_the_turns (ops : list Op) cid state :
  run ops !! cid = Some state ->
  call_id state = cid
  /\ persona state ∈ PERSONAS
  /\ length (messages_of "scammer" (transcript_history state))
     = total_responses state
  /\ length (messages_of "agent" (transcript_history state))
     = length (spoken (transcript_history state))
  /\ intelligence_extracted state
     = messages_of "scammer" (transcript_history state)
         ≫= (fun t => extract (text t)).
Proof.
  unfold Decoy.run. revert cid state.
  induction ops as [|op ops IH] using rev_ind; intros cid state.
  - cbn. rewrite lookup_empty. discriminate.
  - rewrite foldl_app. cbn [foldl].
    set (before := foldl (apply settings canned_reply greeting) ∅ ops) in *.
    destruct op as [cid' p | cid' t | cid']; cbn [apply].
    + unfold start_engagement. cbn [fst].
      destruct (decide (cid' = cid)) as [-> | Hne].
      * rewrite lookup_insert_eq. intros [= <-]. cbn.
        split_and!; try reflexivity.
        case_bool_decide as Hin; [exact Hin |].
        apply list_elem_of_here.
      * rewrite lookup_insert_ne by assumption. apply IH.
    + destruct (before !! cid') as [state0|] eqn:Hlive.
      * destruct (process_caller_input_history before cid' t state0 Hlive)
          as (state' & -> & Hid & Hp & Hcount & Hintel & Hhist).
        destruct (decide (cid' = cid)) as [-> | Hne].
        -- rewrite lookup_insert_eq. intros [= <-].
           destruct (IH cid state0 Hlive) as (Hid0 & Hp0 & Hn0 & Ha0 & Hi0).
           rewrite Hid, Hp, Hcount, Hintel, Hhist, Hi0, !messages_of_app.
           rewrite filter_app, bind_app, !length_app, Hn0, Ha0.
           destruct t as [s|]; cbn;
             repeat case_decide;
             repeat match goal with
             | H : "agent" = "scammer" |- _ => discriminate H
             | H : "scammer" = "agent" |- _ => discriminate H
             | H : "scammer" <> "scammer" |- _ => destruct (H eq_refl)
             | H : "agent" <> "agent" |- _ => destruct (H eq_refl)
             | H : is_Some None |- _ => destruct (is_Some_None H)
             | H : ~ is_Some (Some _) |- _ => destruct H; eexists; reflexivity
             end;
             cbn; rewrite ?app_nil_r; split_and!; auto; lia.
        -- rewrite lookup_insert_ne by assumption. apply IH.
      * rewrite process_caller_input_absent by assumption. apply IH.
    + unfold terminate_engagement.
      destruct (before !! cid') as [state0|] eqn:Hlive; cbn [fst].
      * destruct (decide (cid' = cid)) as [-> | Hne].
        -- rewrite lookup_delete_eq. discriminate.
        -- rewrite lookup_delete_ne by assumption. apply IH.
      * apply IH.
Qed.

(** X14: ending an engagement returns its count of turns, its
    intelligence and the stage of that count, and takes it off the
    registry, leaving the others; after that, input for the call is
    answered with the error and changes nothing, and so is ending it
    again. *)
Theorem ended_engagement_takes_no_input (ops : list Op) cid state :
  run ops !! cid = Some state ->
  let ended := terminate_engagement (run ops) cid in
  ended.2 = Some {| total_exchanges := total_responses state;
                    summary_intelligence := intelligence_extracted state;
                    final_stage := stage_of (total_responses state) |}
  /\ ended.1 !! cid = None
  /\ (forall other, other <> cid -> ended.1 !! other = run ops !! other)
  /\ (forall transcript,
        process_caller_input canned_reply ended.1 cid transcript
        = (ended.1, Returned None))
  /\ terminate_engagement ended.1 cid = (ended.1, None).
Proof.
  intros Hlive. cbv zeta.
  pose proof (stage_invariant settings canned_reply greeting ops cid state Hlive)
    as Hstage.
  assert (Hend : terminate_engagement (run ops) cid
                 = (delete cid (run ops),
                    Some {| total_exchanges := total_responses state;
                            summary_intelligence := intelligence_extracted state;
                            final_stage := engagement_stage state |})).
  { unfold terminate_engagement. rewrite Hlive. reflexivity. }
  rewrite Hend. cbn [fst snd].
  pose proof (lookup_delete_eq (run ops) cid) as Hgone.
  split_and!.
  - rewrite Hstage. reflexivity.
  - exact Hgone.
  - intros other Hne. apply lookup_delete_ne. congruence.
  - intros transcript. unfold process_caller_input.
    rewrite Hgone. reflexivity.
  - unfold terminate_engagement. rewrite Hgone. reflexivity.
Qed.

(** X15: an engagement that is started, fed the caller's turns one by
    one and ended reports as many exchanges as turns, the stage of
    that number, and the entities of the turns in their order. *)
Theorem summary_of_a_whole_engagement (before : list Op) cid persona_arg
    (turns : list (option string)) :
  let ops := before ++ Start cid persona_arg :: (Input cid <$> turns) in
  (terminate_engagement (run ops) cid).2
  = Some {| total_exchanges := length turns;
            summary_intelligence := turns ≫= extract;
            final_stage := stage_of (length turns) |}.
Proof.
  cbv zeta.
  assert (Hrun : exists state,
             run (before ++ Start cid persona_arg :: (Input cid <$> turns)) !! cid
             = Some state
             /\ total_responses state = length turns
             /\ intelligence_extracted state = turns ≫= extract).
  { induction turns as [|t turns IH] using rev_ind.
    - unfold Decoy.run. rewrite foldl_app. cbn [fmap list_fmap foldl apply].
      unfold start_engagement. cbn [fst]. rewrite lookup_insert_eq.
      eexists. split; [reflexivity |]. split; reflexivity.
    - destruct IH as (state & Hlive & Hn & Hi).
      rewrite fmap_app. cbn [fmap list_fmap].
      change (before ++ Start cid persona_arg
                :: (Input cid <$> turns) ++ [Input cid t])
        with (before ++ (Start cid persona_arg :: (Input cid <$> turns))
                ++ [Input cid t]).
      rewrite app_assoc. unfold Decoy.run in *. rewrite foldl_app.
      cbn [foldl apply].
      destruct (process_caller_input_history _ cid t state Hlive)
        as (state' & -> & _ & _ & Hcount & Hintel & _).
      exists state'. rewrite lookup_insert_eq.
      split; [reflexivity |].
      rewrite Hcount, Hintel, Hn, Hi, length_app, bind_app. cbn.
      rewrite app_nil_r. split; [lia | reflexivity]. }
  destruct Hrun as (state & Hlive & Hn & Hi).
  pose proof (stage_invariant settings canned_reply greeting _ cid state Hlive)
    as Hstage.
  unfold terminate_engagement. rewrite Hlive. cbn [snd].
  rewrite Hstage, Hn, Hi. reflexivity.
Qed.

End Engagements.

Section EngagementsWitness.

Import IntelligenceExtractor BaitAgent Decoy Pacing.

Lemma engagement_counts_the_turns_witness :
  let ops := [Start "call-1" None; Input "call-1" (Some "Send the OTP now")] in
  exists state,
    Decoy.run Config.defaults (fun _ _ => "Ji?") (fun _ => "Hello?") ops
      !! "call-1" = Some state
    /\ length (messages_of "scammer" (transcript_history state))
       = total_responses state.
Proof.
  cbv zeta. eexists.
  assert (Hand : forall A B : Prop, A -> (A -> B) -> A /\ B) by tauto.
  apply Hand; [vm_compute; reflexivity |].
  intros Hlive.
  exact (proj1 (proj2 (proj2
           (engagement_counts_the_turns Config.defaults (fun _ _ => "Ji?")
              (fun _ => "Hello?") _ "call-1" _ Hlive)))).
Defined.

Lemma ended_engagement_takes_no_input_witness :
  let ops := [Start "call-1" None; Input "call-1" (Some "Send the OTP now")] in
  let registry :=
    Decoy.run Config.defaults (fun _ _ => "Ji?") (fun _ => "Hello?") ops in
  exists state,
    registry !! "call-1" = Some state
    /\ (terminate_engagement registry "call-1").1 !! "call-1" = None.
Proof.
  cbv zeta. eexists.
  assert (Hand : forall A B : Prop, A -> (A -> B) -> A /\ B) by tauto.
  apply Hand; [vm_compute; reflexivity |].
  intros Hlive.
  exact (proj1 (proj2
           (ended_engagement_takes_no_input Config.defaults (fun _ _ => "Ji?")
              (fun _ => "Hello?") _ "call-1" _ Hlive))).
Defined.

End EngagementsWitness.

(** ** The samples and the frames of a chunk *)

Section Samples.

Import ThreatAnalyzer AudioProcessor.

Lemma frombuffer_step (lo hi : Z) (more : list Z) :
  frombuffer (lo :: hi :: more)
  = cons (let u := (lo + 256 * hi)%Z in
          if (32768 <=? u)%Z then (u - 65536)%Z else u) <$> frombuffer more.
Proof. reflexivity. Qed.

Lemma frombuffer_pairs (n : nat) (audio_bytes : list Z) :
  (length audio_bytes <= n)%nat ->
  (frombuffer audio_bytes = None <-> Nat.odd (length audio_bytes) = true)
  /\ forall audio_array,
       frombuffer audio_bytes = Some audio_array ->
       length audio_bytes = (2 * length audio_array)%nat
       /\ (Forall (fun byte => (0 <= byte < 256)%Z) audio_bytes ->
           Forall (fun x => (-32768 <= x < 32768)%Z) audio_array).
Proof.
  revert audio_bytes.
  induction n as [|n IH]; intros audio_bytes Hn.
  - destruct audio_bytes; [| cbn in Hn; lia]. cbn.
    split; [split; discriminate |]. intros ? [= <-]. split; [reflexivity | auto].
  - destruct audio_bytes as [|lo [|hi more]].
    + cbn. split; [split; discriminate |].
      intros ? [= <-]. split; [reflexivity | auto].
    + cbn. split; [split; reflexivity | discriminate].
    + rewrite frombuffer_step. cbn [length] in *.
      rewrite Nat.odd_succ_succ.
      destruct (IH more ltac:(lia)) as (Hodd & Heven).
      destruct (frombuffer more) as [rest|]; cbn [fmap option_fmap option_map].
      * split; [split; [discriminate | intros H; apply Hodd in H; discriminate] |].
        intros ? [= <-]. destruct (Heven rest eq_refl) as (Hlen & Hrange).
        cbn [length]. split; [lia |].
        intros Hbytes. inversion Hbytes as [|? ? Hlo Hrest]; subst.
        inversion Hrest as [|? ? Hhi Hmore]; subst.
        constructor; [| apply Hrange; exact Hmore].
        cbv zeta. destruct (Z.leb_spec 32768 (lo + 256 * hi)); lia.
      * split; [split; [intros _; apply Hodd; reflexivity | reflexivity] |].
        discriminate.
Qed.

(** X16: the samples of a chunk are its bytes taken in pairs: there
    are none exactly when the number of bytes is odd, else half as
    many samples as bytes, and of bytes each sample is a 16-bit signed
    number. *)
Theorem samples_pair_the_bytes (audio_bytes : list Z) :
  (frombuffer audio_bytes = None <-> Nat.odd (length audio_bytes) = true)
  /\ forall audio_array,
       frombuffer audio_bytes = Some audio_array ->
       length audio_bytes = (2 * length audio_array)%nat
       /\ (Forall (fun byte => (0 <= byte < 256)%Z) audio_bytes ->
           Forall (fun x => (-32768 <= x < 32768)%Z) audio_array).
Proof. exact (frombuffer_pairs (length audio_bytes) audio_bytes (le_n _)). Qed.

Lemma frames_short (fuel n : nat) (xs : list Z) :
  (length xs <= n)%nat -> frames fuel n xs = [].
Proof.
  intros Hshort. destruct fuel; [reflexivity |]. cbn [frames].
  destruct (Nat.ltb_spec n (length xs)); [lia | reflexivity].
Qed.

Lemma frames_prefix (fuel n : nat) (xs : list Z) :
  (0 < n)%nat -> (length xs <= fuel)%nat ->
  length (frames fuel n xs) = ((length xs - 1) / n)%nat
  /\ mjoin (frames fuel n xs) = take (n * ((length xs - 1) / n)) xs.
Proof.
  intros Hn. revert xs.
  induction fuel as [|fuel IH]; intros xs Hfuel.
  - destruct xs; [| cbn in Hfuel; lia]. cbn.
    rewrite Nat.Div0.div_0_l, Nat.mul_0_r. split; reflexivity.
  - cbn [frames]. destruct (Nat.ltb_spec n (length xs)) as [Hlong | Hshort].
    + destruct (IH (drop n xs)) as (Hcount & Hjoin);
        [rewrite length_drop; lia |].
      rewrite length_drop in Hcount, Hjoin.
      assert (Hdiv : ((length xs - 1) / n = S ((length xs - n - 1) / n))%nat).
      { replace (length xs - 1)%nat with ((length xs - n - 1) + 1 * n)%nat by lia.
        rewrite Nat.div_add by lia. lia. }
      assert (Hcons : forall (f : list Z) fs, mjoin (f :: fs) = f ++ mjoin fs)
        by reflexivity.
      cbn [length]. rewrite Hcons, Hcount, Hjoin, Hdiv, take_take_drop.
      split; [reflexivity |]. f_equal. lia.
    + rewrite Nat.div_small by lia. rewrite Nat.mul_0_r.
      split; reflexivity.
Qed.

(** X17: the frames handed to webrtcvad are consecutive, of the frame
    size each, and cover a prefix of the chunk; they are as many as
    the frame size goes into the length less one, so of a chunk that
    is not empty the last samples, between one and a whole frame of
    them, are never examined. *)
Theorem frames_leave_the_tail (frame_size : nat) (audio_array : list Z) :
  (0 < frame_size)%nat ->
  let examined := frames (length audio_array) frame_size audio_array in
  let count := ((length audio_array - 1) / frame_size)%nat in
  length examined = count
  /\ Forall (fun f => length f = frame_size) examined
  /\ mjoin examined = take (frame_size * count) audio_array
  /\ (audio_array <> [] ->
      (1 <= length audio_array - frame_size * count <= frame_size)%nat).
Proof.
  intros Hn. cbv zeta.
  destruct (frames_prefix (length audio_array) frame_size audio_array Hn (le_n _))
    as (Hcount & Hjoin).
  split_and!; [exact Hcount | apply frames_whole | exact Hjoin |].
  intros Hne.
  assert (Hlen : (1 <= length audio_array)%nat)
    by (destruct audio_array; [contradiction | cbn; lia]).
  pose proof (Nat.div_mod_eq (length audio_array - 1) frame_size) as Hdm.
  pose proof (Nat.mod_upper_bound (length audio_array - 1) frame_size
                ltac:(lia)) as Hmod.
  lia.
Qed.

End Samples.

Section ShortChunks.

Import ThreatAnalyzer AudioProcessor.
Local Open Scope Q_scope.

Variable settings : Config.Settings.
Variable b64decode : string -> option (list Z).
Variable _extract_features : list Z -> AudioFeatures.

(** X18: with webrtcvad, a chunk that is no longer than one frame of
    30 ms is never speech, however loud it is and whatever webrtcvad
    would say of it: no frame of it is examined. *)
Theorem one_frame_is_never_speech (v : list Z -> option bool)
    (audio_base64 : string) (audio_array : list Z) :
  b64decode audio_base64 ≫= frombuffer = Some audio_array ->
  (length audio_array
   <= Z.to_nat (Config.audio_sample_rate settings * 30 ÷ 1000))%nat ->
  exists r,
    detect_voice_activity settings b64decode (Some v) _extract_features
      audio_base64 = Returned r
    /\ is_speech r = false /\ speech_duration_ms r = 0%Z.
Proof.
  intros Hdecode Hshort.
  unfold detect_voice_activity, detect_body.
  destruct (b64decode audio_base64) as [audio_bytes|]; [| discriminate].
  cbn [mbind option_bind] in Hdecode. rewrite Hdecode.
  destruct audio_array as [|x audio_array].
  - cbn [length Nat.ltb Nat.leb].
    eexists. split; [reflexivity |]. split; reflexivity.
  - cbn [length Nat.ltb Nat.leb] in *.
    set (frame_size := (Config.audio_sample_rate settings * 30 ÷ 1000)%Z) in *.
    destruct (Z.eqb_spec frame_size 0) as [Hz | Hz].
    + eexists. split; [reflexivity |]. split; reflexivity.
    + destruct (Z.ltb_spec frame_size 0) as [Hneg | Hpos]; [lia |].
      rewrite frames_short by (cbn [length]; lia).
      eexists. split; [reflexivity |]. split; reflexivity.
Qed.

(** X19: a chunk of an odd number of bytes is not heard at all: the
    gate answers that it is not speech, with no duration, ratio or
    features, and the transcriber returns nothing, with or without
    webrtcvad and whisper. *)
Theorem odd_chunk_is_not_heard (vad : option (list Z -> option bool))
    (whisper_model : option (list Z -> option string))
    (audio_base64 : string) (audio_bytes : list Z) :
  b64decode audio_base64 = Some audio_bytes ->
  Nat.odd (length audio_bytes) = true ->
  detect_voice_activity settings b64decode vad _extract_features audio_base64
  = Returned {| is_speech := false; speech_duration_ms := 0;
                speech_ratio := None; features := ∅ |}
  /\ transcribe b64decode whisper_model audio_base64 = None.
Proof.
  intros Hdecode Hodd.
  assert (Hnone : frombuffer audio_bytes = None)
    by (apply (frombuffer_pairs (length audio_bytes)); [lia | exact Hodd]).
  unfold detect_voice_activity, detect_body, transcribe.
  rewrite Hdecode, Hnone. split; [reflexivity |].
  destruct whisper_model; reflexivity.
Qed.

End ShortChunks.

Section ShortChunksWitness.

Import ThreatAnalyzer AudioProcessor Examples.

Lemma frames_leave_the_tail_witness :
  length (frames 960 480 (repeat 7%Z 960)) = 1%nat.
Proof.
  apply (frames_leave_the_tail 480 (repeat 7%Z 960)). lia.
Defined.

Lemma one_frame_is_never_speech_witness :
  exists r,
    detect_voice_activity Config.defaults (fun _ => Some short_loud_chunk)
      (Some (fun _ => Some true)) (fun _ => ∅) "chunk" = Returned r
    /\ is_speech r = false /\ speech_duration_ms r = 0%Z.
Proof.
  apply (one_frame_is_never_speech Config.defaults
           (fun _ => Some short_loud_chunk) (fun _ => ∅) (fun _ => Some true)
           "chunk" (replicate 100 16384%Z)).
  - vm_compute. reflexivity.
  - vm_compute. lia.
Defined.

Lemma odd_chunk_is_not_heard_witness :
  transcribe (fun _ => Some [0; 64; 0]%Z) (Some (fun _ => Some "hello"))
    "chunk" = None.
Proof.
  apply (odd_chunk_is_not_heard Config.defaults (fun _ => Some [0; 64; 0]%Z)
           (fun _ => ∅) None (Some (fun _ => Some "hello")) "chunk"
           [0; 64; 0]%Z); reflexivity.
Defined.

Lemma samples_pair_the_bytes_witness :
  length [0; 64; 255; 255]%Z = (2 * length [16384; -1]%Z)%nat.
Proof.
  apply (samples_pair_the_bytes [0; 64; 255; 255]%Z). reflexivity.
Defined.

End ShortChunksWitness.

(** ** The audio handler: what a chunk can touch *)

(** Membership in the event lists the handler builds. *)
Ltac event_cases H :=
  cbn [Main.events] in H;
  repeat match type of H with
  | _ ∈ _ ++ _ => apply elem_of_app in H as [H | H]
  | _ ∈ [] => apply elem_of_nil in H; contradiction
  | _ ∈ _ :: _ => apply elem_of_cons in H as [H | H]
  end;
  try discriminate H.

Section HandlerFrame.

Import ThreatAnalyzer Main Control.
Local Open Scope Q_scope.

Variable settings : Config.Settings.
Variable ml_model : option MlModel.
Variable b64decode : string -> option (list Z).
Variable vad : option (list Z -> option bool).
Variable _extract_features : list Z -> AudioFeatures.
Variable whisper_model : option (list Z -> option string).
Variable fernet_encrypt : string -> list Z -> option (list Z).
Variable canned_reply : BaitAgent.Intent -> string -> string.
Variable send_json : WsMessage -> bool.

Abbreviation hears :=
  (AudioProcessor.detect_voice_activity settings b64decode vad _extract_features).
Abbreviation heard := (AudioProcessor.transcribe b64decode whisper_model).
Abbreviation handles :=
  (handle_audio_chunk settings ml_model b64decode vad _extract_features
     whisper_model fernet_encrypt canned_reply send_json).
Abbreviation turn b cid transcript feats :=
  (analyze_realtime settings ml_model (call_contexts b) cid transcript
     (Some feats)).

(** The state the decoy path leaves. *)
Abbreviation decoyed b cid transcript :=
  {| active_connections := active_connections b;
     call_sessions := call_sessions b;
     call_contexts := call_contexts b;
     active_engagements :=
       (BaitAgent.process_caller_input canned_reply (active_engagements b)
          cid transcript).1 |}.

(** The state the scoring path leaves. *)
Abbreviation scored b cid transcript feats :=
  (update_session
     {| active_connections := active_connections b;
        call_sessions := call_sessions b;
        call_contexts := (turn b cid transcript feats).1;
        active_engagements := active_engagements b |} cid
     (fun s =>
        {| audio_chunks_received := audio_chunks_received s;
           threat_score := ThreatAnalyzer.threat_score (turn b cid transcript feats).2;
           status :=
             if Num.gtb (ThreatAnalyzer.threat_score (turn b cid transcript feats).2)
                  (Config.threat_threshold_medium settings)
             then THREAT_DETECTED else MONITORING;
           ai_handoff := ai_handoff s |})).

Lemma route_to_decoy_backend b evs cid transcript :
  backend (route_to_decoy canned_reply send_json b evs cid transcript)
  = decoyed b cid transcript.
Proof.
  unfold route_to_decoy.
  destruct (BaitAgent.process_caller_input _ _ _ _) as [engs [reply | exc]];
    cbn [fst]; [destruct (send_json _) |]; reflexivity.
Qed.

Lemma score_turn_backend b evs cid audio sequence transcript feats :
  backend (score_turn settings ml_model b64decode fernet_encrypt send_json
             b evs cid audio sequence transcript feats)
  = scored b cid transcript feats.
Proof.
  unfold score_turn.
  destruct (analyze_realtime _ _ _ _ _ _) as [contexts result]. cbn [fst snd].
  destruct transcript as [current|]; [| reflexivity].
  destruct (send_json (threat_update _ _ _ _ _)); cbn [negb]; [| reflexivity].
  match goal with
  | |- context [if ?a && negb ?s then _ else _] =>
      destruct a; cbn [andb]; [destruct s; cbn [negb] |]
  end; reflexivity.
Qed.

(** The three states a chunk can leave. *)
Lemma handler_backend b cid payload :
  let audio := default "" (audio_data payload) in
  backend (handles b cid payload) = b
  \/ (exists session,
        call_sessions b !! cid = Some session /\ ai_handoff session = true
        /\ backend (handles b cid payload) = decoyed b cid (heard audio))
  \/ (exists session r,
        call_sessions b !! cid = Some session /\ ai_handoff session = false
        /\ hears audio = Returned r
        /\ backend (handles b cid payload)
           = scored b cid (heard audio) (AudioProcessor.features r)).
Proof.
  cbv zeta. unfold handle_audio_chunk, get_session, Main.detect_voice_activity.
  destruct (call_sessions b !! cid) as [session|] eqn:Hs; [| left; reflexivity].
  destruct (hears _) as [r | exc] eqn:Hr; [| left; reflexivity].
  destruct (AudioProcessor.is_speech r); cbn [negb]; [| left; reflexivity].
  destruct (ai_handoff session) eqn:Hh.
  - right. left. exists session. rewrite route_to_decoy_backend. auto.
  - right. right. exists session, r. rewrite score_turn_backend. auto.
Qed.

Lemma process_caller_input_frame engagements cid transcript other :
  other <> cid ->
  (BaitAgent.process_caller_input canned_reply engagements cid transcript).1
    !! other
  = engagements !! other.
Proof.
  intros Hne. destruct (engagements !! cid) as [state|] eqn:Hlive.
  - destruct (process_caller_input_live canned_reply engagements cid
                transcript state Hlive) as (state' & -> & _).
    apply lookup_insert_ne. congruence.
  - rewrite process_caller_input_absent by assumption. reflexivity.
Qed.

Lemma handler_frame (b : Backend) (cid : string) (payload : Payload) :
  let out := handles b cid payload in
  active_connections (backend out) = active_connections b
  /\ (forall other, other <> cid ->
        call_sessions (backend out) !! other = call_sessions b !! other
        /\ call_contexts (backend out) !! other = call_contexts b !! other
        /\ active_engagements (backend out) !! other
           = active_engagements b !! other).
Proof.
  cbv zeta.
  destruct (handler_backend b cid payload)
    as [-> | [(s & Hs & Hh & ->) | (s & r & Hs & Hh & Hr & ->)]].
  - split; [reflexivity | auto].
  - cbn [backend active_connections call_sessions call_contexts
           active_engagements].
    split; [reflexivity |].
    intros other Hne. split_and!; [reflexivity | reflexivity |].
    apply process_caller_input_frame. exact Hne.
  - unfold update_session, analyze_realtime.
    cbn [backend active_connections call_sessions call_contexts
           active_engagements fst snd].
    split; [reflexivity |].
    intros other Hne. split_and!; [| | reflexivity].
    + apply lookup_alter_ne. congruence.
    + apply lookup_insert_ne. congruence.
Qed.

(** X20: a chunk touches its own call only: the connections stay, and
    so do the session, the score history and the engagement of every
    other call; for a call with no session the chunk does nothing at
    all; and of a session it leaves the count of chunks and the
    hand-off mark as they were. *)
Theorem chunk_touches_its_call_only (b : Backend) (cid : string)
    (payload : Payload) :
  let out := handles b cid payload in
  active_connections (backend out) = active_connections b
  /\ (forall other, other <> cid ->
        call_sessions (backend out) !! other = call_sessions b !! other
        /\ call_contexts (backend out) !! other = call_contexts b !! other
        /\ active_engagements (backend out) !! other
           = active_engagements b !! other)
  /\ (call_sessions b !! cid = None ->
      out = {| backend := b; events := []; escaped := None |})
  /\ (forall session, call_sessions b !! cid = Some session ->
        exists session',
          call_sessions (backend out) !! cid = Some session'
          /\ audio_chunks_received session' = audio_chunks_received session
          /\ ai_handoff session' = ai_handoff session).
Proof.
  cbv zeta.
  destruct (handler_frame b cid payload) as (Hconn & Hothers).
  split; [exact Hconn | split; [exact Hothers |]].
  split.
  - intros Hnone. unfold handle_audio_chunk, get_session. rewrite Hnone.
    reflexivity.
  - destruct (handler_backend b cid payload)
      as [-> | [(s & Hs & Hh & ->) | (s & r & Hs & Hh & Hr & ->)]];
      [eauto | eauto |].
    intros session Hsession. unfold update_session. cbn [call_sessions].
    rewrite lookup_alter_eq, Hsession.
    eexists. split; [reflexivity |]. split; reflexivity.
Qed.

(** The events of the two paths. *)
Lemma route_to_decoy_events b cid audio transcript :
  Forall (fun e => scoring e = false)
    (events (route_to_decoy canned_reply send_json b [Transcribe audio] cid
               transcript)).
Proof.
  unfold route_to_decoy, on_error.
  destruct (BaitAgent.process_caller_input _ _ _ _) as [engs [reply | exc]];
    [destruct (send_json _) |]; cbn; repeat constructor.
Qed.

Lemma score_turn_events b cid audio sequence transcript feats :
  Forall (fun e => decoying e = false)
    (events (score_turn settings ml_model b64decode fernet_encrypt send_json
               b [Transcribe audio] cid audio sequence transcript feats)).
Proof.
  unfold score_turn, on_error.
  destruct (analyze_realtime _ _ _ _ _ _) as [contexts result].
  destruct transcript as [current|]; [| cbn; repeat constructor].
  destruct (send_json (threat_update _ _ _ _ _)); cbn [negb];
    [| cbn; repeat constructor].
  match goal with
  | |- context [if ?a && negb ?s then _ else _] =>
      destruct a; cbn [andb]; [destruct s; cbn [negb] |]
  end;
    try match goal with
    | |- context [Num.gtb ?x (Config.threat_threshold_low settings)] =>
        destruct (Num.gtb x (Config.threat_threshold_low settings))
    end;
    cbn; repeat constructor.
Qed.

(** X21: the decoy and the scoring exclude each other.  A chunk of a
    call that is handed off is never analysed, stored or reported as
    a threat, and leaves the sessions and the score histories as they
    were; a chunk of a call that is not handed off never reaches the
    decoy, and leaves the engagements as they were. *)
Theorem decoy_and_scoring_exclude (b : Backend) (cid : string)
    (payload : Payload) (session : Session) :
  call_sessions b !! cid = Some session ->
  let out := handles b cid payload in
  (ai_handoff session = true ->
   Forall (fun e => scoring e = false) (events out)
   /\ call_sessions (backend out) = call_sessions b
   /\ call_contexts (backend out) = call_contexts b)
  /\ (ai_handoff session = false ->
      Forall (fun e => decoying e = false) (events out)
      /\ active_engagements (backend out) = active_engagements b).
Proof.
  intros Hs. cbv zeta.
  unfold handle_audio_chunk, get_session, Main.detect_voice_activity.
  rewrite Hs.
  destruct (hears _) as [r | exc];
    [| split; intros _; split_and!; try reflexivity; cbn; repeat constructor].
  destruct (AudioProcessor.is_speech r); cbn [negb];
    [| split; intros _; split_and!; try reflexivity; cbn; repeat constructor].
  split; intros ->.
  - rewrite route_to_decoy_backend.
    split_and!; [apply route_to_decoy_events | reflexivity | reflexivity].
  - rewrite score_turn_backend.
    split; [apply score_turn_events | reflexivity].
Qed.

(** The messages of the scoring path. *)
Lemma score_turn_messages b cid audio sequence transcript feats :
  let out := score_turn settings ml_model b64decode fernet_encrypt send_json
               b [Transcribe audio] cid audio sequence transcript feats in
  let sc0 := ThreatAnalyzer.threat_score (turn b cid transcript feats).2 in
  (forall cid' sc level tr alert,
      SendJson (threat_update cid' sc level tr alert) ∈ events out ->
      cid' = cid /\ sc = sc0 /\ transcript = Some tr
      /\ alert = Num.gtb sc0 (Config.threat_threshold_high settings))
  /\ (forall cid' sc,
        SendJson (threat_alert cid' sc) ∈ events out ->
        cid' = cid /\ sc = sc0
        /\ Num.gtb sc0 (Config.threat_threshold_high settings) = true
        /\ cid ∈ active_connections b
        /\ exists level tr,
             SendJson (threat_update cid sc0 level tr true) ∈ events out).
Proof.
  cbv zeta. unfold score_turn, on_error.
  destruct (analyze_realtime _ _ _ _ _ _) as [contexts result]. cbn [fst snd].
  destruct transcript as [current|];
    [| split; intros; match goal with H : _ ∈ _ |- _ => event_cases H end].
  destruct (send_json (threat_update _ _ _ _ _)); cbn [negb].
  2: { split; intros; match goal with H : _ ∈ _ |- _ => event_cases H end.
       injection H as -> -> -> -> ->. auto. }
  unfold update_session. cbn [active_connections].
  destruct (Num.gtb (ThreatAnalyzer.threat_score result)
              (Config.threat_threshold_high settings)) eqn:Hhigh;
    cbn [andb];
    [case_bool_decide as Hconn; cbn [andb];
     [destruct (send_json (threat_alert _ _)); cbn [negb] |] |];
    destruct (Num.gtb (ThreatAnalyzer.threat_score result)
                (Config.threat_threshold_low settings));
    (split; intros; match goal with H : _ ∈ _ |- _ => event_cases H end);
    try (injection H as -> -> -> -> ->; auto);
    try (injection H as -> ->; split_and!; auto; eexists _, _;
         cbn [events]; rewrite !elem_of_app, !elem_of_cons; eauto 10).
Qed.

(** X22: what the client is told agrees with what is kept.  Every
    threat update of a chunk is for its call, carries the transcript
    of the chunk and the score that the session then holds, with the
    status that goes with the score, and has its alert mark set
    exactly when the score is above the high threshold; every alert
    is for its call, which is connected, for a score above the high
    threshold, and follows an update with that score and the mark
    set. *)
Theorem updates_agree_with_the_session (b : Backend) (cid : string)
    (payload : Payload) :
  let audio := default "" (audio_data payload) in
  let out := handles b cid payload in
  (forall cid' sc level tr alert,
      SendJson (threat_update cid' sc level tr alert) ∈ events out ->
      cid' = cid /\ heard audio = Some tr
      /\ alert = Num.gtb sc (Config.threat_threshold_high settings)
      /\ exists session',
           call_sessions (backend out) !! cid = Some session'
           /\ Main.threat_score session' = sc
           /\ status session'
              = if Num.gtb sc (Config.threat_threshold_medium settings)
                then THREAT_DETECTED else MONITORING)
  /\ (forall cid' sc,
        SendJson (threat_alert cid' sc) ∈ events out ->
        cid' = cid /\ Config.threat_threshold_high settings < sc
        /\ cid ∈ active_connections b
        /\ exists level tr,
             SendJson (threat_update cid sc level tr true) ∈ events out).
Proof.
  cbv zeta.
  unfold handle_audio_chunk, get_session, Main.detect_voice_activity, on_error.
  destruct (call_sessions b !! cid) as [session|] eqn:Hs;
    [| split; intros; match goal with H : _ ∈ _ |- _ => event_cases H end].
  destruct (hears _) as [r | exc];
    [| split; intros; match goal with H : _ ∈ _ |- _ => event_cases H end].
  destruct (AudioProcessor.is_speech r); cbn [negb];
    [| split; intros; match goal with H : _ ∈ _ |- _ => event_cases H end].
  destruct (ai_handoff session).
  - pose proof (route_to_decoy_events b cid (default "" (audio_data payload))
                  (Main.transcribe b64decode whisper_model
                     (default "" (audio_data payload)))) as Hnone.
    rewrite Forall_forall in Hnone.
    split; intros; match goal with H : _ ∈ _ |- _ =>
      apply Hnone in H; discriminate H end.
  - rewrite score_turn_backend.
    destruct (score_turn_messages b cid (default "" (audio_data payload))
                (default 0%Z (sequence_number payload))
                (Main.transcribe b64decode whisper_model
                   (default "" (audio_data payload)))
                (AudioProcessor.features r)) as (Hupdate & Halert).
    split.
    + intros cid' sc level tr alert Hin.
      destruct (Hupdate _ _ _ _ _ Hin) as (-> & -> & Htr & ->).
      split_and!; [reflexivity | exact Htr | reflexivity |].
      unfold update_session. cbn [call_sessions].
      rewrite lookup_alter_eq, Hs. eexists. split; [reflexivity |].
      split; reflexivity.
    + intros cid' sc Hin.
      destruct (Halert _ _ Hin) as (-> & -> & Hhigh & Hconn & Hupd).
      split_and!; [reflexivity | apply gtb_true; exact Hhigh | exact Hconn
                  | exact Hupd].
Qed.

Lemma silent_caller_gets_no_reply engagements cid :
  forall reply,
    (BaitAgent.process_caller_input canned_reply engagements cid None).2
    <> Returned (Some reply).
Proof.
  intros reply. unfold BaitAgent.process_caller_input.
  destruct (engagements !! cid); cbn; discriminate.
Qed.

(** X23: a chunk that is speech but that the transcriber returns
    nothing for is reported nowhere: no threat update, no alert, no
    reply of the decoy and no stored audio.  Yet off the decoy it is
    scored: its score enters the history and the session, and the
    client is sent the validation error of the update. *)
Theorem failed_transcription_reports_nothing (b : Backend) (cid : string)
    (payload : Payload) :
  let audio := default "" (audio_data payload) in
  let out := handles b cid payload in
  heard audio = None ->
  Forall (fun e => reporting e = false) (events out)
  /\ forall session r,
       call_sessions b !! cid = Some session -> ai_handoff session = false ->
       hears audio = Returned r -> AudioProcessor.is_speech r = true ->
       events out = [Transcribe audio; AnalyzeRealtime cid None;
                     SendJson (error_message "ValidationError")]
       /\ backend out = scored b cid None (AudioProcessor.features r).
Proof.
  cbv zeta. intros Hnone.
  unfold handle_audio_chunk, get_session, Main.detect_voice_activity,
    Main.transcribe, on_error.
  rewrite Hnone.
  destruct (call_sessions b !! cid) as [session|] eqn:Hs;
    [| split; [cbn; repeat constructor | discriminate]].
  destruct (hears _) as [r | exc];
    [| split; [cbn; repeat constructor | discriminate]].
  destruct (AudioProcessor.is_speech r) eqn:Hspeech; cbn [negb];
    [| split; [cbn; repeat constructor
              | intros ? ? _ _ [= <-] ?; congruence]].
  destruct (ai_handoff session) eqn:Hhandoff.
  - split; [| intros ? ? [= <-] ?; congruence].
    unfold route_to_decoy, on_error.
    pose proof (silent_caller_gets_no_reply (active_engagements b) cid) as Hno.
    destruct (BaitAgent.process_caller_input _ _ _ _)
      as [engs [[reply|] | exc]]; cbn [snd] in Hno;
      [destruct (Hno reply eq_refl) | destruct (send_json _) |];
      cbn; repeat constructor.
  - unfold score_turn, on_error.
    destruct (analyze_realtime _ _ _ _ _ _) as [contexts result] eqn:Hturn.
    split; [cbn; repeat constructor |].
    intros ? r' [= <-] _ [= <-] _. rewrite Hturn. split; reflexivity.
Qed.

End HandlerFrame.

Section HandlerFrameWitness.

Import ThreatAnalyzer Main Control Examples.
Local Open Scope Q_scope.

Lemma chunk_touches_its_call_only_witness :
  let b := connected "call-5" in
  let out := handle_audio_chunk Config.defaults None
               (fun _ => Some short_loud_chunk) None (fun _ => ∅)
               (Some (fun _ => Some alarm_turn)) (fun _ _ => None)
               (fun _ _ => "Ji?") (fun _ => true) b "call-5"
               {| audio_data := Some "chunk"; sequence_number := Some 7%Z |} in
  active_connections (backend out) = active_connections b.
Proof.
  cbv zeta.
  exact (proj1 (chunk_touches_its_call_only Config.defaults None
                  (fun _ => Some short_loud_chunk) None (fun _ => ∅)
                  (Some (fun _ => Some alarm_turn)) (fun _ _ => None)
                  (fun _ _ => "Ji?") (fun _ => true) (connected "call-5")
                  "call-5"
                  {| audio_data := Some "chunk";
                     sequence_number := Some 7%Z |})).
Defined.

Lemma decoy_and_scoring_exclude_witness :
  let b := connected "call-5" in
  let out := handle_audio_chunk Config.defaults None
               (fun _ => Some short_loud_chunk) None (fun _ => ∅)
               (Some (fun _ => Some alarm_turn)) (fun _ _ => None)
               (fun _ _ => "Ji?") (fun _ => true) b "call-5"
               {| audio_data := Some "chunk"; sequence_number := Some 7%Z |} in
  Forall (fun e => decoying e = false) (events out)
  /\ active_engagements (backend out) = active_engagements b.
Proof.
  cbv zeta.
  apply (decoy_and_scoring_exclude Config.defaults None
           (fun _ => Some short_loud_chunk) None (fun _ => ∅)
           (Some (fun _ => Some alarm_turn)) (fun _ _ => None)
           (fun _ _ => "Ji?") (fun _ => true) (connected "call-5") "call-5"
           {| audio_data := Some "chunk"; sequence_number := Some 7%Z |}
           {| audio_chunks_received := 0; Main.threat_score := 0;
              status := CONNECTED; ai_handoff := false |}).
  - vm_compute. reflexivity.
  - reflexivity.
Defined.

Lemma failed_transcription_reports_nothing_witness :
  let out := handle_audio_chunk Config.defaults None
               (fun _ => Some short_loud_chunk) None (fun _ => ∅)
               None (fun _ _ => None)
               (fun _ _ => "Ji?") (fun _ => true) (connected "call-5") "call-5"
               {| audio_data := Some "chunk"; sequence_number := Some 7%Z |} in
  Forall (fun e => reporting e = false) (events out).
Proof.
  cbv zeta.
  apply (failed_transcription_reports_nothing Config.defaults None
           (fun _ => Some short_loud_chunk) None (fun _ => ∅)
           None (fun _ _ => None)
           (fun _ _ => "Ji?") (fun _ => true) (connected "call-5") "call-5"
           {| audio_data := Some "chunk"; sequence_number := Some 7%Z |}).
  reflexivity.
Defined.

Lemma updates_agree_with_the_session_witness :
  let out := handle_audio_chunk Config.defaults None
               (fun _ => Some short_loud_chunk) None (fun _ => ∅)
               (Some (fun _ => Some alarm_turn)) (fun _ _ => None)
               (fun _ _ => "Ji?") (fun _ => true) (connected "call-5") "call-5"
               {| audio_data := Some "chunk"; sequence_number := Some 7%Z |} in
  SendJson (threat_update "call-5" 0.667 HIGH alarm_turn false) ∈ events out
  /\ false = Num.gtb 0.667 (Config.threat_threshold_high Config.defaults).
Proof.
  cbv zeta.
  assert (Hand : forall A B : Prop, A -> (A -> B) -> A /\ B) by tauto.
  apply Hand; clear Hand.
  - vm_compute. do 2 apply list_elem_of_further. apply list_elem_of_here.
  - intros Hin.
    pose proof (updates_agree_with_the_session Config.defaults None
             (fun _ => Some short_loud_chunk) None (fun _ => ∅)
             (Some (fun _ => Some alarm_turn)) (fun _ _ => None)
             (fun _ _ => "Ji?") (fun _ => true)
             (connected "call-5") "call-5"
             {| audio_data := Some "chunk"; sequence_number := Some 7%Z |})
      as [H _].
    specialize (H "call-5" 0.667 HIGH alarm_turn false Hin).
    exact (proj1 (proj2 (proj2 H))).
Defined.

End HandlerFrameWitness.

(** ** The socket loop *)

Section Endpoint.

Import ThreatAnalyzer Main Control.
Local Open Scope Q_scope.

Variable settings : Config.Settings.
Variable ml_model : option MlModel.
Variable b64decode : string -> option (list Z).
Variable vad : option (list Z -> option bool).
Variable _extract_features : list Z -> AudioFeatures.
Variable whisper_model : option (list Z -> option string).
Variable fernet_encrypt : string -> list Z -> option (list Z).
Variable canned_reply : BaitAgent.Intent -> string -> string.
Variable greeting : string -> string.
Variable send_json : WsMessage -> bool.
Variable send_control : ControlMessage -> bool.

Abbreviation on_chunk :=
  (handle_audio_chunk settings ml_model b64decode vad _extract_features
     whisper_model fernet_encrypt canned_reply send_json).
Abbreviation on_message :=
  (dispatch settings ml_model b64decode vad _extract_features whisper_model
     fernet_encrypt canned_reply greeting send_json send_control).
Abbreviation loop :=
  (receive settings ml_model b64decode vad _extract_features whisper_model
     fernet_encrypt canned_reply greeting send_json send_control).
Abbreviation endpoint :=
  (websocket_endpoint settings ml_model b64decode vad _extract_features
     whisper_model fernet_encrypt canned_reply greeting send_json send_control).
Abbreviation on_handoff := (handle_handoff_request settings greeting send_control).

Lemma same_elsewhere_refl cid b : same_elsewhere cid b b.
Proof. intros other _. split_and!; reflexivity. Qed.

Lemma same_elsewhere_trans cid b1 b2 b3 :
  same_elsewhere cid b1 b2 -> same_elsewhere cid b2 b3 ->
  same_elsewhere cid b1 b3.
Proof.
  intros H12 H23 other Hne.
  destruct (H12 other Hne) as (Ha & Hb & Hc & Hd).
  destruct (H23 other Hne) as (Ha' & Hb' & Hc' & Hd').
  split_and!; [rewrite Ha', Ha; reflexivity | congruence ..].
Qed.

Lemma connect_elsewhere cid b : same_elsewhere cid b (connect b cid).
Proof.
  intros other Hne. unfold connect.
  cbn [active_connections call_sessions call_contexts active_engagements].
  split_and!;
    [rewrite elem_of_union, elem_of_singleton; tauto | | reflexivity
    | reflexivity].
  apply lookup_insert_ne. congruence.
Qed.

Lemma disconnect_elsewhere cid b : same_elsewhere cid b (disconnect b cid).
Proof.
  intros other Hne. unfold disconnect.
  cbn [active_connections call_sessions call_contexts active_engagements].
  split_and!;
    [rewrite elem_of_difference, elem_of_singleton; tauto | | reflexivity
    | reflexivity].
  apply lookup_delete_ne. congruence.
Qed.

Lemma dispatch_elsewhere cid b msg :
  same_elsewhere cid b (on_message b cid msg).1.1.
Proof.
  destruct msg as [payload | persona_arg | | | msg_type]; cbn [dispatch fst].
  - destruct (handler_frame settings ml_model b64decode vad _extract_features
                whisper_model fernet_encrypt canned_reply send_json
                b cid payload) as (Hconn & Hothers).
    intros other Hne. destruct (Hothers other Hne) as (Hs & Hc & He).
    rewrite Hconn. split_and!; [reflexivity | assumption ..].
  - intros other Hne.
    unfold handle_handoff_request, deliver, with_engagements, update_session,
      BaitAgent.start_engagement.
    cbn [fst active_connections call_sessions call_contexts active_engagements].
    split_and!; [reflexivity | | reflexivity |].
    + apply lookup_alter_ne. congruence.
    + apply lookup_insert_ne. congruence.
  - intros other Hne.
    unfold handle_terminate_bait, deliver, with_engagements, update_session,
      BaitAgent.terminate_engagement.
    cbn [fst active_connections call_sessions call_contexts active_engagements].
    split_and!; [reflexivity | | reflexivity |].
    + apply lookup_alter_ne. congruence.
    + destruct (active_engagements b !! cid); cbn [fst]; [| reflexivity].
      apply lookup_delete_ne. congruence.
  - apply same_elsewhere_refl.
  - apply same_elsewhere_refl.
Qed.

Lemma receive_ends_disconnected cid msgs :
  forall b,
    exists b', (loop b cid msgs).1.1 = disconnect b' cid
               /\ same_elsewhere cid b b'.
Proof.
  induction msgs as [|msg msgs IH]; intros b; cbn [receive].
  - exists b. split; [reflexivity | apply same_elsewhere_refl].
  - pose proof (dispatch_elsewhere cid b msg) as Hstep.
    destruct (on_message b cid msg) as [[b1 sent] [exc|]]; cbn [fst] in Hstep.
    + exists b1. split; [reflexivity | exact Hstep].
    + destruct (IH b1) as (b' & Hend & Hrest).
      destruct (loop b1 cid msgs) as [[b2 sent'] exc']. cbn [fst] in *.
      exists b'. split; [exact Hend |].
      eapply same_elsewhere_trans; eassumption.
Qed.

(** X24: however the messages of a connection run, and whether the
    loop ends with the client going away or with an exception, the
    call ends with no connection and no session, and the connections,
    sessions, score histories and engagements of all other calls are
    the ones from before it connected. *)
Theorem endpoint_ends_disconnected (b : Backend) (cid : string)
    (msgs : list Incoming) :
  let final := (endpoint b cid msgs).1.1 in
  (cid ∉ active_connections final)
  /\ call_sessions final !! cid = None
  /\ forall other, other <> cid ->
       (other ∈ active_connections final <-> other ∈ active_connections b)
       /\ call_sessions final !! other = call_sessions b !! other
       /\ call_contexts final !! other = call_contexts b !! other
       /\ active_engagements final !! other = active_engagements b !! other.
Proof.
  cbv zeta. unfold websocket_endpoint.
  destruct (receive_ends_disconnected cid msgs (connect b cid))
    as (b' & -> & Hrest).
  split_and!.
  - unfold disconnect. cbn [active_connections].
    rewrite elem_of_difference, elem_of_singleton. intros [_ Hne].
    apply Hne. reflexivity.
  - unfold disconnect. cbn [call_sessions]. apply lookup_delete_eq.
  - apply (same_elsewhere_trans cid b (connect b cid));
      [apply connect_elsewhere |].
    apply (same_elsewhere_trans cid _ b'); [exact Hrest |].
    apply disconnect_elsewhere.
Qed.

(** X25: once a call is handed off, its speech goes to the decoy: the
    next chunk that is speech and is transcribed is given to the new
    engagement, and what is sent back is the decoy's first reply, for
    the intent of the words and a persona of the three, with the
    entities found in them, and nothing of a threat. *)
Theorem handed_off_speech_goes_to_the_decoy (b : Backend) (cid : string)
    (persona_arg : option string) (payload : Payload) (session : Session)
    (r : AudioProcessor.VadResult) (said : string) :
  let b1 := (on_handoff b cid persona_arg).1.1 in
  let audio := default "" (audio_data payload) in
  call_sessions b !! cid = Some session ->
  AudioProcessor.detect_voice_activity settings b64decode vad
    _extract_features audio = Returned r ->
  AudioProcessor.is_speech r = true ->
  AudioProcessor.transcribe b64decode whisper_model audio = Some said ->
  exists persona,
    persona ∈ BaitAgent.PERSONAS
    /\ let answer :=
         SendJson
           (ai_response cid
              (Some {| BaitAgent.reply_text :=
                         canned_reply (BaitAgent.intent_of said) persona;
                       BaitAgent.intelligence :=
                         IntelligenceExtractor.extract (Some said);
                       BaitAgent.reply_stage := BaitAgent.initial |})) in
       events (on_chunk b1 cid payload)
       = [Transcribe audio; DecoyInput cid (Some said); answer]
         ++ (if send_json
                  (ai_response cid
                     (Some {| BaitAgent.reply_text :=
                                canned_reply (BaitAgent.intent_of said) persona;
                              BaitAgent.intelligence :=
                                IntelligenceExtractor.extract (Some said);
                              BaitAgent.reply_stage := BaitAgent.initial |}))
             then [] else [SendJson (error_message "send_json")]).
Proof.
  cbv zeta. intros Hs Hr Hspeech Hsaid.
  unfold handle_handoff_request, deliver, with_engagements, update_session,
    BaitAgent.start_engagement.
  cbn [fst active_connections call_sessions call_contexts active_engagements].
  set (persona :=
         if bool_decide
              (default (Config.bait_agent_persona settings)
                 (nonempty persona_arg) ∈ BaitAgent.PERSONAS)
         then default (Config.bait_agent_persona settings) (nonempty persona_arg)
         else "confused_senior").
  exists persona. split.
  { subst persona. case_bool_decide as Hin; [exact Hin | apply list_elem_of_here]. }
  unfold handle_audio_chunk, get_session, Main.detect_voice_activity,
    Main.transcribe.
  cbn [call_sessions]. rewrite lookup_alter_eq, Hs. cbn [fmap option_fmap option_map].
  rewrite Hr, Hspeech, Hsaid. cbn [negb ai_handoff].
  unfold route_to_decoy, BaitAgent.process_caller_input.
  cbn [active_engagements]. rewrite lookup_insert_eq.
  cbn [BaitAgent._generate_response].
  destruct (send_json _); reflexivity.
Qed.

Lemma scored_status_is_not_handoff (above : bool) :
  (if above then THREAT_DETECTED else MONITORING) <> AI_HANDOFF.
Proof. destruct above; discriminate. Qed.

(** X26: on a connection the hand-off mark, the status and the
    decoy's registry stay in step.  Right after [connect], and after
    every message handled from a state where it holds, the session of
    the call is marked as handed off exactly when its status is
    AI_HANDOFF, and a call so marked has an engagement: so speech
    routed to the decoy always finds one. *)
Theorem handoff_mark_stays_consistent (b : Backend) (cid : string) :
  handoff_consistent (connect b cid) cid
  /\ forall msg,
       handoff_consistent b cid ->
       handoff_consistent (on_message b cid msg).1.1 cid.
Proof.
  split.
  - intros session. unfold connect. cbn [call_sessions active_engagements].
    rewrite lookup_insert_eq. intros [= <-]. cbn [ai_handoff status].
    split; [split; intros Habs; discriminate Habs
           | intros Habs; discriminate Habs].
  - intros msg Hok.
    destruct msg as [payload | persona_arg | | | msg_type]; cbn [dispatch fst].
    + destruct (handler_backend settings ml_model b64decode vad
                  _extract_features whisper_model fernet_encrypt canned_reply
                  send_json b cid payload)
        as [-> | [(s & Hs & Hh & ->) | (s & r & Hs & Hh & Hr & ->)]].
      * exact Hok.
      * intros session. cbn [call_sessions active_engagements].
        intros Hsession. destruct (Hok session Hsession) as (Hmark & Hlive).
        split; [exact Hmark |]. intros Hon.
        destruct (Hlive Hon) as (state & Hstate).
        destruct (process_caller_input_live canned_reply _ cid
                    (AudioProcessor.transcribe b64decode whisper_model
                       (default "" (audio_data payload))) state Hstate)
          as (state' & -> & _).
        rewrite lookup_insert_eq. eexists. reflexivity.
      * intros session. unfold update_session.
        set (outcome := analyze_realtime _ _ _ _ _ _). clearbody outcome.
        cbn [call_sessions active_engagements].
        rewrite lookup_alter_eq, Hs. intros [= <-]. cbn [ai_handoff status].
        rewrite Hh.
        split; [split; intros Habs; [discriminate Habs |] | intros Habs].
        -- exfalso. exact (scored_status_is_not_handoff _ Habs).
        -- discriminate Habs.
    + intros session.
      unfold handle_handoff_request, deliver, with_engagements, update_session,
        BaitAgent.start_engagement.
      cbn [fst call_sessions active_engagements].
      rewrite lookup_alter_eq, lookup_insert_eq.
      destruct (call_sessions b !! cid); [| intros Habs; discriminate Habs].
      intros [= <-]. cbn [fmap option_fmap option_map ai_handoff status].
      split; [split; reflexivity | intros _; eexists; reflexivity].
    + intros session.
      unfold handle_terminate_bait, deliver, with_engagements, update_session.
      cbn [fst call_sessions active_engagements].
      rewrite lookup_alter_eq.
      destruct (call_sessions b !! cid); [| intros Habs; discriminate Habs].
      intros [= <-]. cbn [fmap option_fmap option_map ai_handoff status].
      split; [split; intros Habs; discriminate Habs
             | intros Habs; discriminate Habs].
    + exact Hok.
    + exact Hok.
Qed.

End Endpoint.

Section EndpointWitness.

Import ThreatAnalyzer Main Control Examples.

Lemma handoff_mark_stays_consistent_witness :
  handoff_consistent
    (handle_handoff_request Config.defaults (fun _ => "Hello?")
       (fun _ => true) (connected "call-7") "call-7" None).1.1 "call-7".
Proof.
  apply (proj2 (handoff_mark_stays_consistent Config.defaults None
                  (fun _ => Some short_loud_chunk) None (fun _ => ∅)
                  (Some (fun _ => Some alarm_turn)) (fun _ _ => None)
                  (fun _ _ => "Ji?") (fun _ => "Hello?") (fun _ => true)
                  (fun _ => true) (connected "call-7") "call-7")
               (handoff_request None)).
  apply (proj1 (handoff_mark_stays_consistent Config.defaults None
                  (fun _ => Some short_loud_chunk) None (fun _ => ∅)
                  (Some (fun _ => Some alarm_turn)) (fun _ _ => None)
                  (fun _ _ => "Ji?") (fun _ => "Hello?") (fun _ => true)
                  (fun _ => true)
                  {| active_connections := ∅; call_sessions := ∅;
                     call_contexts := ∅; active_engagements := ∅ |} "call-7")).
Defined.

Lemma handed_off_speech_goes_to_the_decoy_witness :
  exists persona, persona ∈ BaitAgent.PERSONAS.
Proof.
  destruct (handed_off_speech_goes_to_the_decoy Config.defaults None
              (fun _ => Some short_loud_chunk) None (fun _ => ∅)
              (Some (fun _ => Some alarm_turn)) (fun _ _ => None)
              (fun _ _ => "Ji?") (fun _ => "Hello?") (fun _ => true)
              (fun _ => true) (connected "call-7") "call-7" None
              {| audio_data := Some "chunk"; sequence_number := Some 1%Z |}
              {| audio_chunks_received := 0; Main.threat_score := 0;
                 status := CONNECTED; ai_handoff := false |}
              {| AudioProcessor.is_speech := true;
                 AudioProcessor.speech_duration_ms := 0;
                 AudioProcessor.speech_ratio := Some 0%Q;
                 AudioProcessor.features := ∅ |}
              alarm_turn) as (persona & Hin & _).
  - vm_compute. reflexivity.
  - vm_compute. reflexivity.
  - reflexivity.
  - vm_compute. reflexivity.
  - exists persona. exact Hin.
Defined.

End EndpointWitness.

(** ** The evidence package and its signature *)

Section Evidence.

Import EvidencePackager.

Variable secret_key : string.
Variable sha256 : string -> string.
Variable json_dumps : Canonical -> string.

Abbreviation signs := (_sign_package secret_key sha256 json_dumps).
Abbreviation verifies := (verify_package secret_key sha256 json_dumps).

(** The signature reads nine things of a package. *)
Lemma signature_reads (p p' : EvidencePackage) :
  package_id p' = package_id p -> call_id p' = call_id p ->
  created_at p' = created_at p -> phone_number p' = phone_number p ->
  call_duration_seconds p' = call_duration_seconds p ->
  threat_level p' = threat_level p ->
  audio_file_hash p' = audio_file_hash p ->
  transcript p' = transcript p ->
  length (entities p') = length (entities p) ->
  signs p' = signs p.
Proof.
  intros H1 H2 H3 H4 H5 H6 H7 H8 H9. unfold _sign_package.
  rewrite H1, H2, H3, H4, H5, H6, H7, H8, H9. reflexivity.
Qed.

(** X27: a package verifies exactly when it was asked to be signed: a
    package that [create_package] signs passes [verify_package], one
    that it does not sign fails it. *)
Theorem created_package_verifies_iff_signed (new_id now cid : string)
    (include_audio include_transcript include_intelligence sign_package : bool) :
  verify_package secret_key sha256 json_dumps
    (create_package secret_key sha256 json_dumps new_id now cid include_audio
       include_transcript include_intelligence sign_package)
  = sign_package.
Proof.
  unfold create_package, verify_package.
  destruct sign_package; [| reflexivity].
  cbn [signature with_signature].
  erewrite signature_reads; [apply String.eqb_refl | reflexivity ..].
Qed.

(** X28: the signature covers neither the chain of custody, nor the
    threat timeline, nor what the entities are: a package that agrees
    with another on the identifiers, the date, the number, the
    duration, the level, the audio hash, the transcript, the number of
    entities and the signature's hash verifies as the other does; so a
    custody entry can be added to a signed package, and it still
    verifies. *)
Theorem signature_leaves_custody_open (p : EvidencePackage) :
  (forall p',
      package_id p' = package_id p -> call_id p' = call_id p ->
      created_at p' = created_at p -> phone_number p' = phone_number p ->
      call_duration_seconds p' = call_duration_seconds p ->
      threat_level p' = threat_level p ->
      audio_file_hash p' = audio_file_hash p ->
      transcript p' = transcript p ->
      length (entities p') = length (entities p) ->
      hash_value <$> signature p' = hash_value <$> signature p ->
      verifies p' = verifies p)
  /\ (forall act who what,
        verifies (add_custody_entry p act who what) = verifies p)
  /\ (signature p = None -> verifies p = false).
Proof.
  assert (Hgen : forall p',
      package_id p' = package_id p -> call_id p' = call_id p ->
      created_at p' = created_at p -> phone_number p' = phone_number p ->
      call_duration_seconds p' = call_duration_seconds p ->
      threat_level p' = threat_level p ->
      audio_file_hash p' = audio_file_hash p ->
      transcript p' = transcript p ->
      length (entities p') = length (entities p) ->
      hash_value <$> signature p' = hash_value <$> signature p ->
      verifies p' = verifies p).
  { intros p' H1 H2 H3 H4 H5 H6 H7 H8 H9 Hsig. unfold verify_package.
    destruct (signature p') as [sg'|], (signature p) as [sg|];
      cbn in Hsig; try discriminate; [| reflexivity].
    injection Hsig as ->.
    rewrite (signature_reads (with_signature p None) (with_signature p' None))
      by (cbn; congruence).
    reflexivity. }
  split_and!.
  - exact Hgen.
  - intros act who what. apply Hgen; reflexivity.
  - intros Hnone. unfold verify_package. rewrite Hnone. reflexivity.
Qed.

End Evidence.

Section EvidenceWitness.

Import EvidencePackager.

Lemma signature_leaves_custody_open_witness :
  let p := create_package "key" (fun s => s) (fun c => c_package_id c)
             "RAK-1" "2024-01-01" "call-1" true true true true in
  verify_package "key" (fun s => s) (fun c => c_package_id c)
    (add_custody_entry p "submitted" "officer" "Handed to the cyber cell")
  = verify_package "key" (fun s => s) (fun c => c_package_id c) p.
Proof.
  cbv zeta.
  apply (signature_leaves_custody_open "key" (fun s => s)
           (fun c => c_package_id c)).
Defined.

End EvidenceWitness.

(** ** The bounds at concrete turns *)

Section AnalyzerWitnesses.

Import ThreatAnalyzer Examples MoreExamples.
Local Open Scope Q_scope.

Lemma analyze_score_in_unit_interval_witness :
  let r := analyze Config.defaults (Some sure_classifier)
             (Some kyc_transcript) None in
  0 <= threat_score r <= 1.
Proof.
  cbv zeta.
  refine (proj1 (analyze_score_in_unit_interval Config.defaults
                   (Some sure_classifier) (Some kyc_transcript) None _)).
  intros m s out [= <-] [= <-]. cbn [proba].
  constructor; [split; discriminate |].
  constructor; [split; discriminate |]. constructor.
Defined.

Lemma context_never_lowers_the_score_witness :
  threat_score (analyze Config.defaults (Some sure_classifier)
                  (Some kyc_transcript) None)
  <= threat_score (analyze_realtime Config.defaults (Some sure_classifier) ∅
                     "call-1" (Some kyc_transcript) None).2.
Proof.
  refine (proj1 (context_never_lowers_the_score Config.defaults
                   (Some sure_classifier) ∅ "call-1" (Some kyc_transcript)
                   None _)).
  intros m s out [= <-] [= <-]. cbn [proba].
  constructor; [split; discriminate |].
  constructor; [split; discriminate |]. constructor.
Defined.

Lemma no_escalation_before_third_score_witness :
  escalation_detected
    (analyze_realtime Config.defaults None ∅ "call-1" (Some alarm_turn) None).2
  = false.
Proof.
  refine (proj1 (no_escalation_before_third_score Config.defaults None ∅
                   "call-1" (Some alarm_turn) None _)).
  vm_compute. lia.
Defined.

Lemma clean_turn_is_safe_witness :
  threat_level (analyze Config.defaults None (Some delivery_turn) None) = SAFE.
Proof.
  refine (proj1 (proj2 (clean_turn_is_safe Config.defaults delivery_turn
                          _ _ _ _ _ _ _))).
  - discriminate.
  - repeat (constructor; [vm_compute; reflexivity |]). constructor.
  - repeat (constructor;
            [repeat (constructor; [vm_compute; reflexivity |]); constructor |]).
    constructor.
  - left. vm_compute. lia.
  - reflexivity.
  - reflexivity.
  - reflexivity.
Defined.

End AnalyzerWitnesses.
